(** * mysql-sync: the reconciliation engine and its field converters

    A shallow embedding of [config_loader.py], [state_manager.py] and
    [sync_engine.py], followed by the properties of the specification that
    are settled against it.

    Conventions of the embedding.
    - A Python [str] is a Rocq [string] holding the UTF-8 encoding of the
      text; a [bytes] object is a [string] holding its bytes.  Byte order on
      UTF-8 agrees with code point order, so [String.leb] is Python's [<=] on
      [str].  The character predicates [str.lower] and [str.isdigit] are
      embedded on their ASCII behaviour.
    - A raised exception is the [Raise] outcome of a [result]; effects on the
      SQLite file and on the remote table are state passed explicitly.
    - What the interpreter and its standard library decide (the text of a
      [float], the numbers [float] reads in text outside ASCII, the grammar
      of [datetime.fromisoformat]) is an interface, [Runtime]; what is
      around the engine (the MySQL client, the SmartSuite client, the clock
      and the state file) is another, [Environment]. *)

From Stdlib Require Import ZArith List String Ascii Lia Bool.
From stdpp Require Import base gmap strings list sorting pretty.

(** ** Exceptions and results *)

Inductive exn : Type :=
| KeyError (key : string)
| ValueError
| TypeError
| OverflowError
| UnicodeDecodeError
| IntegrityError
| External (message : string).

Inductive result (A : Type) : Type :=
| Ok (a : A)
| Raise (e : exn).
Arguments Ok {A} a.
Arguments Raise {A} e.

Definition is_ok {A} (r : result A) : bool :=
  match r with Ok _ => true | Raise _ => false end.

Definition rbind {A B} (r : result A) (k : A -> result B) : result B :=
  match r with Ok a => k a | Raise e => Raise e end.

(** [str(e)] of an exception, as stored in a failed run. *)
Definition exn_str (e : exn) : string :=
  match e with
  | KeyError k => "'" +:+ k +:+ "'"
  | ValueError => "ValueError"
  | TypeError => "TypeError"
  | OverflowError => "OverflowError"
  | UnicodeDecodeError => "UnicodeDecodeError"
  | IntegrityError => "IntegrityError"
  | External m => m
  end.

(** ** Python values *)

Module Py.

Record date := Date { year : Z; month : Z; day : Z }.

Record datetime := Datetime {
  on_day : date;
  hour : Z; minute : Z; second : Z; microsecond : Z;
  utcoffset : option Z   (* tzinfo: offset from UTC in seconds, or naive *)
}.

#[warnings="-register-all"]
Inductive pyval : Type :=
| VNone
| VBool (b : bool)
| VInt (z : Z)
| VFloat (repr : string)      (* a float, carried as its [repr] *)
| VDecimal (text : string)    (* a decimal.Decimal, carried as its [str] *)
| VStr (s : string)
| VBytes (b : string)
| VDate (d : date)
| VDatetime (dt : datetime)
| VList (items : list pyval)
| VDict (items : list (string * pyval)).

(** A dict keeps insertion order and has unique keys: an association list
    on which assignment overwrites in place or appends. *)
Definition pydict := list (string * pyval).

Fixpoint dict_get {V} (k : string) (d : list (string * V)) : option V :=
  match d with
  | [] => None
  | (k', v) :: d' => if String.eqb k k' then Some v else dict_get k d'
  end.

Fixpoint dict_set {V} (k : string) (v : V) (d : list (string * V)) : list (string * V) :=
  match d with
  | [] => [(k, v)]
  | (k', v') :: d' =>
      if String.eqb k k' then (k, v) :: d' else (k', v') :: dict_set k v d'
  end.

Definition dict_mem {V} (k : string) (d : list (string * V)) : bool :=
  match dict_get k d with Some _ => true | None => false end.

Definition keys {V} (d : list (string * V)) : list string := map fst d.

(** *** Text helpers *)

(** [%0<w>d] for a non-negative number. *)
Definition zero_pad (w : nat) (n : Z) : string :=
  let s := pretty n in
  String.string_of_list_ascii (repeat "0"%char (w - String.length s)) +:+ s.

Definition is_ascii_upper (c : ascii) : bool :=
  let n := N_of_ascii c in ((65 <=? n) && (n <=? 90))%N.

Definition is_ascii_digit (c : ascii) : bool :=
  let n := N_of_ascii c in ((48 <=? n) && (n <=? 57))%N.

(** [str.lower]: ASCII letters, and the one character outside ASCII whose
    lower case is inside it (KELVIN SIGN, UTF-8 E2 84 AA, lowers to k);
    other characters are kept, which leaves comparison with an ASCII word
    exact. *)
Fixpoint lower (s : string) : string :=
  match s with
  | EmptyString => EmptyString
  | String c s' =>
      let keep := String (if is_ascii_upper c
                          then ascii_of_N (N_of_ascii c + 32) else c) (lower s') in
      if Ascii.eqb c "226"%char then
        match s' with
        | String c1 (String c2 s'') =>
            if Ascii.eqb c1 "132"%char && Ascii.eqb c2 "170"%char
            then String "k"%char (lower s'') else keep
        | _ => keep
        end
      else keep
  end.

Fixpoint ascii_text (s : string) : bool :=
  match s with
  | EmptyString => true
  | String c s' => (N_of_ascii c <? 128)%N && ascii_text s'
  end.

(** [str.isdigit] on ASCII text.  Outside ASCII a text can pass [isdigit]
    and [int] still raise on it; the theorems that go through it ask for
    ASCII text. *)
Fixpoint all_digits (s : string) : bool :=
  match s with
  | EmptyString => true
  | String c s' => is_ascii_digit c && all_digits s'
  end.

Definition isdigit (s : string) : bool :=
  match s with EmptyString => false | _ => all_digits s end.

(** [int(s)] for a string of ASCII digits. *)
Fixpoint int_of_digits (acc : Z) (s : string) : Z :=
  match s with
  | EmptyString => acc
  | String c s' => int_of_digits (10 * acc + (Z.of_N (N_of_ascii c) - 48)) s'
  end.

(** [s.replace('Z', '+00:00')]: every occurrence. *)
Fixpoint replace_Z (s : string) : string :=
  match s with
  | EmptyString => EmptyString
  | String c s' =>
      if Ascii.eqb c "Z"%char then "+00:00" +:+ replace_Z s'
      else String c (replace_Z s')
  end.

Definition join (sep : string) (l : list string) : string := String.concat sep l.

Definition hex_digit (n : N) : ascii :=
  if (n <? 10)%N then ascii_of_N (48 + n) else ascii_of_N (87 + n).

(** [n] as [w] lower-case hexadecimal digits. *)
Fixpoint hex (w : nat) (n : N) : string :=
  match w with
  | O => EmptyString
  | S w' => hex w' (n / 16) +:+ String (hex_digit (n mod 16)) EmptyString
  end.

Fixpoint contains_char (c : ascii) (s : string) : bool :=
  match s with
  | EmptyString => false
  | String c' s' => Ascii.eqb c c' || contains_char c s'
  end.

(** *** [isoformat] *)

Definition date_isoformat (d : date) : string :=
  zero_pad 4 (year d) +:+ "-" +:+ zero_pad 2 (month d) +:+ "-" +:+ zero_pad 2 (day d).

Definition offset_text (o : Z) : string :=
  let a := Z.abs o in
  (if (o <? 0)%Z then "-" else "+")
  +:+ zero_pad 2 (a / 3600) +:+ ":" +:+ zero_pad 2 ((a / 60) mod 60)
  +:+ (if (a mod 60 =? 0)%Z then EmptyString else ":" +:+ zero_pad 2 (a mod 60)).

Definition datetime_isoformat (sep : string) (dt : datetime) : string :=
  date_isoformat (on_day dt) +:+ sep
  +:+ zero_pad 2 (hour dt) +:+ ":" +:+ zero_pad 2 (minute dt) +:+ ":" +:+ zero_pad 2 (second dt)
  +:+ (if (microsecond dt =? 0)%Z then EmptyString else "." +:+ zero_pad 6 (microsecond dt))
  +:+ match utcoffset dt with None => EmptyString | Some o => offset_text o end.

(** [datetime.combine(d, datetime.min.time())] *)
Definition midnight (d : date) : datetime :=
  Datetime d 0 0 0 0 None.

(** *** [repr] and [str] *)

Definition escape_repr_char (quote : ascii) (wide_ok : bool) (c : ascii) : string :=
  let n := N_of_ascii c in
  if Ascii.eqb c "\"%char then "\\"
  else if Ascii.eqb c quote then String "\"%char (String c EmptyString)
  else if (n =? 9)%N then "\t"
  else if (n =? 10)%N then "\n"
  else if (n =? 13)%N then "\r"
  else if ((n <? 32) || (n =? 127) || (negb wide_ok && (128 <=? n)))%N
       then "\x" +:+ hex 2 n
  else String c EmptyString.

Fixpoint escape_repr (quote : ascii) (wide_ok : bool) (s : string) : string :=
  match s with
  | EmptyString => EmptyString
  | String c s' => escape_repr_char quote wide_ok c +:+ escape_repr quote wide_ok s'
  end.

Definition dquote : ascii := "034"%char.

Definition repr_quote (s : string) : ascii :=
  if contains_char "'"%char s && negb (contains_char dquote s)
  then dquote else "'"%char.

(** [repr] of a [str]; characters outside ASCII are taken as printable. *)
Definition str_repr (s : string) : string :=
  let q := String (repr_quote s) EmptyString in
  q +:+ escape_repr (repr_quote s) true s +:+ q.

Definition bytes_repr (b : string) : string :=
  let q := String (repr_quote b) EmptyString in
  "b" +:+ q +:+ escape_repr (repr_quote b) false b +:+ q.

Definition timedelta_repr (o : Z) : string :=
  let d := (o / 86400)%Z in
  let s := (o mod 86400)%Z in
  "datetime.timedelta("
  +:+ (if (d =? 0)%Z then (if (s =? 0)%Z then "0" else "seconds=" +:+ pretty s)
       else "days=" +:+ pretty d
            +:+ (if (s =? 0)%Z then EmptyString else ", seconds=" +:+ pretty s))
  +:+ ")".

Definition datetime_repr (dt : datetime) : string :=
  "datetime.datetime("
  +:+ pretty (year (on_day dt)) +:+ ", " +:+ pretty (month (on_day dt))
  +:+ ", " +:+ pretty (day (on_day dt))
  +:+ ", " +:+ pretty (hour dt) +:+ ", " +:+ pretty (minute dt)
  +:+ (if (microsecond dt =? 0)%Z
       then (if (second dt =? 0)%Z then EmptyString else ", " +:+ pretty (second dt))
       else ", " +:+ pretty (second dt) +:+ ", " +:+ pretty (microsecond dt))
  +:+ match utcoffset dt with
      | None => EmptyString
      | Some o => ", tzinfo="
          +:+ (if (o =? 0)%Z then "datetime.timezone.utc"
               else "datetime.timezone(" +:+ timedelta_repr o +:+ ")")
      end
  +:+ ")".

Fixpoint py_repr (v : pyval) : string :=
  match v with
  | VNone => "None"
  | VBool b => if b then "True" else "False"
  | VInt z => pretty z
  | VFloat r => r
  | VDecimal t => "Decimal('" +:+ t +:+ "')"
  | VStr s => str_repr s
  | VBytes b => bytes_repr b
  | VDate d =>
      "datetime.date(" +:+ pretty (year d) +:+ ", " +:+ pretty (month d)
      +:+ ", " +:+ pretty (day d) +:+ ")"
  | VDatetime dt => datetime_repr dt
  | VList l => "[" +:+ join ", " (map py_repr l) +:+ "]"
  | VDict d =>
      "{" +:+ join ", " (map (fun kv => str_repr (fst kv) +:+ ": " +:+ py_repr (snd kv)) d)
      +:+ "}"
  end.

(** [str(v)] *)
Definition py_str (v : pyval) : string :=
  match v with
  | VStr s => s
  | VDecimal t => t
  | VDate d => date_isoformat d
  | VDatetime dt => datetime_isoformat " " dt
  | _ => py_repr v
  end.

(** A Decimal is zero when its digits, up to the exponent, are all zero. *)
Fixpoint decimal_digits_zero (s : string) : bool :=
  match s with
  | EmptyString => true
  | String c s' =>
      if Ascii.eqb c "E"%char then true
      else (Ascii.eqb c "0"%char || Ascii.eqb c "."%char || Ascii.eqb c "-"%char)
           && decimal_digits_zero s'
  end.

(** [bool(v)] *)
Definition truthy (v : pyval) : bool :=
  match v with
  | VNone => false
  | VBool b => b
  | VInt z => negb (z =? 0)%Z
  | VFloat r => negb (String.eqb r "0.0" || String.eqb r "-0.0")
  | VDecimal t => negb (decimal_digits_zero t)
  | VStr s => negb (String.eqb s EmptyString)
  | VBytes b => negb (String.eqb b EmptyString)
  | VDate _ | VDatetime _ => true
  | VList l => match l with [] => false | _ => true end
  | VDict d => match d with [] => false | _ => true end
  end.

(** [a or b] *)
Definition py_or (a b : pyval) : pyval := if truthy a then a else b.

(** [d.get(k)] and [d.get(k, default)] *)
Definition get_or_none (k : string) (d : pydict) : pyval :=
  match dict_get k d with Some v => v | None => VNone end.

Definition get_or (k : string) (dflt : pyval) (d : pydict) : pyval :=
  match dict_get k d with Some v => v | None => dflt end.

End Py.

(** ** [json.dumps(data, sort_keys=True, default=str)] *)

Module Json.
Import Py.

Local Open Scope N_scope.

Definition continuation (b : N) : bool := (128 <=? b) && (b <=? 191).

(** The strict UTF-8 decoder of [bytes.decode('utf-8')]: the code points of
    a byte sequence, or [None] where Python raises UnicodeDecodeError. *)
Fixpoint utf8_decode (bs : list N) : option (list N) :=
  match bs with
  | [] => Some []
  | b0 :: r0 =>
      if b0 <? 128 then cons b0 <$> utf8_decode r0
      else if (194 <=? b0) && (b0 <=? 223) then
        match r0 with
        | b1 :: r1 =>
            if continuation b1
            then cons ((b0 - 192) * 64 + (b1 - 128)) <$> utf8_decode r1
            else None
        | _ => None
        end
      else if (224 <=? b0) && (b0 <=? 239) then
        match r0 with
        | b1 :: b2 :: r2 =>
            if continuation b1 && continuation b2
               && (if b0 =? 224 then 160 <=? b1 else true)
               && (if b0 =? 237 then b1 <=? 159 else true)
            then cons ((b0 - 224) * 4096 + (b1 - 128) * 64 + (b2 - 128))
                   <$> utf8_decode r2
            else None
        | _ => None
        end
      else if (240 <=? b0) && (b0 <=? 244) then
        match r0 with
        | b1 :: b2 :: b3 :: r3 =>
            if continuation b1 && continuation b2 && continuation b3
               && (if b0 =? 240 then 144 <=? b1 else true)
               && (if b0 =? 244 then b1 <=? 143 else true)
            then cons ((b0 - 240) * 262144 + (b1 - 128) * 4096
                       + (b2 - 128) * 64 + (b3 - 128))
                   <$> utf8_decode r3
            else None
        | _ => None
        end
      else None
  end.

Definition bytes_of (s : string) : list N :=
  map N_of_ascii (String.list_ascii_of_string s).

(** The code points of a [str]. *)
Definition codepoints (s : string) : list N :=
  match utf8_decode (bytes_of s) with
  | Some cps => cps
  | None => bytes_of s
  end.

Definition backslash : string := String "092"%char EmptyString.

(** One character under [ensure_ascii=True]. *)
Definition escape_char (cp : N) : string :=
  if cp =? 34 then backslash +:+ String dquote EmptyString
  else if cp =? 92 then backslash +:+ backslash
  else if cp =? 10 then backslash +:+ "n"
  else if cp =? 13 then backslash +:+ "r"
  else if cp =? 9 then backslash +:+ "t"
  else if cp =? 8 then backslash +:+ "b"
  else if cp =? 12 then backslash +:+ "f"
  else if (32 <=? cp) && (cp <=? 126) then String (ascii_of_N cp) EmptyString
  else if cp <? 65536 then backslash +:+ "u" +:+ hex 4 cp
  else
    let v := cp - 65536 in
    backslash +:+ "u" +:+ hex 4 (55296 + v / 1024)
    +:+ backslash +:+ "u" +:+ hex 4 (56320 + v mod 1024).

Definition json_string (s : string) : string :=
  String dquote EmptyString
  +:+ String.concat EmptyString (map escape_char (codepoints s))
  +:+ String dquote EmptyString.

Definition float_text (r : string) : string :=
  if String.eqb r "nan" then "NaN"
  else if String.eqb r "inf" then "Infinity"
  else if String.eqb r "-inf" then "-Infinity"
  else r.

(** Items of an object are ordered by key ([sort_keys=True]). *)
Definition key_le (p q : string * string) : Prop := String.le (fst p) (fst q).

#[export] Instance key_le_dec : RelDecision key_le.
Proof. intros p q. unfold key_le. apply _. Defined.

Definition sort_items (items : list (string * string)) : list (string * string) :=
  merge_sort key_le items.

Definition member (kv : string * string) : string :=
  json_string (fst kv) +:+ ": " +:+ snd kv.

(** The encoder.  An object's values are encoded before its items are put in
    key order; the text is that of encoding the items taken in key order.
    What is neither a JSON primitive nor a container goes through
    [default=str]. *)
Fixpoint encode (v : pyval) : string :=
  match v with
  | VNone => "null"
  | VBool b => if b then "true" else "false"
  | VInt z => pretty z
  | VFloat r => float_text r
  | VStr s => json_string s
  | VList l => "[" +:+ join ", " (map encode l) +:+ "]"
  | VDict d =>
      "{" +:+ join ", " (map member (sort_items (map (fun kv => (fst kv, encode (snd kv))) d)))
      +:+ "}"
  | VDecimal _ | VBytes _ | VDate _ | VDatetime _ => json_string (py_str v)
  end.

Definition dumps (data : pydict) : string := encode (VDict data).

End Json.

(** ** [hashlib.sha256] (FIPS 180-4) *)

Module Sha256.

Local Open Scope Z_scope.

Definition wrap32 (x : Z) : Z := x mod 2 ^ 32.

Definition rotr (n x : Z) : Z :=
  Z.lor (Z.shiftr x n) (wrap32 (Z.shiftl x (32 - n))).

Definition Ch (x y z : Z) : Z :=
  Z.lxor (Z.land x y) (Z.land (Z.lxor x 4294967295) z).
Definition Maj (x y z : Z) : Z :=
  Z.lxor (Z.lxor (Z.land x y) (Z.land x z)) (Z.land y z).
Definition Sigma0 (x : Z) : Z := Z.lxor (Z.lxor (rotr 2 x) (rotr 13 x)) (rotr 22 x).
Definition Sigma1 (x : Z) : Z := Z.lxor (Z.lxor (rotr 6 x) (rotr 11 x)) (rotr 25 x).
Definition sigma0 (x : Z) : Z := Z.lxor (Z.lxor (rotr 7 x) (rotr 18 x)) (Z.shiftr x 3).
Definition sigma1 (x : Z) : Z := Z.lxor (Z.lxor (rotr 17 x) (rotr 19 x)) (Z.shiftr x 10).

(** The round constants and the initial hash value are the first 32 bits of
    the fractional parts of the cube roots of the first 64 primes and of the
    square roots of the first 8. *)
Definition is_prime (n : nat) : bool :=
  forallb (fun d => negb (Nat.eqb (n mod d) 0)) (seq 2 (n - 2)).

Definition primes (count : nat) : list Z :=
  map Z.of_nat (firstn count (List.filter is_prime (seq 2 400))).

Definition cube_root (n : Z) : Z :=
  fold_left (fun r bit => let c := r + 2 ^ bit in if c * c * c <=? n then c else r)
    (map Z.of_nat (rev (seq 0 40))) 0.

Definition K : list Z :=
  Eval vm_compute in map (fun p => wrap32 (cube_root (p * 2 ^ 96))) (primes 64).

Definition initial : list Z :=
  Eval vm_compute in map (fun p => wrap32 (Z.sqrt (p * 2 ^ 64))) (primes 8).

(** The eight working words. *)
Record words8 := W8 { ha : Z; hb : Z; hc : Z; hd : Z; he : Z; hf : Z; hg : Z; hh : Z }.

Definition H0 : words8 :=
  let word i := nth i initial 0 in
  W8 (word 0%nat) (word 1%nat) (word 2%nat) (word 3%nat)
     (word 4%nat) (word 5%nat) (word 6%nat) (word 7%nat).

(** Padding: a one bit, zeros, and the bit length on 64 bits. *)
Definition be_bytes (n : nat) (x : Z) : list Z :=
  map (fun i => Z.shiftr x (8 * Z.of_nat i) mod 256) (rev (seq 0 n)).

Definition pad (msg : list Z) : list Z :=
  let len := Z.of_nat (length msg) in
  let zeros := Z.to_nat ((55 - len) mod 64) in
  msg ++ [128] ++ repeat 0 zeros ++ be_bytes 8 (8 * len).

Fixpoint be_words (fuel : nat) (bs : list Z) : list Z :=
  match fuel, bs with
  | S fuel', b0 :: b1 :: b2 :: b3 :: bs' =>
      (b0 * 16777216 + b1 * 65536 + b2 * 256 + b3) :: be_words fuel' bs'
  | _, _ => []
  end.

Fixpoint blocks (fuel : nat) (ws : list Z) : list (list Z) :=
  match fuel, ws with
  | S fuel', _ :: _ => firstn 16 ws :: blocks fuel' (skipn 16 ws)
  | _, _ => []
  end.

(** The message schedule, newest word first. *)
Fixpoint schedule (n : nat) (rev_w : list Z) : list Z :=
  match n with
  | O => rev_w
  | S n' =>
      let w := wrap32 (sigma1 (nth 1 rev_w 0) + nth 6 rev_w 0
                       + sigma0 (nth 14 rev_w 0) + nth 15 rev_w 0) in
      schedule n' (w :: rev_w)
  end.

Definition round (s : words8) (kw : Z * Z) : words8 :=
  let t1 := hh s + Sigma1 (he s) + Ch (he s) (hf s) (hg s) + fst kw + snd kw in
  let t2 := Sigma0 (ha s) + Maj (ha s) (hb s) (hc s) in
  W8 (wrap32 (t1 + t2)) (ha s) (hb s) (hc s) (wrap32 (hd s + t1)) (he s) (hf s) (hg s).

Definition compress (h : words8) (block : list Z) : words8 :=
  let w := rev (schedule 48 (rev block)) in
  let s := fold_left round (combine K w) h in
  W8 (wrap32 (ha h + ha s)) (wrap32 (hb h + hb s)) (wrap32 (hc h + hc s))
     (wrap32 (hd h + hd s)) (wrap32 (he h + he s)) (wrap32 (hf h + hf s))
     (wrap32 (hg h + hg s)) (wrap32 (hh h + hh s)).

Definition digest_words (msg : list Z) : words8 :=
  let bs := pad msg in
  let ws := be_words (length bs) bs in
  fold_left compress (blocks (length ws) ws) H0.

(** The digest as one 256-bit number, most significant word first. *)
Definition number (h : words8) : Z :=
  ((((((ha h * 2 ^ 32 + hb h) * 2 ^ 32 + hc h) * 2 ^ 32 + hd h) * 2 ^ 32
      + he h) * 2 ^ 32 + hf h) * 2 ^ 32 + hg h) * 2 ^ 32 + hh h.

Definition digest (msg : list Z) : Z := number (digest_words msg).

(** [hashlib.sha256(data).hexdigest()] *)
Definition hexdigest (data : string) : string :=
  Py.hex 64 (Z.to_N (digest (map Z.of_N (Json.bytes_of data)))).

End Sha256.


(** ** What the interpreter decides *)

(** [float_repr s] is the [repr] of the float nearest to the numeric literal
    [s]; [float_unicode s] is the [repr] of [float(s)] for a text [s] that
    is not ASCII, of which Python first takes the decimal digits and the
    blanks of every script for ASCII ones, and [None] where [float] raises
    on it; [fromisoformat] is [datetime.fromisoformat], [None] where it
    raises. *)
Class Runtime := {
  float_repr : string -> string;
  float_unicode : string -> option string;
  fromisoformat : string -> option Py.datetime
}.

Module Float.
Import Py.

(** The blanks [float] strips from ASCII text and from bytes: tab, line
    feed, vertical tab, form feed, carriage return and space. *)
Definition is_space (c : ascii) : bool :=
  let n := N_of_ascii c in (((9 <=? n) && (n <=? 13)) || (n =? 32))%N.

Fixpoint lstrip (s : string) : string :=
  match s with
  | String c s' => if is_space c then lstrip s' else s
  | EmptyString => EmptyString
  end.

Definition strip (s : string) : string :=
  String.rev (lstrip (String.rev (lstrip s))).

(** After a digit: more digits, each possibly preceded by one underscore. *)
Fixpoint more_digits (s : string) : string :=
  match s with
  | String c s' =>
      if is_ascii_digit c then more_digits s'
      else if Ascii.eqb c "_"%char then
        match s' with
        | String c' s'' => if is_ascii_digit c' then more_digits s'' else s
        | EmptyString => s
        end
      else s
  | EmptyString => EmptyString
  end.

(** A digit part, and what follows it. *)
Definition digit_part (s : string) : option string :=
  match s with
  | String c s' => if is_ascii_digit c then Some (more_digits s') else None
  | EmptyString => None
  end.

Definition skip_sign (s : string) : string :=
  match s with
  | String c s' => if Ascii.eqb c "+"%char || Ascii.eqb c "-"%char then s' else s
  | EmptyString => EmptyString
  end.

Definition exponent_ok (s : string) : bool :=
  match s with
  | EmptyString => true
  | String c s' =>
      if Ascii.eqb c "e"%char || Ascii.eqb c "E"%char then
        match digit_part (skip_sign s') with
        | Some EmptyString => true
        | _ => false
        end
      else false
  end.

Definition fraction_ok (need_digit : bool) (s : string) : bool :=
  match s with
  | String c s' =>
      if Ascii.eqb c "."%char then
        match digit_part s' with
        | Some r => exponent_ok r
        | None => negb need_digit && exponent_ok s'
        end
      else negb need_digit && exponent_ok s
  | EmptyString => negb need_digit
  end.

(** The ASCII texts and the byte strings [float()] accepts. *)
Definition literal (s : string) : bool :=
  let body := skip_sign (strip s) in
  let word := lower body in
  if String.eqb word "inf" || String.eqb word "infinity" || String.eqb word "nan"
  then true
  else match digit_part body with
       | Some r => fraction_ok false r
       | None => fraction_ok true body
       end.

(** An int beyond this rounds past the largest float. *)
Definition overflow_bound : Z := (2 ^ 1024 - 2 ^ 970)%Z.

Definition signalling (t : string) : bool :=
  String.prefix "sNaN" t || String.prefix "-sNaN" t.

(** [str(float(v))] *)
Definition str_float `{Runtime} (v : pyval) : result string :=
  match v with
  | VBool b => Ok (if b then "1.0" else "0.0")
  | VInt z =>
      if (overflow_bound <=? Z.abs z)%Z then Raise OverflowError
      else Ok (float_repr (pretty z))
  | VFloat r => Ok r
  | VDecimal t => if signalling t then Raise ValueError else Ok (float_repr t)
  | VStr s =>
      if ascii_text s
      then (if literal s then Ok (float_repr (strip s)) else Raise ValueError)
      else match float_unicode s with
           | Some r => Ok r
           | None => Raise ValueError
           end
  | VBytes s => if literal s then Ok (float_repr (strip s)) else Raise ValueError
  | VNone | VDate _ | VDatetime _ | VList _ | VDict _ => Raise TypeError
  end.

End Float.

(** ** [class SmartSuiteFieldConverter] *)

Module Converter.
Import Py.

(** The keyword options a converter reads. *)
Record options := Options {
  value_map : option pydict;
  include_time : option bool;
  default_country : option pyval;
  default_type : option pyval
}.

Definition no_options : options := Options None None None None.

Definition date_object (d : pyval) (with_time : bool) : pyval :=
  VDict [("date", d); ("include_time", VBool with_time)].

Definition _null_value_for_type (field_type : string) : pyval :=
  let t := lower field_type in
  if existsb (String.eqb t)
       ["multipleselectfield"; "emailfield"; "phonefield";
        "linkfield"; "linkedrecordfield"; "memberfield"]
  then VList []
  else if String.eqb t "yesno" then VBool false
  else if existsb (String.eqb t) ["number"; "currency"; "percent"] then VStr "0"
  else if String.eqb t "date" then date_object VNone false
  else VStr "".

Definition to_text (value : pyval) : result pyval :=
  Ok (match value with VNone => VStr "" | _ => VStr (py_str value) end).

Definition to_textarea (value : pyval) : result pyval :=
  Ok (match value with VNone => VStr "" | _ => VStr (py_str value) end).

Definition to_number `{Runtime} (value : pyval) : result pyval :=
  match value with
  | VDecimal _ => rbind (Float.str_float value) (fun s => Ok (VStr s))
  | VNone => Ok (VStr "0")
  | _ => rbind (Float.str_float value) (fun s => Ok (VStr s))
  end.

Definition to_currency `{Runtime} (value : pyval) : result pyval :=
  match value with
  | VDecimal _ => rbind (Float.str_float value) (fun s => Ok (VStr s))
  | VNone => Ok (VStr "0")
  | _ => rbind (Float.str_float value) (fun s => Ok (VStr s))
  end.

Definition to_percent `{Runtime} (value : pyval) : result pyval :=
  match value with
  | VDecimal _ => rbind (Float.str_float value) (fun s => Ok (VStr s))
  | VNone => Ok (VStr "0")
  | _ => rbind (Float.str_float value) (fun s => Ok (VStr s))
  end.

Definition to_date `{Runtime} (value : pyval) (opts : options) : result pyval :=
  let with_time := default false (include_time opts) in
  match value with
  | VNone => Ok (date_object VNone with_time)
  | VDatetime dt => Ok (date_object (VStr (datetime_isoformat "T" dt)) true)
  | VDate d => Ok (date_object (VStr (datetime_isoformat "T" (midnight d))) with_time)
  | VStr s =>
      match fromisoformat (replace_Z s) with
      | Some dt => Ok (date_object (VStr (datetime_isoformat "T" dt)) with_time)
      | None => Ok (date_object (VStr s) with_time)
      end
  | _ => Ok (date_object (VStr (py_str value)) with_time)
  end.

Definition to_single_select (value : pyval) (opts : options) : result pyval :=
  let vm := default [] (value_map opts) in
  let str_value := match value with VNone => "" | _ => py_str value end in
  match dict_get str_value vm with
  | Some choice => Ok choice
  | None => Ok (VStr str_value)
  end.

Definition to_multiple_select (value : pyval) (opts : options) : result pyval :=
  let vm := default [] (value_map opts) in
  match value with
  | VNone => Ok (VList [])
  | _ =>
      let values :=
        match value with
        | VList l =>
            map py_str (List.filter (fun v => match v with VNone => false | _ => true end) l)
        | _ => [py_str value]
        end in
      Ok (VList (map (fun v => match dict_get v vm with
                               | Some choice => choice
                               | None => VStr v
                               end) values))
  end.

Definition to_yesno (value : pyval) : result pyval :=
  match value with
  | VNone => Ok (VBool false)
  | VBool b => Ok (VBool b)
  | VStr s =>
      Ok (VBool (existsb (String.eqb (lower s)) ["true"; "yes"; "1"; "t"; "y"; "on"]))
  | _ => Ok (VBool (truthy value))
  end.

(** The body shared, word for word, by [to_email], [to_link],
    [to_linked_record] and [to_assigned_to]. *)
Definition text_list (value : pyval) : result pyval :=
  match value with
  | VNone => Ok (VList [])
  | VList l => Ok (VList (map (fun v => VStr (py_str v)) (List.filter truthy l)))
  | _ => Ok (if truthy value then VList [VStr (py_str value)] else VList [])
  end.

Definition to_email (value : pyval) : result pyval := text_list value.
Definition to_link (value : pyval) : result pyval := text_list value.
Definition to_linked_record (value : pyval) : result pyval := text_list value.
Definition to_assigned_to (value : pyval) : result pyval := text_list value.

Definition _create_phone_object (phone_number : string) (country phone_type : pyval) : pyval :=
  VDict [("phone_country", country); ("phone_number", VStr phone_number);
         ("phone_extension", VStr ""); ("phone_type", phone_type)].

Definition _format_phone_object (phone_dict : pydict) (dflt_country dflt_type : pyval) : pyval :=
  let phone_number :=
    py_or (get_or_none "phone_number" phone_dict)
      (py_or (get_or_none "number" phone_dict)
         (py_or (get_or_none "phone" phone_dict)
            (VStr (py_str (get_or "value" (VStr "") phone_dict))))) in
  let country :=
    py_or (get_or_none "phone_country" phone_dict)
      (py_or (get_or_none "country" phone_dict) dflt_country) in
  let extension :=
    py_or (get_or_none "phone_extension" phone_dict)
      (py_or (get_or_none "extension" phone_dict) (VStr "")) in
  let phone_type :=
    py_or (get_or_none "phone_type" phone_dict)
      (py_or (get_or_none "type" phone_dict) dflt_type) in
  let phone_type :=
    match phone_type with
    | VStr s => if isdigit s then VInt (int_of_digits 0 s) else dflt_type
    | VInt _ | VBool _ => phone_type
    | _ => dflt_type
    end in
  VDict [("phone_country", country); ("phone_number", phone_number);
         ("phone_extension", if truthy extension then VStr (py_str extension) else VStr "");
         ("phone_type", phone_type)].

Definition to_phone (value : pyval) (opts : options) : result pyval :=
  match value with
  | VNone => Ok (VList [])
  | _ =>
      let country := default (VStr "US") (default_country opts) in
      let kind := default (VInt 2) (default_type opts) in
      match value with
      | VList l =>
          Ok (VList (flat_map (fun v =>
                match v with
                | VDict d => [_format_phone_object d country kind]
                | _ => if truthy v then [_create_phone_object (py_str v) country kind] else []
                end) l))
      | VDict d =>
          Ok (VList (if truthy value then [_format_phone_object d country kind] else []))
      | _ =>
          Ok (VList (if truthy value then [_create_phone_object (py_str value) country kind]
                     else []))
      end
  end.

(** The table [converters] of [convert], as the lookup [converters.get]. *)
Definition converters `{Runtime} (t : string) : option (pyval -> options -> result pyval) :=
  if String.eqb t "text" then Some (fun v _ => to_text v)
  else if String.eqb t "textarea" then Some (fun v _ => to_textarea v)
  else if String.eqb t "title" then Some (fun v _ => to_text v)
  else if String.eqb t "number" then Some (fun v _ => to_number v)
  else if String.eqb t "currency" then Some (fun v _ => to_currency v)
  else if String.eqb t "percent" then Some (fun v _ => to_percent v)
  else if String.eqb t "date" then Some to_date
  else if String.eqb t "singleselect" then Some to_single_select
  else if String.eqb t "multipleselectfield" then Some to_multiple_select
  else if String.eqb t "yesno" then Some (fun v _ => to_yesno v)
  else if String.eqb t "emailfield" then Some (fun v _ => to_email v)
  else if String.eqb t "phonefield" then Some to_phone
  else if String.eqb t "linkfield" then Some (fun v _ => to_link v)
  else if String.eqb t "linkedrecordfield" then Some (fun v _ => to_linked_record v)
  else if String.eqb t "memberfield" then Some (fun v _ => to_assigned_to v)
  else None.

Definition convert `{Runtime} (value : pyval) (field_type : string) (opts : options)
    : result pyval :=
  match value with
  | VNone => Ok (_null_value_for_type field_type)
  | _ =>
      match converters (lower field_type) with
      | Some converter => converter value opts
      | None => to_text value
      end
  end.

End Converter.

(** ** [class SyncConfig] *)

Module Config.
Import Py.

(** An entry of [field_types] or of the legacy [transformations]: the keys
    the code reads from it. *)
Record field_rule := FieldRule {
  rule_type : option string;
  rule_value_map : option pydict;
  rule_include_time : option bool
}.

Record SyncConfig := {
  name : string;
  enabled : bool;
  description : string;
  query : string;
  primary_key : string;
  updated_at_field : option string;
  table_id : string;
  field_mappings : list (string * string);
  external_id_field : string;
  field_types : list (string * field_rule);
  transformations : list (string * field_rule)
}.

Definition _auto_convert `{Runtime} (value : pyval) : result pyval :=
  match value with
  | VNone => Ok VNone
  | VDecimal _ => rbind (Float.str_float value) (fun s => Ok (VStr s))
  | VDatetime dt => Ok (Converter.date_object (VStr (datetime_isoformat "T" dt)) true)
  | VDate d => Ok (Converter.date_object (VStr (datetime_isoformat "T" (midnight d))) false)
  | VBytes b =>
      match Json.utf8_decode (Json.bytes_of b) with
      | Some _ => Ok (VStr b)
      | None => Raise UnicodeDecodeError
      end
  | VBool _ => Ok value
  | VInt _ | VFloat _ => Ok (VStr (py_str value))
  | _ => Ok (VStr (py_str value))
  end.

(** [try: ... except Exception: (log a warning)], then the automatic
    conversion when no branch returned. *)
Definition _legacy_transform `{Runtime} (self : SyncConfig) (field_name : string)
    (value : pyval) : result pyval :=
  match dict_get field_name (transformations self) with
  | None => Raise (KeyError field_name)
  | Some transform =>
      let attempt : option (result pyval) :=
        match rule_type transform with
        | Some t =>
            if String.eqb t "number" then Some (Converter.to_number value)
            else if String.eqb t "choice" then
              Some (Converter.to_single_select value
                      (Converter.Options (Some (default [] (rule_value_map transform)))
                         None None None))
            else if String.eqb t "date" then
              Some (Converter.to_date value
                      (Converter.Options None
                         (Some (default false (rule_include_time transform))) None None))
            else None
        | None => None
        end in
      match attempt with
      | Some (Ok v) => Ok v
      | Some (Raise _) | None => _auto_convert value
      end
  end.

Definition transform_value `{Runtime} (self : SyncConfig) (field_name : string)
    (value : pyval) : result pyval :=
  match dict_get field_name (field_types self) with
  | Some field_config =>
      let field_type := default "text" (rule_type field_config) in
      let opts := Converter.Options (rule_value_map field_config)
                    (rule_include_time field_config) None None in
      Converter.convert value field_type opts
  | None =>
      if dict_mem field_name (transformations self)
      then _legacy_transform self field_name value
      else _auto_convert value
  end.

(** The loop of [map_record] over [field_mappings.items()]. *)
Fixpoint map_fields `{Runtime} (self : SyncConfig) (items : list (string * string))
    (source_record mapped : pydict) : result pydict :=
  match items with
  | [] => Ok mapped
  | (source_field, smartsuite_field) :: rest =>
      match dict_get source_field source_record with
      | Some value =>
          rbind (transform_value self source_field value) (fun transformed_value =>
            map_fields self rest source_record
              (dict_set smartsuite_field transformed_value mapped))
      | None => map_fields self rest source_record mapped
      end
  end.

Definition map_record `{Runtime} (self : SyncConfig) (source_record : pydict) : result pydict :=
  map_fields self (field_mappings self) source_record [].

(** *** Values a rule converts without raising *)








End Config.

(** ** The world around the engine *)

(** The MySQL client, the SmartSuite client, the clock and the SQLite file
    system are outside the program; each is a function of an environment it
    may change.  [execute_query query last_sync_time] are the rows fetched;
    [create_record table_id record_data] and
    [update_record table_id record_id updates] are the replies of the remote
    table; [utcnow] is [datetime.utcnow().isoformat()]; [sqlite_write] tells
    whether the next write to the state file commits ([None]) or raises;
    [sqlite_real r] is the text SQLite keeps in a [TEXT] column for the
    float whose [repr] is [r] (it renders a float in its own way, with 15
    significant digits), and [None] for NaN, which it takes for NULL. *)
Class Environment (Env : Type) := {
  execute_query : string -> option string -> Env -> result (list Py.pydict) * Env;
  create_record : string -> Py.pydict -> Env -> result Py.pydict * Env;
  update_record : string -> string -> Py.pydict -> Env -> result Py.pydict * Env;
  utcnow : Env -> string * Env;
  sqlite_write : Env -> option exn * Env;
  sqlite_real : string -> option string
}.

Module State.
Import Py.

(** A row of [record_mappings], keyed by [(sync_name, source_id)]. *)
Record mapping := Mapping {
  smartsuite_record_id : string;
  data_hash : string;
  created_at : string;
  updated_at : string
}.

(** A row of [sync_runs]. *)
Record run := Run {
  id : Z;
  sync_name : string;
  started_at : string;
  completed_at : option string;
  status : string;
  records_processed : Z;
  records_created : Z;
  records_updated : Z;
  records_skipped : Z;
  error_message : option string
}.

(** A row of [sync_metadata], keyed by [sync_name]. *)
Record metadata := Metadata {
  last_sync_time : string;
  last_successful_run : string
}.

Record store := Store {
  sync_runs : list run;
  next_id : Z;
  record_mappings : gmap (string * string) mapping;
  sync_metadata : gmap string metadata
}.

Definition empty_store : store := Store [] 1 ∅ ∅.

(** What the engine did, in order: the calls it issued to the remote table
    and the writes it committed to the state file. *)
Inductive event : Type :=
| Queried (query : string) (last : option string)
| CreateCall (table_id : string) (record_data : pydict)
| UpdateCall (table_id record_id : string) (updates : pydict)
| MappingSaved (sync_name source_id record_id hash : string)
| RunStarted (sync_name : string) (run_id : Z)
| RunCompleted (run_id : Z) (status : string)
| LastSyncUpdated (sync_name sync_time : string).

Definition is_create (ev : event) : bool :=
  match ev with CreateCall _ _ => true | _ => false end.
Definition is_update (ev : event) : bool :=
  match ev with UpdateCall _ _ _ => true | _ => false end.
Definition is_upsert (ev : event) : bool :=
  match ev with MappingSaved _ _ _ _ => true | _ => false end.

(** The calls to the remote table and the upserts of mappings in a trace. *)
Definition reconciled (t : list event) : list event :=
  List.filter (fun ev => is_create ev || is_update ev || is_upsert ev) t.

Record world (Env : Type) := World {
  env : Env;
  db : store;
  trace : list event
}.
Arguments World {Env} env db trace.
Arguments env {Env} w.
Arguments db {Env} w.
Arguments trace {Env} w.

(** A computation may change the world and either returns or raises; what
    it changed before raising stays changed. *)
Definition M (Env A : Type) : Type := world Env -> result A * world Env.

Definition ret {Env A} (a : A) : M Env A := fun w => (Ok a, w).
Definition raise {Env A} (e : exn) : M Env A := fun w => (Raise e, w).
Definition bind {Env A B} (m : M Env A) (k : A -> M Env B) : M Env B :=
  fun w => match m w with
           | (Ok a, w') => k a w'
           | (Raise e, w') => (Raise e, w')
           end.
Definition lift {Env A} (r : result A) : M Env A := fun w => (r, w).

(** [try: body except Exception as e: handler e] *)
Definition try_except {Env A} (body : M Env A) (handler : exn -> M Env A) : M Env A :=
  fun w => match body w with
           | (Ok a, w') => (Ok a, w')
           | (Raise e, w') => handler e w'
           end.

Definition log {Env} (ev : event) : M Env unit :=
  fun w => (Ok tt, World (env w) (db w) (trace w ++ [ev])).

Definition get_db {Env} : M Env store := fun w => (Ok (db w), w).
Definition put_db {Env} (s : store) : M Env unit :=
  fun w => (Ok tt, World (env w) s (trace w)).

Definition now `{Environment Env} : M Env string :=
  fun w => let '(t, e) := utcnow (env w) in (Ok t, World e (db w) (trace w)).

(** The start of a write transaction on the state file. *)
Definition begin_write `{Environment Env} : M Env unit :=
  fun w => let '(fault, e) := sqlite_write (env w) in
           (match fault with Some x => Raise x | None => Ok tt end,
            World e (db w) (trace w)).

End State.

Declare Scope engine_scope.
Delimit Scope engine_scope with engine.
Notation "'let*' x := m 'in' k" := (State.bind m (fun x => k))
  (at level 10, x name, m at level 100, k at level 200) : engine_scope.

(** ** [class StateManager] *)

Module StateManager.
Import Py State.
Local Open Scope engine_scope.

Section Methods.
Context `{Environment Env}.

Definition get_last_sync_time (name : string) : M Env (option string) :=
  let* s := get_db in
  ret (last_sync_time <$> sync_metadata s !! name).

Definition update_last_sync_time (name sync_time : string) : M Env unit :=
  let* _ := begin_write in
  let* stamp := now in
  let* s := get_db in
  let* _ := put_db (Store (sync_runs s) (next_id s) (record_mappings s)
                      (<[name := Metadata sync_time stamp]> (sync_metadata s))) in
  log (LastSyncUpdated name sync_time).

(** [UNIQUE(sync_name, started_at)] *)
Definition run_exists (name started : string) (runs : list run) : bool :=
  existsb (fun r => String.eqb (sync_name r) name && String.eqb (started_at r) started) runs.

Definition start_sync_run (name : string) : M Env Z :=
  let* _ := begin_write in
  let* stamp := now in
  let* s := get_db in
  if run_exists name stamp (sync_runs s) then raise IntegrityError
  else
    let rid := next_id s in
    let* _ := put_db (Store (sync_runs s ++ [Run rid name stamp None "running" 0 0 0 0 None])
                        (rid + 1) (record_mappings s) (sync_metadata s)) in
    let* _ := log (RunStarted name rid) in
    ret rid.

(** [UPDATE sync_runs SET ... WHERE id = run_id] *)
Definition completed (run_id : Z) (final stamp : string)
    (processed created updated skipped : Z) (message : option string)
    (runs : list run) : list run :=
  map (fun r => if (id r =? run_id)%Z
                then Run (id r) (sync_name r) (started_at r) (Some stamp)
                       final processed created updated skipped message
                else r) runs.

Definition complete_sync_run (run_id : Z) (final : string)
    (processed created updated skipped : Z) (message : option string) : M Env unit :=
  let* _ := begin_write in
  let* stamp := now in
  let* s := get_db in
  let* _ := put_db (Store (completed run_id final stamp processed created updated skipped
                             message (sync_runs s))
                      (next_id s) (record_mappings s) (sync_metadata s)) in
  log (RunCompleted run_id final).

Definition calculate_hash (data : pydict) : string :=
  Sha256.hexdigest (Json.dumps data).

Definition get_record_mapping (name source_id : string) : M Env (option mapping) :=
  let* s := get_db in
  ret (record_mappings s !! (name, source_id)).

(** What SQLite stores in a [TEXT NOT NULL] column for a bound parameter.
    [sqlite3] binds an int as a 64-bit integer and raises [OverflowError]
    outside that range, a bool as an int, a float as a REAL, a date and a
    datetime through its default adapters ([isoformat], with a space for a
    datetime), and has no binding for a Decimal, a list or a dict; the
    column has TEXT affinity, which turns a number into text.  A byte
    string is kept as a BLOB, with the same bytes, which are what the
    mapping then holds. *)
Definition text_column (v : pyval) : result string :=
  match v with
  | VStr s => Ok s
  | VInt z =>
      if ((- 2 ^ 63 <=? z) && (z <? 2 ^ 63))%Z then Ok (pretty z)
      else Raise OverflowError
  | VBool b => Ok (if b then "1" else "0")
  | VFloat r =>
      match sqlite_real r with
      | Some stored => Ok stored
      | None => Raise IntegrityError
      end
  | VBytes b => Ok b
  | VDate d => Ok (date_isoformat d)
  | VDatetime dt => Ok (datetime_isoformat " " dt)
  | VNone => Raise IntegrityError
  | VDecimal _ | VList _ | VDict _ => Raise (External "Error binding parameter")
  end.

Definition save_record_mapping (name source_id : string) (record_id : pyval)
    (hash : string) : M Env unit :=
  let* stamp := now in
  let* _ := begin_write in
  let* rid := lift (text_column record_id) in
  let* s := get_db in
  let row :=
    match record_mappings s !! (name, source_id) with
    | Some old => Mapping rid hash (created_at old) stamp
    | None => Mapping rid hash stamp stamp
    end in
  let* _ := put_db (Store (sync_runs s) (next_id s)
                      (<[(name, source_id) := row]> (record_mappings s))
                      (sync_metadata s)) in
  log (MappingSaved name source_id rid hash).

End Methods.
End StateManager.

(** ** [class SyncEngine] *)

Module SyncEngine.
Import Py State StateManager Config.
Local Open Scope engine_scope.

Record stats := Stats {
  processed : Z;
  created : Z;
  updated : Z;
  skipped : Z;
  errors : Z
}.

Definition no_stats : stats := Stats 0 0 0 0 0.

Section Methods.
Context `{Runtime} `{Environment Env}.

Definition smartsuite_create (table : string) (record_data : pydict) : M Env pydict :=
  let* _ := log (CreateCall table record_data) in
  (fun w => let '(r, e) := create_record table record_data (env w) in
            (r, World e (db w) (trace w))).

Definition smartsuite_update (table record_id : string) (updates : pydict) : M Env pydict :=
  let* _ := log (UpdateCall table record_id updates) in
  (fun w => let '(r, e) := update_record table record_id updates (env w) in
            (r, World e (db w) (trace w))).

Definition mysql_query (q : string) (last : option string) : M Env (list pydict) :=
  let* _ := log (Queried q last) in
  (fun w => let '(r, e) := execute_query q last (env w) in
            (r, World e (db w) (trace w))).

(** [d[k]] *)
Definition subscript (d : pydict) (k : string) : result pyval :=
  match dict_get k d with Some v => Ok v | None => Raise (KeyError k) end.

Definition _sync_record (config : SyncConfig) (source_record : pydict) : M Env string :=
  let* key := lift (subscript source_record (primary_key config)) in
  let source_id := py_str key in
  let* mapped_record := lift (map_record config source_record) in
  let hash := calculate_hash mapped_record in
  let* existing_mapping := get_record_mapping (name config) source_id in
  match existing_mapping with
  | Some existing =>
      if String.eqb (data_hash existing) hash then ret "skipped"
      else
        let* _ := smartsuite_update (table_id config) (smartsuite_record_id existing)
                    mapped_record in
        let* _ := save_record_mapping (name config) source_id
                    (VStr (smartsuite_record_id existing)) hash in
        ret "updated"
  | None =>
      let* created_record := smartsuite_create (table_id config) mapped_record in
      let* smartsuite_id := lift (subscript created_record "id") in
      let* _ := save_record_mapping (name config) source_id smartsuite_id hash in
      ret "created"
  end.

(** The counters after one record returned [result]. *)
Definition count (st : stats) (result : string) : stats :=
  let p := (processed st + 1)%Z in
  if String.eqb result "created"
  then Stats p (created st + 1) (updated st) (skipped st) (errors st)
  else if String.eqb result "updated"
  then Stats p (created st) (updated st + 1) (skipped st) (errors st)
  else if String.eqb result "skipped"
  then Stats p (created st) (updated st) (skipped st + 1) (errors st)
  else Stats p (created st) (updated st) (skipped st) (errors st).

Definition count_error (st : stats) : stats :=
  Stats (processed st) (created st) (updated st) (skipped st) (errors st + 1).

(** [for record in source_records: try: ... except Exception: ...] *)
Fixpoint sync_loop (config : SyncConfig) (source_records : list pydict) (st : stats)
    : M Env stats :=
  match source_records with
  | [] => ret st
  | record :: rest =>
      fun w =>
        match _sync_record config record w with
        | (Ok result, w') => sync_loop config rest (count st result) w'
        | (Raise _, w') => sync_loop config rest (count_error st) w'
        end
  end.

(** The end of the [try] block of [sync]: the boundary is moved, then the
    run is marked. *)
Definition finalize (config : SyncConfig) (run_id : Z) (st : stats) : M Env stats :=
  let* current_time := now in
  let* _ := update_last_sync_time (name config) current_time in
  let* _ := complete_sync_run run_id "success"
              (processed st) (created st) (updated st) (skipped st) None in
  ret st.

(** The [except Exception as e] block of [sync]. *)
Definition mark_failed (run_id : Z) (e : exn) : M Env stats :=
  let* _ := complete_sync_run run_id "failed" 0 0 0 0 (Some (exn_str e)) in
  raise e.

Definition sync (config : SyncConfig) : M Env stats :=
  let* run_id := start_sync_run (name config) in
  try_except
    (let* last := get_last_sync_time (name config) in
     let* source_records := mysql_query (query config) last in
     match source_records with
     | [] =>
         let* _ := complete_sync_run run_id "success" 0 0 0 0 None in
         ret no_stats
     | _ =>
         let* st := sync_loop config source_records no_stats in
         finalize config run_id st
     end)
    (mark_failed run_id).

(** *** What a row is reconciled by *)

(** The source key of a row and the fingerprint of its payload, when the
    row has the one and maps to the other. *)
Definition source_key (config : SyncConfig) (source_record : pydict) : option string :=
  match subscript source_record (primary_key config) with
  | Ok key => Some (py_str key)
  | Raise _ => None
  end.

Definition fingerprint (config : SyncConfig) (source_record : pydict) : option string :=
  match map_record config source_record with
  | Ok mapped_record => Some (calculate_hash mapped_record)
  | Raise _ => None
  end.

(** Rows that share a source key share a fingerprint; so it is when no two
    rows share a key. *)
Definition keys_agree (config : SyncConfig) (rows : list pydict) : Prop :=
  forall r1 r2 k h1 h2,
    In r1 rows -> In r2 rows ->
    source_key config r1 = Some k -> source_key config r2 = Some k ->
    fingerprint config r1 = Some h1 -> fingerprint config r2 = Some h2 ->
    h1 = h2.

(** A row is stored when the mapping under its key holds its fingerprint. *)
Definition stored (config : SyncConfig) (w : world Env) (source_record : pydict) : Prop :=
  exists k h m,
    source_key config source_record = Some k
    /\ fingerprint config source_record = Some h
    /\ record_mappings (db w) !! (name config, k) = Some m
    /\ data_hash m = h.

(** *** The batch, record by record *)

(** What each record of a batch came to, in order, and the world after the
    last one. *)
Fixpoint replay (config : SyncConfig) (source_records : list pydict) (w : world Env)
    : list (result string) * world Env :=
  match source_records with
  | [] => ([], w)
  | record :: rest =>
      let '(outcome, w') := _sync_record config record w in
      let '(outcomes, w'') := replay config rest w' in
      (outcome :: outcomes, w'')
  end.

Definition tally (st : stats) (outcomes : list (result string)) : stats :=
  fold_left (fun acc outcome =>
               match outcome with
               | Ok result => count acc result
               | Raise _ => count_error acc
               end) outcomes st.

Definition failures (outcomes : list (result string)) : Z :=
  Z.of_nat (length (List.filter (fun o => negb (is_ok o)) outcomes)).

Definition successes (outcomes : list (result string)) : Z :=
  Z.of_nat (length (List.filter is_ok outcomes)).

(** The counters after [n] more records, each skipped. *)
Definition all_skipped (st : stats) (n : nat) : stats :=
  Stats (processed st + Z.of_nat n) (created st) (updated st)
    (skipped st + Z.of_nat n) (errors st).

(** [processed] is the sum of the three classes. *)
Definition balanced (st : stats) : Prop :=
  processed st = (created st + updated st + skipped st)%Z.

(** The rows of [sync_runs] with a given id all have a given status, and
    there is one. *)
Definition run_has_status (run_id : Z) (final : string) (w : world Env) : Prop :=
  (exists r, In r (sync_runs (db w)) /\ id r = run_id)
  /\ (forall r, In r (sync_runs (db w)) -> id r = run_id -> status r = final).

End Methods.
End SyncEngine.

(** ** A concrete interpreter and a concrete world, for running the code *)

Module Lab.
Import Py.

(** [float_repr] on plain integer literals below 10^15, where the nearest
    float is the integer itself. *)
Definition float_repr_small (s : string) : string :=
  let body := Float.skip_sign s in
  if isdigit body && (String.length body <=? 15)%nat
  then (if String.prefix "-" s then "-" else "") +:+ pretty (int_of_digits 0 body) +:+ ".0"
  else s.

Definition two_digits (s : string) (at_ : nat) : option Z :=
  let t := String.substring at_ 2 s in
  if isdigit t && (String.length t =? 2)%nat then Some (int_of_digits 0 t) else None.

(** [fromisoformat] on the forms [YYYY-MM-DD], [YYYY-MM-DDTHH:MM:SS] and
    [YYYY-MM-DDTHH:MM:SS+HH:MM]. *)
Definition fromisoformat_basic (s : string) : option datetime :=
  let y := String.substring 0 4 s in
  if negb (isdigit y && (String.length y =? 4)%nat
           && String.eqb (String.substring 4 1 s) "-"
           && String.eqb (String.substring 7 1 s) "-") then None
  else
    mo ← two_digits s 5; d ← two_digits s 8;
    let on := Date (int_of_digits 0 y) mo d in
    if (String.length s =? 10)%nat then Some (midnight on)
    else if negb (String.eqb (String.substring 10 1 s) "T"
                  && String.eqb (String.substring 13 1 s) ":"
                  && String.eqb (String.substring 16 1 s) ":") then None
    else
      h ← two_digits s 11; mi ← two_digits s 14; sec ← two_digits s 17;
      if (String.length s =? 19)%nat then Some (Datetime on h mi sec 0 None)
      else if (String.length s =? 25)%nat
              && String.eqb (String.substring 19 1 s) "+"
              && String.eqb (String.substring 22 1 s) ":" then
        oh ← two_digits s 20; om ← two_digits s 23;
        Some (Datetime on h mi sec 0 (Some (oh * 3600 + om * 60)%Z))
      else None.

(** The runs below read no number from a text outside ASCII; this
    interpreter refuses them all. *)
#[export] Instance runtime : Runtime := {
  float_repr := float_repr_small;
  float_unicode := fun _ => None;
  fromisoformat := fromisoformat_basic
}.

(** A remote table that numbers the records it creates and refuses a
    payload whose [title] is the text forbidden; a clock that ticks at each reading;
    a state file that commits [writes_left] more writes when that is given. *)
Record lab_env := LabEnv {
  created_so_far : Z;
  clock : Z;
  writes_left : option nat
}.

Definition fresh : lab_env := LabEnv 0 0 None.

Definition refused (data : pydict) : bool :=
  match dict_get "title" data with
  | Some (VStr who) => String.eqb who "forbidden"
  | _ => false
  end.

(** The world in which the source query returns [rows], whatever it is
    asked.  Its remote table gives text ids; [sqlite_real] is exact on the
    floats of whole numbers below 10^15, which SQLite writes as Python
    does. *)
Definition environment (rows : list pydict) : Environment lab_env := {|
  execute_query := fun _ _ e => (Ok rows, e);
  create_record := fun _ data e =>
    if refused data then (Raise (External "422 Unprocessable Entity"), e)
    else (Ok [("id", VStr ("rec" +:+ pretty (created_so_far e)))],
          LabEnv (created_so_far e + 1) (clock e) (writes_left e));
  update_record := fun _ _ data e =>
    if refused data then (Raise (External "422 Unprocessable Entity"), e)
    else (Ok data, e);
  utcnow := fun e =>
    ("2024-01-01T00:00:" +:+ zero_pad 2 (clock e),
     LabEnv (created_so_far e) (clock e + 1) (writes_left e));
  sqlite_write := fun e =>
    match writes_left e with
    | None => (None, e)
    | Some O => (Some (External "database is locked"), e)
    | Some (S n) => (None, LabEnv (created_so_far e) (clock e) (Some n))
    end;
  sqlite_real := fun r => Some r
|}.

Definition start (e : lab_env) : State.world lab_env := State.World e State.empty_store [].

(** A sync of the table [people], keyed by [id], with one typed field. *)
Definition people : Config.SyncConfig := {|
  Config.name := "people";
  Config.enabled := true;
  Config.description := "";
  Config.query := "SELECT * FROM people";
  Config.primary_key := "id";
  Config.updated_at_field := None;
  Config.table_id := "tbl1";
  Config.field_mappings := [("id", "ext_id"); ("name", "title"); ("age", "s_age")];
  Config.external_id_field := "ext_id";
  Config.field_types := [("age", Config.FieldRule (Some "number") None None)];
  Config.transformations := []
|}.

Definition person (key : Z) (who : string) (age : pyval) : pydict :=
  [("id", VInt key); ("name", VStr who); ("age", age)].

(** Two rows with their own keys; two rows under one key; four rows of
    which the second is refused by the remote table and the third does not
    convert. *)
Definition two_people : list pydict :=
  [person 1 "Ann" (VInt 30); person 2 "Bob" (VInt 41)].

Definition one_key_twice : list pydict :=
  [person 1 "Ann" (VInt 30); person 1 "Ann" (VInt 31)].

Definition four_people : list pydict :=
  [person 1 "Ann" (VInt 30); person 2 "forbidden" (VInt 41);
   person 3 "Cy" (VStr "abc"); person 4 "Dee" (VInt 5)].

(** [sync] of [people] in the world where the source returns [rows]. *)
Definition run (rows : list pydict) (w : State.world lab_env)
    : result SyncEngine.stats * State.world lab_env :=
  SyncEngine.sync (H:=runtime) (H0:=environment rows) people w.

End Lab.

(** ** Reading the state back *)

Module StateQueries.
Import Py State StateManager.
Local Open Scope engine_scope.

(** [ORDER BY started_at DESC]: a run comes before the runs that started
    no later.  Runs of one sync have distinct start times
    ([UNIQUE(sync_name, started_at)]), so the order of a sync's runs is
    total. *)
Definition newer (a b : run) : Prop := String.le (started_at b) (started_at a).

#[export] Instance newer_dec : RelDecision newer :=
  fun a b => decide (String.le (started_at b) (started_at a)).

(** [LIMIT n]: a negative [n] is no limit. *)
Definition sql_limit {A} (n : Z) (rows : list A) : list A :=
  if (n <? 0)%Z then rows else firstn (Z.to_nat n) rows.

Definition of_sync (name : string) (runs : list run) : list run :=
  List.filter (fun r => String.eqb (sync_name r) name) runs.

Section Methods.
Context `{Environment Env}.

Definition get_sync_statistics (name : string) (limit : Z) : M Env (list run) :=
  let* s := get_db in
  ret (sql_limit limit (merge_sort newer (of_sync name (sync_runs s)))).



End Methods.

(** The constraints of the schema on [sync_runs]: ids are given out in
    increasing order and never twice, and no sync has two runs with one
    start time. *)
Definition well_formed (s : store) : Prop :=
  Forall (fun r => (id r < next_id s)%Z) (sync_runs s)
  /\ NoDup (map id (sync_runs s))
  /\ NoDup (map (fun r => (sync_name r, started_at r)) (sync_runs s)).

(** How many events of a kind a trace holds. *)
Definition creates (t : list event) : nat := length (List.filter is_create t).
Definition updates (t : list event) : nat := length (List.filter is_update t).
Definition upserts (t : list event) : nat := length (List.filter is_upsert t).

Definition is_query (ev : event) : bool :=
  match ev with Queried _ _ => true | _ => false end.
Definition queries (t : list event) : nat := length (List.filter is_query t).

(** Whether a record came to a given action, and how many of a batch did. *)
Definition came_to (action : string) (outcome : result string) : bool :=
  match outcome with
  | Ok taken => String.eqb taken action
  | Raise _ => false
  end.

Definition outcomes_of (action : string) (outcomes : list (result string)) : nat :=
  length (List.filter (came_to action) outcomes).



(** The mappings and boundaries a run of the sync [name] may write: those
    of other syncs read as before, and a mapping of [name] is still there,
    under the remote id and the creation time it had. *)
Definition within (name : string) (before after : store) : Prop :=
  (forall other, other <> name ->
     sync_metadata after !! other = sync_metadata before !! other)
  /\ (forall other source_id, other <> name ->
        record_mappings after !! (other, source_id)
        = record_mappings before !! (other, source_id))
  /\ (forall source_id m,
        record_mappings before !! (name, source_id) = Some m ->
        exists m',
          record_mappings after !! (name, source_id) = Some m'
          /\ smartsuite_record_id m' = smartsuite_record_id m
          /\ created_at m' = created_at m).

(** A row of [sync_runs] as [complete_sync_run] leaves it, and as
    [start_sync_run] does. *)
Definition closed_as (r : run) (final : string) (p c u s : Z) (message : option string)
    : Prop :=
  status r = final /\ is_Some (completed_at r)
  /\ records_processed r = p /\ records_created r = c
  /\ records_updated r = u /\ records_skipped r = s
  /\ error_message r = message.

Definition still_running (r : run) : Prop :=
  status r = "running" /\ completed_at r = None
  /\ records_processed r = 0%Z /\ records_created r = 0%Z
  /\ records_updated r = 0%Z /\ records_skipped r = 0%Z
  /\ error_message r = None.

(** The one row a run of [name] adds to the table it found. *)
Definition adds_row (name : string) (before after : store) (r : run) : Prop :=
  sync_runs after = sync_runs before ++ [r]
  /\ id r = next_id before /\ sync_name r = name.

End StateQueries.

(** ** [main.py]: running the configured syncs *)

Module Main.
Import Py Config State SyncEngine.

(** [ConfigLoader.get_enabled_syncs], on the configurations loaded. *)
Definition get_enabled_syncs (all_syncs : list SyncConfig) : list SyncConfig :=
  List.filter enabled all_syncs.

(** [args.sync_name and sync_config.name != args.sync_name] is the test
    for passing a configuration over: an option that is absent or empty
    selects them all. *)
Definition selected (sync_name : option string) (config : SyncConfig) : bool :=
  match sync_name with
  | Some wanted => if String.eqb wanted "" then true else String.eqb (name config) wanted
  | None => true
  end.

Section Methods.
Context `{Runtime} `{Environment Env}.

(** The loop of [run_once]: [overall_success] falls when a sync raises,
    and the loop goes on. *)
Fixpoint run_syncs (sync_name : option string) (syncs : list SyncConfig)
    (overall_success : bool) (w : world Env) : bool * world Env :=
  match syncs with
  | [] => (overall_success, w)
  | sync_config :: rest =>
      if selected sync_name sync_config then
        match sync sync_config w with
        | (Ok _, w') => run_syncs sync_name rest overall_success w'
        | (Raise _, w') => run_syncs sync_name rest false w'
        end
      else run_syncs sync_name rest overall_success w
  end.

(** [run_once], from the configurations loaded: the exit code and the
    world it leaves. *)
Definition run_once (all_syncs : list SyncConfig) (sync_name : option string)
    (w : world Env) : Z * world Env :=
  match get_enabled_syncs all_syncs with
  | [] => (1%Z, w)
  | syncs =>
      let '(overall_success, w') := run_syncs sync_name syncs true w in
      ((if overall_success then 0 else 1)%Z, w')
  end.

(** What each sync that was run came to, in order, and the world after the
    last one. *)
Fixpoint run_each (syncs : list SyncConfig) (w : world Env)
    : list (result stats) * world Env :=
  match syncs with
  | [] => ([], w)
  | sync_config :: rest =>
      let '(out, w1) := sync sync_config w in
      let '(outs, w2) := run_each rest w1 in
      (out :: outs, w2)
  end.

End Methods.
End Main.

(** ** The shapes the converters give *)

Module Shapes.
Import Py Converter.







(** The last entry of [field_mappings] that writes [smartsuite_field] from
    a column the row holds, with the value of that column. *)
Fixpoint last_source (items : list (string * string)) (source_record : pydict)
    (smartsuite_field : string) : option (string * pyval) :=
  match items with
  | [] => None
  | (source_field, destination) :: rest =>
      match last_source rest source_record smartsuite_field with
      | Some found => Some found
      | None =>
          if String.eqb destination smartsuite_field
          then match dict_get source_field source_record with
               | Some value => Some (source_field, value)
               | None => None
               end
          else None
      end
  end.

End Shapes.

(** ** [MySQLClient._format_query] *)

Module MySQL.
Import Py.

(** [\w] on ASCII text: a letter, a digit or the underscore. *)
Definition is_word (c : ascii) : bool :=
  let n := N_of_ascii c in
  (((48 <=? n) && (n <=? 57)) || ((65 <=? n) && (n <=? 90))
   || ((97 <=? n) && (n <=? 122)) || (n =? 95))%N.

Definition starts_word (s : string) : bool :=
  match s with
  | String c _ => is_word c
  | EmptyString => false
  end.

(** The end of [%(name)s], written when the name of a parameter ends. *)
Definition closing (inside : bool) : string := if inside then ")s" else "".

(** [re.sub(r':(\w+)', replacer, query)], read from the left: a colon that
    a word character follows opens a parameter, whose name is the longest
    run of word characters; [inside] tells that the characters being read
    are those of a name. *)
Fixpoint scan (inside : bool) (query : string) : string :=
  match query with
  | EmptyString => closing inside
  | String c rest =>
      if inside && is_word c then String c (scan true rest)
      else closing inside
           +:+ (if Ascii.eqb c ":" && starts_word rest
                then "%(" +:+ scan true rest
                else String c (scan false rest))
  end.

Definition _format_query (query : string) : string := scan false query.

Fixpoint all_word (s : string) : bool :=
  match s with
  | EmptyString => true
  | String c s' => is_word c && all_word s'
  end.

(** No colon of the text is followed by a word character. *)
Fixpoint no_parameter (s : string) : bool :=
  match s with
  | EmptyString => true
  | String c rest => negb (Ascii.eqb c ":" && starts_word rest) && no_parameter rest
  end.

End MySQL.

(** ** [class ConfigLoader] and the constructor of [SyncConfig] *)

Module Loader.
Import Py.

(** What loading raises: an exception of the engine ([KeyError],
    [TypeError]), [AttributeError] or [AssertionError]. *)
Inductive load_error : Type :=
| Raised (e : exn)
| AttributeError
| AssertionError (message : string).

Inductive outcome (A : Type) : Type :=
| Loaded (a : A)
| Failed (e : load_error).
Arguments Loaded {A} a.
Arguments Failed {A} e.

(** The attributes of a [SyncConfig] as the constructor sets them: values
    of the YAML document, of whatever type the document gives them. *)
Record entry := Entry {
  raw_name : pyval;
  raw_enabled : pyval;
  raw_description : pyval;
  raw_query : pyval;
  raw_primary_key : pyval;
  raw_updated_at_field : pyval;
  raw_table_id : pyval;
  raw_field_mappings : pyval;
  raw_external_id_field : pyval;
  raw_field_types : pyval;
  raw_transformations : pyval
}.

(** [v[key]] for a text [key]: only a dict has text keys. *)
Definition getitem (v : pyval) (key : string) : outcome pyval :=
  match v with
  | VDict d =>
      match dict_get key d with
      | Some x => Loaded x
      | None => Failed (Raised (KeyError key))
      end
  | _ => Failed (Raised TypeError)
  end.

(** [v.get(key, default)]: only a dict has the method. *)
Definition get (v : pyval) (key : string) (dflt : pyval) : outcome pyval :=
  match v with
  | VDict d => Loaded (get_or key dflt d)
  | _ => Failed AttributeError
  end.

Definition and_then {A B} (o : outcome A) (k : A -> outcome B) : outcome B :=
  match o with
  | Loaded a => k a
  | Failed e => Failed e
  end.

(** [SyncConfig.__init__] *)
Definition __init__ (config_dict : pyval) : outcome entry :=
  and_then (getitem config_dict "name") (fun name =>
  and_then (get config_dict "enabled" (VBool true)) (fun enabled =>
  and_then (get config_dict "description" (VStr "")) (fun description =>
  and_then (getitem config_dict "source") (fun source =>
  and_then (getitem source "query") (fun query =>
  and_then (getitem source "primary_key") (fun primary_key =>
  and_then (get source "updated_at_field" VNone) (fun updated_at_field =>
  and_then (getitem config_dict "destination") (fun destination =>
  and_then (getitem destination "table_id") (fun table_id =>
  and_then (getitem destination "field_mappings") (fun field_mappings =>
  and_then (getitem destination "external_id_field") (fun external_id_field =>
  and_then (get destination "field_types" (VDict [])) (fun field_types =>
  and_then (get destination "transformations" (VDict [])) (fun transformations =>
  Loaded (Entry name enabled description query primary_key updated_at_field
            table_id field_mappings external_id_field field_types
            transformations)))))))))))))).

(** [for sync_dict in ...]: the elements of a list, the keys of a dict, the
    characters of a text (each a text; exact on ASCII), the bytes of a
    byte string; nothing else is iterable. *)
Definition iterate (v : pyval) : outcome (list pyval) :=
  match v with
  | VList l => Loaded l
  | VDict d => Loaded (map (fun kv => VStr (fst kv)) d)
  | VStr s => Loaded (map (fun c => VStr (String c "")) (list_ascii_of_string s))
  | VBytes b => Loaded (map (fun c => VInt (Z.of_N (N_of_ascii c))) (list_ascii_of_string b))
  | _ => Failed (Raised TypeError)
  end.

(** The loop of [load]: stops at the first entry that raises. *)
Fixpoint load_each (items : list pyval) : outcome (list entry) :=
  match items with
  | [] => Loaded []
  | sync_dict :: rest =>
      and_then (__init__ sync_dict) (fun sync_config =>
      and_then (load_each rest) (fun syncs => Loaded (sync_config :: syncs)))
  end.

(** [ConfigLoader.load], from the document [yaml.safe_load] gave. *)
Definition load (config_data : pyval) : outcome (list entry) :=
  and_then (get config_data "syncs" (VList [])) (fun listed =>
  and_then (iterate listed) load_each).

Definition get_enabled_syncs (config_data : pyval) : outcome (list entry) :=
  and_then (load config_data) (fun all_syncs =>
  Loaded (List.filter (fun sync => truthy (raw_enabled sync)) all_syncs)).

(** The six assertions of [validate_config], in their order. *)
Definition assertions (sync : entry) : list (pyval * string) :=
  [(raw_name sync, "Sync name is required");
   (raw_query sync, "Source query is required");
   (raw_primary_key sync, "Primary key is required");
   (raw_table_id sync, "Table ID is required");
   (raw_field_mappings sync, "Field mappings are required");
   (raw_external_id_field sync, "External ID field is required")].

Fixpoint assert_all (checks : list (pyval * string)) : outcome unit :=
  match checks with
  | [] => Loaded tt
  | (value, message) :: rest =>
      if truthy value then assert_all rest else Failed (AssertionError message)
  end.

Fixpoint validate_each (syncs : list entry) : outcome unit :=
  match syncs with
  | [] => Loaded tt
  | sync :: rest => and_then (assert_all (assertions sync)) (fun _ => validate_each rest)
  end.

Definition validate_config (config_data : pyval) : outcome bool :=
  and_then (load config_data) (fun syncs =>
  and_then (validate_each syncs) (fun _ => Loaded true)).

(** An entry has every required key, [source] and [destination] being
    dicts. *)
Definition has_required_keys (config_dict : pyval) : bool :=
  match config_dict with
  | VDict d =>
      dict_mem "name" d
      && match dict_get "source" d with
         | Some (VDict source) => dict_mem "query" source && dict_mem "primary_key" source
         | _ => false
         end
      && match dict_get "destination" d with
         | Some (VDict destination) =>
             dict_mem "table_id" destination && dict_mem "field_mappings" destination
             && dict_mem "external_id_field" destination
         | _ => false
         end
  | _ => false
  end.

End Loader.

(** ** More concrete worlds *)

Module Faults.
Import Py.

(** The world of [Lab] with a source that answers [source] and a state
    file that refuses the writes whose numbers, counted from 0, are listed. *)
Record faulty_env := FaultyEnv {
  inner : Lab.lab_env;
  writes_done : nat
}.

Definition fresh : faulty_env := FaultyEnv Lab.fresh 0.

Definition environment (source : result (list pydict)) (refused_writes : list nat)
    : Environment faulty_env := {|
  execute_query := fun _ _ e => (source, e);
  create_record := fun table_id data e =>
    let '(reply, i) := @create_record _ (Lab.environment []) table_id data (inner e) in
    (reply, FaultyEnv i (writes_done e));
  update_record := fun table_id record_id data e =>
    let '(reply, i) := @update_record _ (Lab.environment []) table_id record_id data (inner e) in
    (reply, FaultyEnv i (writes_done e));
  utcnow := fun e =>
    let '(stamp, i) := @utcnow _ (Lab.environment []) (inner e) in
    (stamp, FaultyEnv i (writes_done e));
  sqlite_write := fun e =>
    (if existsb (Nat.eqb (writes_done e)) refused_writes
     then Some (External "database is locked") else None,
     FaultyEnv (inner e) (S (writes_done e)));
  sqlite_real := @sqlite_real _ (Lab.environment [])
|}.

Definition start (e : faulty_env) : State.world faulty_env :=
  State.World e State.empty_store [].

End Faults.

Module Scenes.
Import Py.

(** The worlds of [Lab] by the rows their source returns. *)
Definition nobody : Environment Lab.lab_env := Lab.environment [].
Definition two : Environment Lab.lab_env := Lab.environment Lab.two_people.
Definition four : Environment Lab.lab_env := Lab.environment Lab.four_people.
Definition ann_older : Environment Lab.lab_env :=
  Lab.environment [Lab.person 1 "Ann" (VInt 31)].

(** A source that is down, and a state file that refuses its fifth write. *)
Definition source_down : Environment Faults.faulty_env :=
  Faults.environment (Raise (External "2003 Can't connect to MySQL server")) [].
Definition fifth_write_refused : Environment Faults.faulty_env :=
  Faults.environment (Ok Lab.two_people) [4].

(** A sync that maps two columns to one field. *)
Definition contacts : Config.SyncConfig := {|
  Config.name := "contacts";
  Config.enabled := true;
  Config.description := "";
  Config.query := "SELECT * FROM contacts";
  Config.primary_key := "id";
  Config.updated_at_field := None;
  Config.table_id := "tbl2";
  Config.field_mappings := [("id", "ext_id"); ("home", "phone"); ("mobile", "phone")];
  Config.external_id_field := "ext_id";
  Config.field_types := [];
  Config.transformations := []
|}.

(** Two entries of a YAML document: one complete, one without [source]. *)
Definition complete_entry : pyval :=
  VDict [("name", VStr "people");
         ("source", VDict [("query", VStr "SELECT * FROM people");
                           ("primary_key", VStr "id")]);
         ("destination", VDict [("table_id", VStr "tbl1");
                                ("field_mappings", VDict [("id", VStr "ext_id")]);
                                ("external_id_field", VStr "ext_id")])].

Definition entry_without_source : pyval :=
  VDict [("name", VStr "orders"); ("enabled", VBool false)].

End Scenes.

(** * Properties *)

(** ** Test vectors of the digest *)

Example sha_abc : Sha256.hexdigest "abc" = "ba7816bf8f01cfea414140de5dae2223b00361a396177a9cb410ff61f20015ad".
Proof. vm_compute. reflexivity. Qed.
Example sha_empty : Sha256.hexdigest "" = "e3b0c44298fc1c149afbf4c8996fb92427ae41e4649b934ca495991b7852b855".
Proof. vm_compute. reflexivity. Qed.
Example sha_two_blocks : Sha256.hexdigest "abcdbcdecdefdefgefghfghighijhijkijkljklmklmnlmnomnopnopq" = "248d6a61d20638b8e5c026930c3e6039a33ce45964ff2167f6ecedd419db06c1".
Proof. vm_compute. reflexivity. Qed.

Example float_literals :
  map Float.literal ["abc"; "12"; " 1.5e3 "; "1_000.5"; "."; "-.5"; "1."; "1e"; "Infinity"; "1__0"; ""]
  = [false; true; true; true; false; true; true; false; true; false; false].
Proof. vm_compute. reflexivity. Qed.

(** [float] strips the six ASCII blanks and no other control character. *)
Example float_blanks :
  map Float.literal
    [" 12 "; String "009" ("12" +:+ String "010" ""); String "011" (String "012" "12");
     String "028" "12"; "12" +:+ String "031" ""; String "000" "12"]
  = [true; true; true; false; false; false].
Proof. vm_compute. reflexivity. Qed.

(** ** The converters *)

Module DictFacts.
Import Py.

Lemma existsb_eqb_In (s : string) (l : list string) :
  existsb (String.eqb s) l = true <-> In s l.
Proof.
  rewrite existsb_exists. split.
  - intros [x [Hin Heq]]. apply String.eqb_eq in Heq. now subst.
  - intros Hin. exists s. split; [assumption | apply String.eqb_refl].
Qed.

Section Dict.
Context {V : Type}.
Implicit Types (d : list (string * V)) (k : string) (v : V).

Lemma dict_get_set_eq k v d : dict_get k (dict_set k v d) = Some v.
Proof.
  induction d as [|[k' v'] d IH]; simpl.
  - now rewrite String.eqb_refl.
  - destruct (String.eqb k k') eqn:E; simpl.
    + now rewrite String.eqb_refl.
    + now rewrite E.
Qed.

Lemma dict_get_set_ne k k' v d : k <> k' -> dict_get k' (dict_set k v d) = dict_get k' d.
Proof.
  intros Hne. induction d as [|[k0 v0] d IH]; simpl.
  - destruct (String.eqb_spec k' k); [congruence | reflexivity].
  - destruct (String.eqb_spec k k0) as [->|Hk]; simpl.
    + destruct (String.eqb_spec k' k0); [congruence | reflexivity].
    + destruct (String.eqb_spec k' k0); [reflexivity | apply IH].
Qed.

Lemma dict_get_In k v d : dict_get k d = Some v -> In (k, v) d.
Proof.
  induction d as [|[k' v'] d IH]; simpl; [discriminate|].
  destruct (String.eqb_spec k k') as [->|Hk].
  - intros [= ->]. now left.
  - intros Hg. right. now apply IH.
Qed.

Lemma dict_get_NoDup k v d : NoDup (keys d) -> In (k, v) d -> dict_get k d = Some v.
Proof.
  induction d as [|[k' v'] d IH]; simpl; [contradiction|].
  intros Hnd [Heq|Hin].
  - injection Heq as -> ->. now rewrite String.eqb_refl.
  - apply NoDup_cons in Hnd. destruct Hnd as [Hnotin Hnd].
    destruct (String.eqb_spec k k') as [->|Hk].
    + exfalso. apply Hnotin. apply list_elem_of_In.
      change k' with (fst (k', v)). now apply in_map.
    + now apply IH.
Qed.

End Dict.
End DictFacts.

Module ConverterFacts.
Import Py Converter DictFacts.

(** C10.  The yes/no converter: a string is true exactly when its
    lower-cased form is one of true, yes, 1, t, y, on; a boolean passes
    through; null is false; anything else is its truth value. *)
Theorem to_yesno_coercion (value : pyval) :
  match value with
  | VNone => to_yesno value = Ok (VBool false)
  | VBool b => to_yesno value = Ok (VBool b)
  | VStr s =>
      exists b, to_yesno value = Ok (VBool b)
                /\ (b = true <-> In (lower s) ["true"; "yes"; "1"; "t"; "y"; "on"])
  | _ => to_yesno value = Ok (VBool (truthy value))
  end.
Proof.
  destruct value; try reflexivity.
  eexists. split; [reflexivity | apply existsb_eqb_In].
Qed.

Example yesno_samples :
  map to_yesno [VStr "YES"; VStr "On"; VStr "no"; VStr ""; VStr "2"; VInt 2; VInt 0; VNone]
  = map (fun b => Ok (VBool b)) [true; true; false; false; false; true; false; false].
Proof. reflexivity. Qed.




Example date_samples :
  map (fun v => to_date (H:=Lab.runtime) v no_options)
    [VDate (Date 2024 3 9); VDatetime (Datetime (Date 2024 3 9) 13 5 0 0 None);
     VStr "2024-03-09T13:05:00Z"; VStr "next tuesday"]
  = map Ok
      [date_object (VStr "2024-03-09T00:00:00") false;
       date_object (VStr "2024-03-09T13:05:00") true;
       date_object (VStr "2024-03-09T13:05:00+00:00") false;
       date_object (VStr "next tuesday") false].
Proof. vm_compute. reflexivity. Qed.

End ConverterFacts.

(** ** The record mapper *)

Module ConfigFacts.
Import Py Converter Config Shapes DictFacts.

Section Mapper.
Context `{Runtime}.














(** A destination field no remaining entry writes keeps its value. *)
Lemma map_fields_untouched (self : SyncConfig) (items : list (string * string))
    (source_record mapped p : pydict) (dst : string) :
  map_fields self items source_record mapped = Ok p ->
  ~ In dst (map snd items) ->
  dict_get dst p = dict_get dst mapped.
Proof.
  revert mapped. induction items as [|[s d] items IH]; intros mapped Hmap Hnotin.
  - now injection Hmap as ->.
  - simpl in Hmap, Hnotin.
    destruct (dict_get s source_record) as [value|].
    + destruct (transform_value self s value) as [r|e]; [|discriminate]. simpl in Hmap.
      rewrite (IH _ Hmap) by tauto.
      apply dict_get_set_ne. intros ->. tauto.
    + apply (IH _ Hmap). tauto.
Qed.

(** The payload holds, under a destination name written once, what its
    source field converts to. *)
Lemma map_fields_emits (self : SyncConfig) (items : list (string * string))
    (source_record mapped p : pydict) (src dst : string) (value : pyval) :
  map_fields self items source_record mapped = Ok p ->
  List.NoDup (map snd items) ->
  In (src, dst) items ->
  dict_get src source_record = Some value ->
  exists r, transform_value self src value = Ok r /\ dict_get dst p = Some r.
Proof.
  revert mapped. induction items as [|[s d] items IH]; intros mapped Hmap Hnd Hin Hval.
  - contradiction.
  - simpl in Hnd. apply List.NoDup_cons_iff in Hnd. destruct Hnd as [Hfresh Hnd].
    simpl in Hmap. destruct Hin as [Heq|Hin].
    + injection Heq as -> ->. rewrite Hval in Hmap.
      destruct (transform_value self src value) as [r|e]; [|discriminate]. simpl in Hmap.
      exists r. split; [reflexivity|].
      rewrite (map_fields_untouched _ _ _ _ _ _ Hmap Hfresh).
      apply dict_get_set_eq.
    + destruct (dict_get s source_record) as [v0|].
      * destruct (transform_value self s v0) as [r0|e]; [|discriminate].
        simpl in Hmap. now apply (IH _ Hmap).
      * now apply (IH _ Hmap).
Qed.


(** The payload holds, under a destination name, what the last entry that
    writes it from a column of the row converts to. *)
Lemma map_fields_last (self : SyncConfig) (items : list (string * string))
    (source_record mapped p : pydict) (dst : string) :
  map_fields self items source_record mapped = Ok p ->
  match last_source items source_record dst with
  | Some (src, value) =>
      exists r, transform_value self src value = Ok r /\ dict_get dst p = Some r
  | None => dict_get dst p = dict_get dst mapped
  end.
Proof.
  revert mapped. induction items as [|[s d] items IH]; intros mapped Hmap.
  - simpl in *. now injection Hmap as ->.
  - simpl in Hmap |- *. destruct (dict_get s source_record) as [value|] eqn:Hcol.
    + destruct (transform_value self s value) as [tv|] eqn:Htv; [|discriminate].
      simpl in Hmap. specialize (IH _ Hmap).
      destruct (last_source items source_record dst) as [[src v]|]; [exact IH|].
      destruct (String.eqb_spec d dst) as [->|Hne].
      * exists tv. split; [assumption|]. now rewrite IH, dict_get_set_eq.
      * now rewrite IH, dict_get_set_ne.
    + specialize (IH _ Hmap).
      destruct (last_source items source_record dst) as [[src v]|]; [exact IH|].
      destruct (String.eqb d dst); exact IH.
Qed.



End Mapper.





End ConfigFacts.

(** ** The fingerprint *)

Module HashFacts.
Import Py Config DictFacts.
Import StateManager.

Local Open Scope Z_scope.

Definition bounded (h : Sha256.words8) : Prop :=
  (0 <= Sha256.ha h < 2 ^ 32) /\ (0 <= Sha256.hb h < 2 ^ 32)
  /\ (0 <= Sha256.hc h < 2 ^ 32) /\ (0 <= Sha256.hd h < 2 ^ 32)
  /\ (0 <= Sha256.he h < 2 ^ 32) /\ (0 <= Sha256.hf h < 2 ^ 32)
  /\ (0 <= Sha256.hg h < 2 ^ 32) /\ (0 <= Sha256.hh h < 2 ^ 32).

Lemma compress_bounded (h : Sha256.words8) (block : list Z) :
  bounded (Sha256.compress h block).
Proof.
  unfold Sha256.compress, bounded, Sha256.wrap32.
  cbn [Sha256.ha Sha256.hb Sha256.hc Sha256.hd Sha256.he Sha256.hf Sha256.hg Sha256.hh].
  repeat split; apply Z.mod_pos_bound; reflexivity.
Qed.

Lemma fold_compress_bounded (bs : list (list Z)) (h : Sha256.words8) :
  bounded h -> bounded (fold_left Sha256.compress bs h).
Proof.
  revert h. induction bs as [|b bs IH]; intros h Hb; [exact Hb|].
  simpl. apply IH, compress_bounded.
Qed.

Lemma H0_bounded : bounded Sha256.H0.
Proof. unfold bounded. cbn. lia. Qed.

(** A digest is a number of 256 bits. *)
Lemma digest_range (msg : list Z) : 0 <= Sha256.digest msg < 2 ^ 256.
Proof.
  unfold Sha256.digest, Sha256.digest_words.
  generalize (Sha256.blocks (length (Sha256.be_words (length (Sha256.pad msg)) (Sha256.pad msg)))
                (Sha256.be_words (length (Sha256.pad msg)) (Sha256.pad msg))).
  intros bs. pose proof (fold_compress_bounded bs _ H0_bounded) as Hb.
  revert Hb. generalize (fold_left Sha256.compress bs Sha256.H0). intros h.
  unfold bounded, Sha256.number.
  change (2 ^ 256) with (2 ^ 32 * 2 ^ 32 * 2 ^ 32 * 2 ^ 32 * 2 ^ 32 * 2 ^ 32 * 2 ^ 32 * 2 ^ 32).
  change (2 ^ 32) with 4294967296.
  lia.
Qed.

Close Scope Z_scope.

(** No function from the naturals into a finite range is injective. *)
Lemma no_injection_into_range (n : nat) (f : nat -> nat) :
  (forall i, f i < n) -> (forall i j, f i = f j -> i = j) -> False.
Proof.
  intros Hrange Hinj.
  assert (List.NoDup (map f (seq 0 (S n)))) as Hnd.
  { apply List.NoDup_map_NoDup_ForallPairs; [|apply List.seq_NoDup].
    intros i j _ _. apply Hinj. }
  assert (incl (map f (seq 0 (S n))) (seq 0 n)) as Hincl.
  { intros x Hx. apply in_map_iff in Hx. destruct Hx as (i & <- & _).
    apply in_seq. split; [lia | apply Hrange]. }
  pose proof (List.NoDup_incl_length Hnd Hincl) as Hlen.
  rewrite length_map, !length_seq in Hlen. lia.
Qed.

Lemma app_last_inj (s t : string) (c : ascii) :
  s +:+ String c EmptyString = t +:+ String c EmptyString -> s = t.
Proof.
  revert t. induction s as [|a s IH]; intros [|b t] Heq; try reflexivity.
  - destruct t; discriminate.
  - destruct s; discriminate.
  - injection Heq as -> Heq. f_equal. now apply IH.
Qed.

(** The payloads [{k: n}] have pairwise different canonical texts. *)
Definition numbered (n : nat) : pydict := [("k", VInt (Z.of_nat n))].

Lemma numbered_dumps_inj (i j : nat) :
  Json.dumps (numbered i) = Json.dumps (numbered j) -> i = j.
Proof.
  unfold Json.dumps, numbered. cbn -[pretty String.append].
  intros Heq.
  apply (inj (String.append "{")) in Heq.
  apply app_last_inj in Heq.
  unfold Json.member in Heq. cbn -[pretty String.append] in Heq.
  apply (inj (String.append _)) in Heq.
  apply (inj (String.append _)) in Heq.
  apply (inj pretty) in Heq. lia.
Qed.

(** C3, as the specification has it, fails in one direction: digests are
    numbers of 256 bits and canonical texts are unboundedly many, so two
    payloads with different canonical texts share a digest. *)
Lemma equal_digest_does_not_give_equal_text :
  ~ (forall p1 p2 : pydict,
       calculate_hash p1 = calculate_hash p2 <-> Json.dumps p1 = Json.dumps p2).
Proof.
  intros Hiff.
  set (code := fun n : nat =>
         Sha256.digest (map Z.of_N (Json.bytes_of (Json.dumps (numbered n))))).
  apply (no_injection_into_range (Z.to_nat (2 ^ 256)) (fun n => Z.to_nat (code n))).
  - intros i. apply Z2Nat.inj_lt; apply digest_range || (apply Z.lt_le_incl; reflexivity).
  - intros i j Heq.
    apply Z2Nat.inj in Heq; try apply digest_range.
    apply numbered_dumps_inj, Hiff.
    unfold calculate_hash, Sha256.hexdigest. fold (code i). fold (code j).
    now rewrite Heq.
Qed.

(** *** Key order *)

Lemma keys_encoded (d : pydict) :
  map fst (map (fun kv => (fst kv, Json.encode (snd kv))) d) = keys d.
Proof. unfold keys. rewrite map_map. reflexivity. Qed.

Lemma value_of_key {V} (l : list (string * V)) (k : string) (a b : V) :
  NoDup (keys l) -> (k, a) ∈ l -> (k, b) ∈ l -> a = b.
Proof.
  intros Hnd Ha Hb.
  apply list_elem_of_In, (dict_get_NoDup _ _ _ Hnd) in Ha.
  apply list_elem_of_In, (dict_get_NoDup _ _ _ Hnd) in Hb.
  congruence.
Qed.

#[local] Instance key_le_trans : Transitive Json.key_le.
Proof. intros x y z. unfold Json.key_le. apply transitivity. Qed.

#[local] Instance key_le_total : Total Json.key_le.
Proof. intros x y. unfold Json.key_le. apply total, _. Qed.

(** Items with distinct keys have one ordering by key. *)
Lemma sort_items_perm (l1 l2 : list (string * string)) :
  NoDup (keys l1) -> l1 ≡ₚ l2 -> Json.sort_items l1 = Json.sort_items l2.
Proof.
  intros Hnd Hperm. unfold Json.sort_items.
  apply (Sorted_unique_strong Json.key_le).
  - intros [k1 a] [k2 b] H1 H2 Hle1 Hle2.
    rewrite merge_sort_Permutation in H1. rewrite merge_sort_Permutation, <- Hperm in H2.
    unfold Json.key_le in Hle1, Hle2. simpl in Hle1, Hle2.
    assert (k1 = k2) as -> by (apply (anti_symm String.le); assumption).
    f_equal. exact (value_of_key _ _ _ _ Hnd H1 H2).
  - apply Sorted_merge_sort, _.
  - apply Sorted_merge_sort, _.
  - now rewrite !merge_sort_Permutation.
Qed.

Lemma dumps_perm (p1 p2 : pydict) :
  NoDup (keys p1) -> p1 ≡ₚ p2 -> Json.dumps p1 = Json.dumps p2.
Proof.
  intros Hnd Hperm. unfold Json.dumps. cbn [Json.encode].
  rewrite (sort_items_perm _ (map (fun kv => (fst kv, Json.encode (snd kv))) p2)).
  - reflexivity.
  - unfold keys at 1. now rewrite keys_encoded.
  - now apply Permutation_map.
Qed.

Lemma dict_get_perm {V} (d1 d2 : list (string * V)) (k : string) :
  NoDup (keys d1) -> d1 ≡ₚ d2 -> dict_get k d1 = dict_get k d2.
Proof.
  intros Hnd Hperm.
  assert (NoDup (keys d2)) as Hnd2.
  { unfold keys in *. now rewrite <- Hperm. }
  destruct (dict_get k d1) as [v|] eqn:H1.
  - symmetry. apply dict_get_NoDup; [assumption|].
    apply (Permutation_in _ Hperm). now apply dict_get_In.
  - destruct (dict_get k d2) as [v|] eqn:H2; [|reflexivity].
    apply dict_get_In, (Permutation_in _ (Permutation_sym Hperm)) in H2.
    apply (dict_get_NoDup _ _ _ Hnd) in H2. congruence.
Qed.

Lemma map_fields_ext `{Runtime} (self : SyncConfig) (items : list (string * string))
    (r1 r2 mapped : pydict) :
  (forall k, dict_get k r1 = dict_get k r2) ->
  map_fields self items r1 mapped = map_fields self items r2 mapped.
Proof.
  intros Hext. revert mapped. induction items as [|[s d] items IH]; intros mapped.
  - reflexivity.
  - simpl. rewrite <- Hext. destruct (dict_get s r1) as [v|]; [|apply IH].
    destruct (transform_value self s v); simpl; [apply IH | reflexivity].
Qed.

(** C3, as the code has it.  Equal canonical texts give equal digests; the
    digest of a payload does not depend on the order its keys were inserted
    in; and the payload mapped from a source row, hence its digest, does not
    depend on the order of the row's fields. *)
Theorem fingerprint_determinism `{Runtime} :
  (forall p1 p2 : pydict,
     Json.dumps p1 = Json.dumps p2 -> calculate_hash p1 = calculate_hash p2)
  /\ (forall p1 p2 : pydict,
        NoDup (keys p1) -> p1 ≡ₚ p2 -> calculate_hash p1 = calculate_hash p2)
  /\ (forall (self : SyncConfig) (r1 r2 : pydict),
        NoDup (keys r1) -> r1 ≡ₚ r2 ->
        map_record self r1 = map_record self r2
        /\ rbind (map_record self r1) (fun p => Ok (calculate_hash p))
           = rbind (map_record self r2) (fun p => Ok (calculate_hash p))).
Proof.
  split; [|split].
  - intros p1 p2 Heq. unfold calculate_hash. now rewrite Heq.
  - intros p1 p2 Hnd Hperm. unfold calculate_hash. now rewrite (dumps_perm _ _ Hnd Hperm).
  - intros self r1 r2 Hnd Hperm.
    assert (map_record self r1 = map_record self r2) as Heq.
    { apply map_fields_ext. intros k. now apply dict_get_perm. }
    split; [exact Heq|]. now rewrite Heq.
Qed.

Lemma fingerprint_determinism_witness :
  calculate_hash [("title", VStr "Ann"); ("ext_id", VStr "1")]
  = calculate_hash [("ext_id", VStr "1"); ("title", VStr "Ann")]
  /\ map_record (H:=Lab.runtime) Lab.people
       [("age", VInt 30); ("name", VStr "Ann"); ("id", VInt 1)]
     = map_record (H:=Lab.runtime) Lab.people
         [("name", VStr "Ann"); ("age", VInt 30); ("id", VInt 1)].
Proof.
  destruct (fingerprint_determinism (H:=Lab.runtime)) as (_ & Hkeys & Hrows).
  split.
  - apply Hkeys; [|apply perm_swap].
    unfold keys. simpl. compute_done.
  - apply Hrows; [|apply perm_swap].
    unfold keys. simpl. compute_done.
Defined.

End HashFacts.

(** ** The engine *)

Module EngineFacts.
Import Py Config State StateManager SyncEngine DictFacts.

Ltac run_monad :=
  unfold bind, ret, raise, lift, log, get_db, put_db, now, begin_write, try_except in *.

Ltac cases := repeat first [case_match | progress cbv zeta in *]; simplify_eq.

(** A step that raised before any write left the mappings as they were. *)
Ltac now_unchanged := simplify_eq; simpl; split; [now left | discriminate].

Section Engine.
Context `{Runtime} `{Environment Env}.
Implicit Types (w : world Env) (config : SyncConfig) (st : stats).

(** *** The methods of the state manager, step by step *)

Lemma save_record_mapping_eq (name source_id : string) (v : pyval) (hash : string) w :
  save_record_mapping name source_id v hash w
  = let '(stamp, e1) := utcnow (env w) in
    let '(fault, e2) := sqlite_write e1 in
    match fault with
    | Some x => (Raise x, World e2 (db w) (trace w))
    | None =>
        match text_column v with
        | Raise x => (Raise x, World e2 (db w) (trace w))
        | Ok rid =>
            let row := match record_mappings (db w) !! (name, source_id) with
                       | Some old => Mapping rid hash (created_at old) stamp
                       | None => Mapping rid hash stamp stamp
                       end in
            (Ok tt,
             World e2
               (Store (sync_runs (db w)) (next_id (db w))
                  (<[(name, source_id) := row]> (record_mappings (db w)))
                  (sync_metadata (db w)))
               (trace w ++ [MappingSaved name source_id rid hash]))
        end
    end.
Proof.
  unfold save_record_mapping. run_monad. simpl.
  destruct (utcnow (env w)) as [stamp e1]. simpl.
  destruct (sqlite_write e1) as [[x|] e2]; simpl; [reflexivity|].
  destruct (text_column v); reflexivity.
Qed.

Lemma start_sync_run_eq (name : string) w :
  start_sync_run name w
  = let '(fault, e1) := sqlite_write (env w) in
    match fault with
    | Some x => (Raise x, World e1 (db w) (trace w))
    | None =>
        let '(stamp, e2) := utcnow e1 in
        if run_exists name stamp (sync_runs (db w))
        then (Raise IntegrityError, World e2 (db w) (trace w))
        else (Ok (next_id (db w)),
              World e2
                (Store (sync_runs (db w)
                          ++ [Run (next_id (db w)) name stamp None "running" 0 0 0 0 None])
                   (next_id (db w) + 1) (record_mappings (db w)) (sync_metadata (db w)))
                (trace w ++ [RunStarted name (next_id (db w))]))
    end.
Proof.
  unfold start_sync_run. run_monad. simpl.
  destruct (sqlite_write (env w)) as [[x|] e1]; simpl; [reflexivity|].
  destruct (utcnow e1) as [stamp e2]. simpl.
  destruct (run_exists _ _ _); reflexivity.
Qed.

Lemma complete_sync_run_eq (run_id : Z) (final : string) (p c u s : Z)
    (message : option string) w :
  complete_sync_run run_id final p c u s message w
  = let '(fault, e1) := sqlite_write (env w) in
    match fault with
    | Some x => (Raise x, World e1 (db w) (trace w))
    | None =>
        let '(stamp, e2) := utcnow e1 in
        (Ok tt,
         World e2
           (Store (completed run_id final stamp p c u s message (sync_runs (db w)))
              (next_id (db w)) (record_mappings (db w)) (sync_metadata (db w)))
           (trace w ++ [RunCompleted run_id final]))
    end.
Proof.
  unfold complete_sync_run. run_monad. simpl.
  destruct (sqlite_write (env w)) as [[x|] e1]; simpl; [reflexivity|].
  destruct (utcnow e1) as [stamp e2]. reflexivity.
Qed.

Lemma update_last_sync_time_eq (name sync_time : string) w :
  update_last_sync_time name sync_time w
  = let '(fault, e1) := sqlite_write (env w) in
    match fault with
    | Some x => (Raise x, World e1 (db w) (trace w))
    | None =>
        let '(stamp, e2) := utcnow e1 in
        (Ok tt,
         World e2
           (Store (sync_runs (db w)) (next_id (db w)) (record_mappings (db w))
              (<[name := Metadata sync_time stamp]> (sync_metadata (db w))))
           (trace w ++ [LastSyncUpdated name sync_time]))
    end.
Proof.
  unfold update_last_sync_time. run_monad. simpl.
  destruct (sqlite_write (env w)) as [[x|] e1]; simpl; [reflexivity|].
  destruct (utcnow e1) as [stamp e2]. reflexivity.
Qed.

Lemma smartsuite_create_eq (table : string) (data : pydict) w :
  smartsuite_create table data w
  = let '(r, e) := create_record table data (env w) in
    (r, World e (db w) (trace w ++ [CreateCall table data])).
Proof. unfold smartsuite_create. run_monad. reflexivity. Qed.

Lemma smartsuite_update_eq (table record_id : string) (data : pydict) w :
  smartsuite_update table record_id data w
  = let '(r, e) := update_record table record_id data (env w) in
    (r, World e (db w) (trace w ++ [UpdateCall table record_id data])).
Proof. unfold smartsuite_update. run_monad. reflexivity. Qed.

Lemma mysql_query_eq (q : string) (last : option string) w :
  mysql_query q last w
  = let '(r, e) := execute_query q last (env w) in
    (r, World e (db w) (trace w ++ [Queried q last])).
Proof. unfold mysql_query. run_monad. reflexivity. Qed.

(** *** One record *)

(** The three ways through [_sync_record], once the key and the payload
    are there. *)
Lemma _sync_record_eq config (source_record : pydict) w :
  _sync_record config source_record w
  = match subscript source_record (primary_key config) with
    | Raise e => (Raise e, w)
    | Ok key =>
        match map_record config source_record with
        | Raise e => (Raise e, w)
        | Ok mapped =>
            let source_id := py_str key in
            let hash := calculate_hash mapped in
            match record_mappings (db w) !! (name config, source_id) with
            | Some existing =>
                if String.eqb (data_hash existing) hash then (Ok "skipped", w)
                else
                  match smartsuite_update (table_id config)
                          (smartsuite_record_id existing) mapped w with
                  | (Raise e, w1) => (Raise e, w1)
                  | (Ok _, w1) =>
                      match save_record_mapping (name config) source_id
                              (VStr (smartsuite_record_id existing)) hash w1 with
                      | (Raise e, w2) => (Raise e, w2)
                      | (Ok _, w2) => (Ok "updated", w2)
                      end
                  end
            | None =>
                match smartsuite_create (table_id config) mapped w with
                | (Raise e, w1) => (Raise e, w1)
                | (Ok created_record, w1) =>
                    match subscript created_record "id" with
                    | Raise e => (Raise e, w1)
                    | Ok smartsuite_id =>
                        match save_record_mapping (name config) source_id
                                smartsuite_id hash w1 with
                        | (Raise e, w2) => (Raise e, w2)
                        | (Ok _, w2) => (Ok "created", w2)
                        end
                    end
                end
            end
        end
    end.
Proof.
  unfold _sync_record, get_record_mapping. run_monad. simpl.
  destruct (subscript _ _); [|reflexivity].
  destruct (map_record _ _); [|reflexivity].
  destruct (record_mappings (db w) !! _) as [existing|].
  - destruct (String.eqb _ _); [reflexivity|].
    destruct (smartsuite_update _ _ _ w) as [[?|?] ?]; [|reflexivity].
    destruct (save_record_mapping _ _ _ _ _) as [[?|?] ?]; reflexivity.
  - destruct (smartsuite_create _ _ w) as [[?|?] ?]; [|reflexivity].
    destruct (subscript _ _); [|reflexivity].
    destruct (save_record_mapping _ _ _ _ _) as [[?|?] ?]; reflexivity.
Qed.

(** C2.  One record, with its key and its payload in hand.  With no stored
    mapping, a create call that returns an identifier is followed by one
    upsert and the record is created: the trace grows by exactly that
    call and that upsert.  With a stored mapping whose fingerprint is the
    recomputed one, the record is skipped and the world is left as it was:
    no call, no write.  With a stored mapping whose fingerprint differs, one
    update call under the stored identifier is followed by one upsert that
    keeps the identifier (and the creation time), and the record is
    updated. *)
Theorem reconciliation_transitions config (source_record : pydict) w
    (key : pyval) (mapped : pydict) :
  subscript source_record (primary_key config) = Ok key ->
  map_record config source_record = Ok mapped ->
  let source_id := py_str key in
  let hash := calculate_hash mapped in
  let s := db w in
  match record_mappings s !! (name config, source_id) with
  | None =>
      forall reply e1 ident rid stamp e2 e3,
        create_record (table_id config) mapped (env w) = (Ok reply, e1) ->
        subscript reply "id" = Ok ident -> text_column ident = Ok rid ->
        utcnow e1 = (stamp, e2) -> sqlite_write e2 = (None, e3) ->
        _sync_record config source_record w
        = (Ok "created",
           World e3
             (Store (sync_runs s) (next_id s)
                (<[(name config, source_id) := Mapping rid hash stamp stamp]>
                   (record_mappings s))
                (sync_metadata s))
             (trace w ++ [CreateCall (table_id config) mapped;
                          MappingSaved (name config) source_id rid hash]))
  | Some existing =>
      if String.eqb (data_hash existing) hash
      then _sync_record config source_record w = (Ok "skipped", w)
      else
        forall reply e1 stamp e2 e3,
          update_record (table_id config) (smartsuite_record_id existing) mapped (env w)
          = (Ok reply, e1) ->
          utcnow e1 = (stamp, e2) -> sqlite_write e2 = (None, e3) ->
          _sync_record config source_record w
          = (Ok "updated",
             World e3
               (Store (sync_runs s) (next_id s)
                  (<[(name config, source_id) :=
                       Mapping (smartsuite_record_id existing) hash
                         (created_at existing) stamp]> (record_mappings s))
                  (sync_metadata s))
               (trace w ++ [UpdateCall (table_id config) (smartsuite_record_id existing)
                              mapped;
                            MappingSaved (name config) source_id
                              (smartsuite_record_id existing) hash]))
  end.
Proof.
  intros Hkey Hmap. cbv zeta. rewrite _sync_record_eq, Hkey, Hmap. cbv zeta.
  destruct (record_mappings (db w) !! (name config, py_str key)) as [existing|] eqn:Hlook.
  - destruct (String.eqb (data_hash existing) (calculate_hash mapped)); [reflexivity|].
    intros reply e1 stamp e2 e3 Hup Hnow Hwrite.
    rewrite smartsuite_update_eq, Hup, save_record_mapping_eq. simpl.
    rewrite Hnow, Hwrite, Hlook, <- app_assoc. reflexivity.
  - intros reply e1 ident rid stamp e2 e3 Hcreate Hid Htext Hnow Hwrite.
    rewrite smartsuite_create_eq, Hcreate, Hid, save_record_mapping_eq. simpl.
    rewrite Hnow, Hwrite, Htext, Hlook, <- app_assoc. reflexivity.
Qed.

(** *** What one record leaves behind *)

Lemma _sync_record_result config (source_record : pydict) w (result : string) w' :
  _sync_record config source_record w = (Ok result, w') ->
  result = "created" \/ result = "updated" \/ result = "skipped".
Proof.
  rewrite _sync_record_eq. intros Heq. cases; auto.
Qed.

(** Runs and metadata are not touched by a record. *)
Lemma _sync_record_frame config (source_record : pydict) w out w' :
  _sync_record config source_record w = (out, w') ->
  sync_runs (db w') = sync_runs (db w)
  /\ next_id (db w') = next_id (db w)
  /\ sync_metadata (db w') = sync_metadata (db w).
Proof.
  rewrite _sync_record_eq. intros Heq.
  cases; auto;
    repeat match goal with
           | Hs : save_record_mapping _ _ _ _ _ = _ |- _ =>
               rewrite save_record_mapping_eq in Hs
           | Hs : smartsuite_update _ _ _ _ = _ |- _ => rewrite smartsuite_update_eq in Hs
           | Hs : smartsuite_create _ _ _ = _ |- _ => rewrite smartsuite_create_eq in Hs
           end;
    cases; auto.
Qed.

(** A record changes no mapping, or writes its own fingerprint under its
    own key; when it returns, it is stored. *)
Lemma _sync_record_mappings config (source_record : pydict) w out w' :
  _sync_record config source_record w = (out, w') ->
  (record_mappings (db w') = record_mappings (db w)
   \/ exists k h m,
        source_key config source_record = Some k
        /\ fingerprint config source_record = Some h
        /\ data_hash m = h
        /\ record_mappings (db w') = <[(name config, k) := m]> (record_mappings (db w)))
  /\ (is_ok out = true -> stored config w' source_record).
Proof.
  rewrite _sync_record_eq. unfold stored, source_key, fingerprint. intros Heq.
  destruct (subscript source_record (primary_key config)) as [key|]; [|now_unchanged].
  destruct (map_record config source_record) as [mapped|]; [|now_unchanged].
  cbv zeta in Heq.
  destruct (record_mappings (db w) !! (name config, py_str key)) as [existing|] eqn:Hlook.
  - destruct (String.eqb_spec (data_hash existing) (calculate_hash mapped)) as [Hsame|Hdiff].
    + simplify_eq. split; [now left|]. intros _. eauto 10.
    + rewrite smartsuite_update_eq in Heq.
      destruct (update_record _ _ _ _) as [[reply|e] e1]; [|now_unchanged].
      rewrite save_record_mapping_eq in Heq. simpl in Heq.
      destruct (utcnow e1) as [stamp e2]. destruct (sqlite_write e2) as [[x|] e3];
        [now_unchanged|].
      rewrite Hlook in Heq. simplify_eq. simpl. split.
      * right. eexists _, _, _. repeat split; reflexivity.
      * intros _. eexists _, _, _.
        split; [reflexivity|]. split; [reflexivity|].
        split; [apply lookup_insert_eq | reflexivity].
  - rewrite smartsuite_create_eq in Heq.
    destruct (create_record _ _ _) as [[reply|e] e1]; [|now_unchanged].
    destruct (subscript reply "id") as [ident|]; [|now_unchanged].
    rewrite save_record_mapping_eq in Heq. simpl in Heq.
    destruct (utcnow e1) as [stamp e2]. destruct (sqlite_write e2) as [[x|] e3];
      [now_unchanged|].
    destruct (text_column ident) as [rid|]; [|now_unchanged].
    rewrite Hlook in Heq. simplify_eq. simpl. split.
    + right. eexists _, _, _. repeat split; reflexivity.
    + intros _. eexists _, _, _.
        split; [reflexivity|]. split; [reflexivity|].
        split; [apply lookup_insert_eq | reflexivity].
Qed.

(** A stored row is skipped, and the world is left as it was. *)
Lemma _sync_record_stored config (source_record : pydict) w :
  stored config w source_record ->
  _sync_record config source_record w = (Ok "skipped", w).
Proof.
  intros (k & h & m & Hk & Hh & Hlook & Hm).
  unfold source_key, fingerprint in Hk, Hh. rewrite _sync_record_eq.
  destruct (subscript _ _) as [key|]; [|discriminate].
  destruct (map_record _ _) as [mapped|]; [|discriminate].
  injection Hk as <-. injection Hh as <-.
  cbv zeta. rewrite Hlook, Hm, String.eqb_refl. reflexivity.
Qed.

(** *** The loop *)

Lemma sync_loop_cons config (record : pydict) (rest : list pydict) st w :
  sync_loop config (record :: rest) st w
  = match _sync_record config record w with
    | (Ok result, w') => sync_loop config rest (count st result) w'
    | (Raise _, w') => sync_loop config rest (count_error st) w'
    end.
Proof. reflexivity. Qed.

(** The loop returns: its counters are the tally of what each record came
    to, and it ends in the world the last record left. *)
Lemma sync_loop_replay config (rows : list pydict) st w :
  sync_loop config rows st w
  = (Ok (tally st (replay config rows w).1), (replay config rows w).2).
Proof.
  revert st w. induction rows as [|record rest IH]; intros st w; [reflexivity|].
  rewrite sync_loop_cons. simpl.
  destruct (_sync_record config record w) as [[result|e] w1];
    rewrite IH; destruct (replay config rest w1); reflexivity.
Qed.

Lemma replay_length config (rows : list pydict) w :
  length (replay config rows w).1 = length rows.
Proof.
  revert w. induction rows as [|record rest IH]; intros w; [reflexivity|].
  simpl. destruct (_sync_record config record w) as [o w1].
  specialize (IH w1). destruct (replay config rest w1). simpl in *. now rewrite IH.
Qed.

Lemma count_fields st (result : string) :
  processed (count st result) = (processed st + 1)%Z
  /\ errors (count st result) = errors st.
Proof. unfold count. repeat case_match; auto. Qed.

Lemma tally_fields (outcomes : list (result string)) st :
  processed (tally st outcomes) = (processed st + successes outcomes)%Z
  /\ errors (tally st outcomes) = (errors st + failures outcomes)%Z.
Proof.
  unfold tally, successes, failures. revert st.
  induction outcomes as [|[result|e] os IH]; intros st; simpl.
  - lia.
  - destruct (IH (count st result)) as [Hp He].
    destruct (count_fields st result) as [Hp1 He1]. lia.
  - destruct (IH (count_error st)) as [Hp He]. simpl in *. lia.
Qed.

Lemma successes_failures (outcomes : list (result string)) :
  (successes outcomes + failures outcomes)%Z = Z.of_nat (length outcomes).
Proof.
  unfold successes, failures.
  induction outcomes as [|[result|e] os IH]; simpl in *; lia.
Qed.

Lemma count_balanced st (result : string) :
  result = "created" \/ result = "updated" \/ result = "skipped" ->
  balanced st -> balanced (count st result).
Proof. unfold balanced. intros [-> | [-> | ->]] Hb; simpl; lia. Qed.

Lemma sync_loop_balanced config (rows : list pydict) st w st' w' :
  sync_loop config rows st w = (Ok st', w') -> balanced st -> balanced st'.
Proof.
  revert st w. induction rows as [|record rest IH]; intros st w Hloop Hb.
  - now injection Hloop as <- _.
  - rewrite sync_loop_cons in Hloop.
    destruct (_sync_record config record w) as [[result|e] w1] eqn:Hstep.
    + apply (IH _ _ Hloop). apply count_balanced; [|assumption].
      exact (_sync_record_result _ _ _ _ _ Hstep).
    + apply (IH _ _ Hloop). exact Hb.
Qed.

(** Runs and metadata are not touched by the loop. *)
Lemma replay_frame config (rows : list pydict) w :
  sync_runs (db (replay config rows w).2) = sync_runs (db w)
  /\ next_id (db (replay config rows w).2) = next_id (db w)
  /\ sync_metadata (db (replay config rows w).2) = sync_metadata (db w).
Proof.
  revert w. induction rows as [|record rest IH]; intros w; [auto|].
  simpl. destruct (_sync_record config record w) as [o w1] eqn:Hstep.
  specialize (IH w1). destruct (replay config rest w1) as [os w2]. simpl in *.
  destruct (_sync_record_frame _ _ _ _ _ Hstep) as (H1 & H2 & H3).
  destruct IH as (I1 & I2 & I3). rewrite I1, I2, I3. auto.
Qed.

(** *** One run *)

Lemma mark_failed_raises (run_id : Z) (e : exn) w :
  exists e' w', mark_failed run_id e w = (Raise e', w').
Proof.
  unfold mark_failed. run_monad.
  destruct (complete_sync_run _ _ _ _ _ _ _ w) as [[[]|e'] w1]; eauto.
Qed.

Lemma finalize_eq config (run_id : Z) st w :
  finalize config run_id st w
  = let '(current_time, e1) := utcnow (env w) in
    match update_last_sync_time (name config) current_time
            (World e1 (db w) (trace w)) with
    | (Raise e, w1) => (Raise e, w1)
    | (Ok _, w1) =>
        match complete_sync_run run_id "success"
                (processed st) (created st) (updated st) (skipped st) None w1 with
        | (Raise e, w2) => (Raise e, w2)
        | (Ok _, w2) => (Ok st, w2)
        end
    end.
Proof.
  unfold finalize. run_monad. destruct (utcnow (env w)) as [t e1].
  destruct (update_last_sync_time _ _ _) as [[[]|e] w1]; [|reflexivity].
  destruct (complete_sync_run _ _ _ _ _ _ _ _) as [[[]|e] w2]; reflexivity.
Qed.

(** [sync], phase by phase. *)
Lemma sync_eq config w :
  sync config w
  = match start_sync_run (name config) w with
    | (Raise e, w1) => (Raise e, w1)
    | (Ok run_id, w1) =>
        match mysql_query (query config)
                (last_sync_time <$> sync_metadata (db w1) !! name config) w1 with
        | (Raise e, w2) => mark_failed run_id e w2
        | (Ok [], w2) =>
            match complete_sync_run run_id "success" 0 0 0 0 None w2 with
            | (Raise e, w3) => mark_failed run_id e w3
            | (Ok _, w3) => (Ok no_stats, w3)
            end
        | (Ok rows, w2) =>
            match finalize config run_id (tally no_stats (replay config rows w2).1)
                    (replay config rows w2).2 with
            | (Raise e, w4) => mark_failed run_id e w4
            | (Ok st, w4) => (Ok st, w4)
            end
        end
    end.
Proof.
  unfold sync, get_last_sync_time. run_monad.
  destruct (start_sync_run (name config) w) as [[run_id|e] w1]; [|reflexivity].
  simpl. destruct (mysql_query _ _ w1) as [[rows|e] w2]; [|reflexivity].
  destruct rows as [|record rest].
  - destruct (complete_sync_run _ _ _ _ _ _ _ w2) as [[[]|e] w3]; reflexivity.
  - rewrite sync_loop_replay.
    destruct (finalize _ _ _ _) as [[st|e] w4]; reflexivity.
Qed.

Lemma start_sync_run_ok (sync : string) w (run_id : Z) w1 :
  start_sync_run sync w = (Ok run_id, w1) ->
  record_mappings (db w1) = record_mappings (db w)
  /\ sync_metadata (db w1) = sync_metadata (db w)
  /\ (exists stamp, sync_runs (db w1)
                    = sync_runs (db w) ++ [Run run_id sync stamp None "running" 0 0 0 0 None])
  /\ trace w1 = trace w ++ [RunStarted sync run_id].
Proof.
  rewrite start_sync_run_eq. intros Heq. cases. simpl. eauto 10.
Qed.

Lemma mysql_query_frame (q : string) (last : option string) w out w2 :
  mysql_query q last w = (out, w2) ->
  db w2 = db w /\ trace w2 = trace w ++ [Queried q last]
  /\ out = (execute_query q last (env w)).1.
Proof. rewrite mysql_query_eq. intros Heq. cases. auto. Qed.

Lemma complete_sync_run_ok (run_id : Z) (final : string) (p c u s : Z)
    (message : option string) w w' :
  complete_sync_run run_id final p c u s message w = (Ok tt, w') ->
  record_mappings (db w') = record_mappings (db w)
  /\ sync_metadata (db w') = sync_metadata (db w)
  /\ (exists stamp, sync_runs (db w')
                    = completed run_id final stamp p c u s message (sync_runs (db w)))
  /\ trace w' = trace w ++ [RunCompleted run_id final].
Proof.
  rewrite complete_sync_run_eq. intros Heq. cases. simpl. eauto 10.
Qed.

Lemma finalize_ok config (run_id : Z) st w st' w' :
  finalize config run_id st w = (Ok st', w') ->
  st' = st
  /\ record_mappings (db w') = record_mappings (db w)
  /\ (exists stamp, sync_runs (db w')
                    = completed run_id "success" stamp (processed st) (created st)
                        (updated st) (skipped st) None (sync_runs (db w)))
  /\ (exists t, trace w' = trace w ++ [LastSyncUpdated (name config) t;
                                         RunCompleted run_id "success"]).
Proof.
  rewrite finalize_eq. intros Heq.
  destruct (utcnow (env w)) as [t e1].
  destruct (update_last_sync_time _ _ _) as [[[]|e] w1] eqn:Hup; [|discriminate].
  destruct (complete_sync_run _ _ _ _ _ _ _ _) as [[[]|e] w2] eqn:Hdone; [|discriminate].
  injection Heq as <- <-.
  apply complete_sync_run_ok in Hdone. destruct Hdone as (Hm & _ & [stamp Hr] & Ht).
  rewrite update_last_sync_time_eq in Hup. simpl in Hup.
  destruct (sqlite_write e1) as [[x|] e2]; [discriminate|].
  destruct (utcnow e2) as [stamp' e3]. injection Hup as <-. simpl in *.
  split; [reflexivity|]. split; [assumption|]. split; [eauto|].
  exists t. rewrite Ht, <- app_assoc. reflexivity.
Qed.

Lemma completed_status (run_id : Z) (final stamp : string) (p c u s : Z)
    (message : option string) (runs : list run) :
  (exists r, In r runs /\ id r = run_id) ->
  (exists r, In r (completed run_id final stamp p c u s message runs) /\ id r = run_id)
  /\ (forall r, In r (completed run_id final stamp p c u s message runs) ->
                id r = run_id -> status r = final).
Proof.
  intros (r0 & Hin & Hid). unfold completed. split.
  - eexists. split; [apply in_map, Hin|].
    simpl. rewrite Hid, Z.eqb_refl. reflexivity.
  - intros r Hr Hrid. apply in_map_iff in Hr. destruct Hr as (r1 & <- & _).
    destruct (Z.eqb_spec (id r1) run_id); [reflexivity | contradiction].
Qed.

(** A run that returns went through its phases. *)
Lemma sync_ok_inv config w st w' :
  sync config w = (Ok st, w') ->
  exists run_id w1 rows w2,
    start_sync_run (name config) w = (Ok run_id, w1)
    /\ mysql_query (query config)
         (last_sync_time <$> sync_metadata (db w1) !! name config) w1 = (Ok rows, w2)
    /\ st = tally no_stats (replay config rows w2).1
    /\ ((rows = [] /\ complete_sync_run run_id "success" 0 0 0 0 None w2 = (Ok tt, w'))
        \/ (rows <> [] /\ finalize config run_id st (replay config rows w2).2 = (Ok st, w'))).
Proof.
  rewrite sync_eq. intros Heq.
  destruct (start_sync_run (name config) w) as [[run_id|e] w1]; [|discriminate].
  destruct (mysql_query _ _ w1) as [[rows|e] w2] eqn:Hquery.
  2:{ destruct (mark_failed_raises run_id e w2) as (? & ? & Hf). congruence. }
  exists run_id, w1, rows, w2. split; [reflexivity|]. split; [exact Hquery|].
  destruct rows as [|record rest].
  - destruct (complete_sync_run _ _ _ _ _ _ _ w2) as [[[]|e] w3].
    + injection Heq as <- <-. split; [reflexivity | now left].
    + destruct (mark_failed_raises run_id e w3) as (? & ? & Hf). congruence.
  - destruct (finalize _ _ _ _) as [[st'|e] w4] eqn:Hfin.
    + injection Heq as <- <-.
      pose proof (finalize_ok _ _ _ _ _ _ Hfin) as [-> _]. split; [reflexivity|].
      right. split; [discriminate | exact Hfin].
    + destruct (mark_failed_raises run_id e w4) as (? & ? & Hf). congruence.
Qed.

(** C9.  The counters of a run that returns: [processed] is the sum of
    [created], [updated] and [skipped]; a record that raised is counted in
    [errors] and not in [processed], so that the two add up to the number of
    rows the source returned. *)
Theorem counter_consistency config w st w' :
  sync config w = (Ok st, w') ->
  processed st = (created st + updated st + skipped st)%Z
  /\ exists run_id w1 rows w2,
       start_sync_run (name config) w = (Ok run_id, w1)
       /\ mysql_query (query config)
            (last_sync_time <$> sync_metadata (db w1) !! name config) w1 = (Ok rows, w2)
       /\ processed st = successes (replay config rows w2).1
       /\ errors st = failures (replay config rows w2).1
       /\ (processed st + errors st)%Z = Z.of_nat (length rows).
Proof.
  intros Hsync.
  destruct (sync_ok_inv _ _ _ _ Hsync) as (run_id & w1 & rows & w2 & Hstart & Hquery & Hst & _).
  pose proof (sync_loop_replay config rows no_stats w2) as Hloop. rewrite <- Hst in Hloop.
  split.
  - apply (sync_loop_balanced _ _ _ _ _ _ Hloop). reflexivity.
  - exists run_id, w1, rows, w2. split; [assumption|]. split; [assumption|].
    destruct (tally_fields (replay config rows w2).1 no_stats) as [Hp He].
    rewrite <- Hst in Hp, He. simpl in Hp, He.
    pose proof (successes_failures (replay config rows w2).1) as Hsum.
    rewrite replay_length in Hsum. repeat split; lia.
Qed.

(** C7.  A record that raises, whatever raised in it, does not stop the
    batch.  The loop returns, with as many outcomes as there are rows; each
    raising record adds one to [errors] and nothing to [processed]; the
    records after it are reconciled from the world it left.  When the run
    then finishes its writes, it returns these counters and its row in
    [sync_runs] has the status success. *)
Theorem fault_isolation config (rows : list pydict) st w :
  let outcomes := (replay config rows w).1 in
  sync_loop config rows st w = (Ok (tally st outcomes), (replay config rows w).2)
  /\ length outcomes = length rows
  /\ errors (tally st outcomes) = (errors st + failures outcomes)%Z
  /\ processed (tally st outcomes) = (processed st + successes outcomes)%Z
  /\ (forall record rest e w1,
        rows = record :: rest ->
        _sync_record config record w = (Raise e, w1) ->
        sync_loop config rows st w = sync_loop config rest (count_error st) w1)
  /\ (forall w0 run_id w1 w',
        start_sync_run (name config) w0 = (Ok run_id, w1) ->
        mysql_query (query config)
          (last_sync_time <$> sync_metadata (db w1) !! name config) w1 = (Ok rows, w) ->
        rows <> [] ->
        finalize config run_id (tally no_stats outcomes) (replay config rows w).2
        = (Ok (tally no_stats outcomes), w') ->
        sync config w0 = (Ok (tally no_stats outcomes), w')
        /\ run_has_status run_id "success" w'
        /\ errors (tally no_stats outcomes) = failures outcomes).
Proof.
  cbv zeta. split; [apply sync_loop_replay|]. split; [apply replay_length|].
  destruct (tally_fields (replay config rows w).1 st) as [Hp He].
  split; [exact He|]. split; [exact Hp|]. split.
  - intros record rest e w1 -> Hstep. rewrite sync_loop_cons, Hstep. reflexivity.
  - intros w0 run_id w1 w' Hstart Hquery Hrows Hfin. split; [|split].
    + rewrite sync_eq, Hstart, Hquery.
      destruct rows as [|record rest]; [contradiction|]. now rewrite Hfin.
    + destruct (finalize_ok _ _ _ _ _ _ Hfin) as (_ & _ & [stamp Hruns] & _).
      unfold run_has_status. rewrite Hruns. apply completed_status.
      destruct (replay_frame config rows w) as (-> & _ & _).
      destruct (mysql_query_frame _ _ _ _ _ Hquery) as (-> & _ & _).
      destruct (start_sync_run_ok _ _ _ _ Hstart) as (_ & _ & [stamp0 ->] & _).
      eexists. split; [apply in_or_app; right; now left | reflexivity].
    + destruct (tally_fields (replay config rows w).1 no_stats) as [_ He0].
      simpl in He0. lia.
Qed.

(** C8, as the code has it.  When the source returns no row, the run that
    started and whose closing write commits returns counters that are all
    zero and is marked success; the last-sync boundary is not touched: the
    run wrote its start and its completion and nothing else. *)
Theorem empty_fetch config w (run_id : Z) w1 e2 e3 (stamp : string) e4 :
  let last := last_sync_time <$> sync_metadata (db w1) !! name config in
  start_sync_run (name config) w = (Ok run_id, w1) ->
  execute_query (query config) last (env w1) = (Ok [], e2) ->
  sqlite_write e2 = (None, e3) ->
  utcnow e3 = (stamp, e4) ->
  exists w',
    sync config w = (Ok (Stats 0 0 0 0 0), w')
    /\ run_has_status run_id "success" w'
    /\ sync_metadata (db w') = sync_metadata (db w)
    /\ trace w' = trace w ++ [RunStarted (name config) run_id;
                             Queried (query config) last;
                             RunCompleted run_id "success"].
Proof.
  cbv zeta. intros Hstart Hquery Hwrite Hnow.
  destruct (start_sync_run_ok _ _ _ _ Hstart) as (_ & Hmeta & [stamp0 Hruns] & Htrace).
  eexists. rewrite sync_eq, Hstart, mysql_query_eq, Hquery, complete_sync_run_eq. simpl.
  rewrite Hwrite, Hnow. split; [reflexivity|]. simpl. split; [|split].
  - unfold run_has_status. simpl. apply completed_status. rewrite Hruns.
    eexists. split; [apply in_or_app; right; now left | reflexivity].
  - exact Hmeta.
  - rewrite Htrace, <- !app_assoc. reflexivity.
Qed.

(** *** Two runs *)

Lemma stored_ext config w w' (source_record : pydict) :
  record_mappings (db w') = record_mappings (db w) ->
  stored config w source_record -> stored config w' source_record.
Proof. unfold stored. intros ->. auto. Qed.

(** A record keeps stored what was stored, when the rows agree on keys. *)
Lemma _sync_record_keeps config (record other : pydict) w out w' :
  _sync_record config record w = (out, w') ->
  (forall k h1 h2,
     source_key config other = Some k -> source_key config record = Some k ->
     fingerprint config other = Some h1 -> fingerprint config record = Some h2 ->
     h1 = h2) ->
  stored config w other -> stored config w' other.
Proof.
  intros Hstep Hagree (k & h & m & Hk & Hh & Hlook & Hm).
  destruct (_sync_record_mappings _ _ _ _ _ Hstep) as [[Hsame|Hnew] _].
  - exists k, h, m. now rewrite Hsame.
  - destruct Hnew as (k' & h' & m' & Hk' & Hh' & Hm' & Hins).
    destruct (String.eqb_spec k k') as [<-|Hne].
    + exists k, h, m'. rewrite Hins, lookup_insert_eq.
      assert (h = h') as -> by eauto. auto.
    + exists k, h, m. rewrite Hins, lookup_insert_ne by congruence. auto.
Qed.

(** After a batch in which no record raised, every row is stored. *)
Lemma replay_stores config (rows done : list pydict) w :
  keys_agree config (done ++ rows) ->
  failures (replay config rows w).1 = 0%Z ->
  Forall (stored config w) done ->
  Forall (stored config (replay config rows w).2) (done ++ rows).
Proof.
  revert done w. induction rows as [|record rest IH]; intros done w Hagree Hfail Hdone.
  - now rewrite app_nil_r.
  - simpl in Hfail |- *.
    destruct (_sync_record config record w) as [out w1] eqn:Hstep.
    destruct (replay config rest w1) as [os w2] eqn:Hrest.
    assert (os = (replay config rest w1).1 /\ w2 = (replay config rest w1).2) as [Hos Hw2]
      by now rewrite Hrest.
    simpl in Hfail |- *. unfold failures in Hfail. simpl in Hfail.
    destruct out as [result|e]; simpl in Hfail; [|lia].
    change (done ++ record :: rest) with (done ++ [record] ++ rest) in *.
    rewrite app_assoc in *. rewrite Hw2. apply IH.
    + exact Hagree.
    + unfold failures. rewrite <- Hos. exact Hfail.
    + apply Forall_app. split.
      * apply Forall_forall. intros other Hin.
        apply (_sync_record_keeps _ _ _ _ _ _ Hstep).
        -- intros k h1 h2 Hk1 Hk2 Hh1 Hh2.
           apply (Hagree other record k h1 h2); auto;
             apply list_elem_of_In; set_solver.
        -- rewrite Forall_forall in Hdone. auto.
      * apply Forall_singleton.
        now apply (proj2 (_sync_record_mappings _ _ _ _ _ Hstep)).
Qed.

(** A batch of stored rows is skipped throughout; the world is not touched. *)
Lemma sync_loop_stored config (rows : list pydict) st w :
  Forall (stored config w) rows ->
  sync_loop config rows st w = (Ok (all_skipped st (length rows)), w).
Proof.
  revert st. induction rows as [|record rest IH]; intros st Hall.
  - unfold all_skipped. simpl. rewrite !Z.add_0_r. now destruct st.
  - apply Forall_cons in Hall. destruct Hall as [Hone Hrest].
    rewrite sync_loop_cons, (_sync_record_stored _ _ _ Hone), (IH _ Hrest).
    unfold all_skipped. simpl length. rewrite Nat2Z.inj_succ. simpl.
    do 2 f_equal. f_equal; lia.
Qed.

Lemma reconciled_app (t1 t2 : list event) :
  reconciled (t1 ++ t2) = reconciled t1 ++ reconciled t2.
Proof. apply List.filter_app. Qed.

(** C1, as the code has it.  Let the source return the same rows whenever
    it is asked, rows that share a source key sharing a fingerprint (so it
    is when keys are unique).  After a run in which no record raised, a
    second run from the state the first one left skips every row: it issues
    no create call and no update call, writes no mapping, and counts each
    row as skipped. *)
Theorem second_run_skips_all config (rows : list pydict) w0 st1 w1 st2 w2 :
  (forall q last e, (execute_query q last e).1 = Ok rows) ->
  keys_agree config rows ->
  sync config w0 = (Ok st1, w1) ->
  errors st1 = 0%Z ->
  sync config w1 = (Ok st2, w2) ->
  st2 = Stats (Z.of_nat (length rows)) 0 0 (Z.of_nat (length rows)) 0
  /\ record_mappings (db w2) = record_mappings (db w1)
  /\ exists added, trace w2 = trace w1 ++ added /\ reconciled added = [].
Proof.
  intros Hsource Hagree Hrun1 Hclean Hrun2.
  assert (Forall (stored config w1) rows) as Hstored.
  { destruct (sync_ok_inv _ _ _ _ Hrun1)
      as (run_id & wa & rows1 & wb & Hstart & Hquery & Hst & Hend).
    destruct (mysql_query_frame _ _ _ _ _ Hquery) as (_ & _ & Hrows).
    rewrite Hsource in Hrows. injection Hrows as ->.
    destruct Hend as [[-> _]|[_ Hfin]]; [constructor|].
    destruct (finalize_ok _ _ _ _ _ _ Hfin) as (_ & Hmap & _).
    apply (Forall_impl (stored config (replay config rows wb).2)).
    2:{ intros r. now apply stored_ext. }
    apply (replay_stores config rows [] wb); [assumption | | constructor].
    destruct (tally_fields (replay config rows wb).1 no_stats) as [_ He].
    rewrite <- Hst in He. simpl in He. lia. }
  destruct (sync_ok_inv _ _ _ _ Hrun2)
    as (run_id & wa & rows2 & wb & Hstart & Hquery & Hst & Hend).
  destruct (mysql_query_frame _ _ _ _ _ Hquery) as (Hdb & Htrace & Hrows).
  rewrite Hsource in Hrows. injection Hrows as ->.
  destruct (start_sync_run_ok _ _ _ _ Hstart) as (Hmap & _ & _ & Htrace0).
  assert (Forall (stored config wb) rows) as Hstored'.
  { apply (Forall_impl (stored config w1)); [assumption|].
    intros r. apply stored_ext. now rewrite Hdb. }
  pose proof (sync_loop_stored config rows no_stats wb Hstored') as Hloop.
  rewrite sync_loop_replay in Hloop. injection Hloop as Htally Hworld.
  rewrite Htally in Hst. unfold all_skipped in Hst. simpl in Hst. subst st2.
  split; [reflexivity|].
  destruct Hend as [[_ Hdone]|[_ Hfin]].
  - destruct (complete_sync_run_ok _ _ _ _ _ _ _ _ _ Hdone) as (Hm & _ & _ & Ht).
    split; [now rewrite Hm, Hdb|].
    eexists. rewrite Ht, Htrace, Htrace0, <- !app_assoc. split; reflexivity.
  - rewrite Hworld in Hfin.
    destruct (finalize_ok _ _ _ _ _ _ Hfin) as (_ & Hm & _ & [t Ht]).
    split; [now rewrite Hm, Hdb|].
    eexists. rewrite Ht, Htrace, Htrace0, <- !app_assoc. split; reflexivity.
Qed.

End Engine.
End EngineFacts.

(** ** The claims on concrete runs *)

Module LabRuns.
Import Py Config State StateManager SyncEngine DictFacts EngineFacts.

Ltac crunch :=
  cbv zeta; repeat match goal with |- _ /\ _ => split end; vm_compute; reflexivity.

Lemma pair_of_fst {A B} (x : A * B) (a : A) : x.1 = a -> x = (a, x.2).
Proof. destruct x. simpl. now intros ->. Qed.

(** The scenario of the specification: a new row, an unchanged row and a
    changed row. *)
Example three_row_scenario :
  (Lab.run [Lab.person 3 "Cy" (VInt 7); Lab.person 1 "Ann" (VInt 30);
            Lab.person 2 "Bob" (VInt 42)]
     (Lab.run Lab.two_people (Lab.start Lab.fresh)).2).1
  = Ok (Stats 3 1 1 1 0).
Proof. vm_compute. reflexivity. Qed.

(** The fingerprint of a payload, as Python computes it. *)
Example fingerprint_of_ann :
  calculate_hash [("ext_id", VStr "1"); ("title", VStr "Ann"); ("s_age", VStr "30.0")]
  = "4a4840ea7482506180e1b0d69435491b0aed495f0a3f7e8dd7f58097b5a3e315".
Proof. vm_compute. reflexivity. Qed.

(** C1, as the specification has it, fails: two rows of one batch share the
    key 1 and differ in age.  The first run creates the record and updates
    it, no record raising; the second run over the same rows updates it
    twice more. *)
Lemma second_run_updates_shared_key :
  (Lab.run Lab.one_key_twice (Lab.start Lab.fresh)).1 = Ok (Stats 2 1 1 0 0)
  /\ (Lab.run Lab.one_key_twice (Lab.run Lab.one_key_twice (Lab.start Lab.fresh)).2).1
     = Ok (Stats 2 0 2 0 0).
Proof. crunch. Qed.

Lemma two_people_keys_agree : keys_agree (H:=Lab.runtime) Lab.people Lab.two_people.
Proof.
  intros r1 r2 k h1 h2 H1 H2 Hk1 Hk2 Hh1 Hh2.
  destruct H1 as [<-|[<-|[]]]; destruct H2 as [<-|[<-|[]]];
    vm_compute in Hk1, Hk2, Hh1, Hh2; congruence.
Qed.

Lemma second_run_skips_all_witness :
  let run1 := Lab.run Lab.two_people (Lab.start Lab.fresh) in
  let run2 := Lab.run Lab.two_people run1.2 in
  run1.1 = Ok (Stats 2 2 0 0 0) /\ run2.1 = Ok (Stats 2 0 0 2 0).
Proof.
  cbv zeta.
  assert ((Lab.run Lab.two_people (Lab.start Lab.fresh)).1 = Ok (Stats 2 2 0 0 0)) as H1
    by (vm_compute; reflexivity).
  assert ((Lab.run Lab.two_people (Lab.run Lab.two_people (Lab.start Lab.fresh)).2).1
          = Ok (Stats 2 0 0 2 0)) as H2 by (vm_compute; reflexivity).
  split; [exact H1|].
  pose proof (second_run_skips_all (H:=Lab.runtime)
                (H0:=Lab.environment Lab.two_people) Lab.people Lab.two_people
                (Lab.start Lab.fresh) (Stats 2 2 0 0 0)
                (Lab.run Lab.two_people (Lab.start Lab.fresh)).2 (Stats 2 0 0 2 0)
                (Lab.run Lab.two_people
                   (Lab.run Lab.two_people (Lab.start Lab.fresh)).2).2
                (fun _ _ _ => eq_refl) two_people_keys_agree
                (pair_of_fst _ _ H1) eq_refl (pair_of_fst _ _ H2)) as [Hst _].
  rewrite H2. f_equal.
Defined.

(** The three transitions of C2 on the first run and the next. *)
Example transitions_on_runs :
  let w1 := (Lab.run Lab.two_people (Lab.start Lab.fresh)).2 in
  let step := _sync_record (H:=Lab.runtime) (H0:=Lab.environment []) Lab.people in
  (step (Lab.person 1 "Ann" (VInt 30)) w1).1 = Ok "skipped"
  /\ trace (step (Lab.person 1 "Ann" (VInt 30)) w1).2 = trace w1
  /\ (step (Lab.person 2 "Bob" (VInt 42)) w1).1 = Ok "updated"
  /\ skipn (length (trace w1)) (trace (step (Lab.person 2 "Bob" (VInt 42)) w1).2)
     = [UpdateCall "tbl1" "rec1"
          [("ext_id", VStr "2"); ("title", VStr "Bob"); ("s_age", VStr "42.0")];
        MappingSaved "people" "2" "rec1"
          "a99a6a92525cfb5e80ecec06dadeb4ea31ff4b6344dc701f5c1d8ea7c8154aea"].
Proof. crunch. Qed.

Lemma reconciliation_transitions_witness :
  _sync_record (H:=Lab.runtime) (H0:=Lab.environment []) Lab.people
    (Lab.person 1 "Ann" (VInt 30)) (Lab.start Lab.fresh)
  = (Ok "created",
     World (Lab.LabEnv 1 1 None)
       (Store [] 1
          (<[("people", "1") :=
               Mapping "rec0"
                 "4a4840ea7482506180e1b0d69435491b0aed495f0a3f7e8dd7f58097b5a3e315"
                 "2024-01-01T00:00:00" "2024-01-01T00:00:00"]> ∅)
          ∅)
       [CreateCall "tbl1"
          [("ext_id", VStr "1"); ("title", VStr "Ann"); ("s_age", VStr "30.0")];
        MappingSaved "people" "1" "rec0"
          "4a4840ea7482506180e1b0d69435491b0aed495f0a3f7e8dd7f58097b5a3e315"]).
Proof.
  pose proof (reconciliation_transitions (H:=Lab.runtime) (H0:=Lab.environment [])
                Lab.people (Lab.person 1 "Ann" (VInt 30)) (Lab.start Lab.fresh) (VInt 1)
                [("ext_id", VStr "1"); ("title", VStr "Ann"); ("s_age", VStr "30.0")]
                eq_refl eq_refl) as T.
  cbv zeta in T.
  change (record_mappings (db (Lab.start Lab.fresh))) with (∅ : gmap (string * string) mapping)
    in T.
  rewrite lookup_empty in T.
  rewrite (T [("id", VStr "rec0")] (Lab.LabEnv 1 0 None) (VStr "rec0") "rec0"
             "2024-01-01T00:00:00" (Lab.LabEnv 1 1 None) (Lab.LabEnv 1 1 None)
             eq_refl eq_refl eq_refl eq_refl eq_refl).
  assert (calculate_hash [("ext_id", VStr "1"); ("title", VStr "Ann"); ("s_age", VStr "30.0")]
          = "4a4840ea7482506180e1b0d69435491b0aed495f0a3f7e8dd7f58097b5a3e315") as ->
    by (vm_compute; reflexivity).
  reflexivity.
Defined.

(** C7 on a batch of four rows, of which the second is refused by the
    remote table and the third does not convert. *)
Lemma fault_isolation_witness :
  let E := Lab.environment Lab.four_people in
  let w0 := Lab.start Lab.fresh in
  let a := start_sync_run (H:=E) (name Lab.people) w0 in
  let b := mysql_query (H0:=E) (query Lab.people)
               (last_sync_time <$> sync_metadata (db a.2) !! name Lab.people) a.2 in
  let r := replay (H:=Lab.runtime) (H0:=E) Lab.people Lab.four_people b.2 in
  let f := finalize (H0:=E) Lab.people 1 (tally no_stats r.1) r.2 in
  sync (H:=Lab.runtime) (H0:=E) Lab.people w0 = (Ok (tally no_stats r.1), f.2)
  /\ run_has_status 1 "success" f.2
  /\ errors (tally no_stats r.1) = failures r.1.
Proof.
  intros E w0 a b r f.
  assert (a.1 = Ok 1%Z) as Ha by (vm_compute; reflexivity).
  assert (b.1 = Ok Lab.four_people) as Hb by (vm_compute; reflexivity).
  assert (f.1 = Ok (tally no_stats r.1)) as Hf by (vm_compute; reflexivity).
  exact (proj2 (proj2 (proj2 (proj2 (proj2
           (fault_isolation (H:=Lab.runtime) (H0:=E) Lab.people Lab.four_people
              no_stats b.2))))) w0 1%Z a.2 f.2 (pair_of_fst a _ Ha) (pair_of_fst b _ Hb)
              ltac:(discriminate) (pair_of_fst f _ Hf)).
Defined.

Example four_people_run :
  let out := Lab.run Lab.four_people (Lab.start Lab.fresh) in
  out.1 = Ok (Stats 2 2 0 0 2)
  /\ map status (sync_runs (db out.2)) = ["success"]
  /\ (replay (H:=Lab.runtime) (H0:=Lab.environment Lab.four_people) Lab.people
        Lab.four_people (Lab.start Lab.fresh)).1
     = [Ok "created"; Raise (External "422 Unprocessable Entity"); Raise ValueError;
        Ok "created"].
Proof. crunch. Qed.

(** C8, as the specification has it, fails: after a run over two rows has
    set the boundary, a run that fetches nothing is marked success and
    leaves the boundary, and the time of the last successful run, where
    they were. *)
Lemma empty_run_leaves_boundary :
  let w1 := (Lab.run Lab.two_people (Lab.start Lab.fresh)).2 in
  let out := Lab.run [] w1 in
  out.1 = Ok (Stats 0 0 0 0 0)
  /\ map status (sync_runs (db out.2)) = ["success"; "success"]
  /\ map completed_at (sync_runs (db out.2))
     = [Some "2024-01-01T00:00:05"; Some "2024-01-01T00:00:07"]
  /\ sync_metadata (db w1) !! "people"
     = Some (Metadata "2024-01-01T00:00:03" "2024-01-01T00:00:04")
  /\ sync_metadata (db out.2) !! "people"
     = Some (Metadata "2024-01-01T00:00:03" "2024-01-01T00:00:04")
  /\ skipn (length (trace w1)) (trace out.2)
     = [RunStarted "people" 2;
        Queried "SELECT * FROM people" (Some "2024-01-01T00:00:03");
        RunCompleted 2 "success"].
Proof. crunch. Qed.

Lemma empty_fetch_witness :
  exists w',
    Lab.run [] (Lab.start Lab.fresh) = (Ok (Stats 0 0 0 0 0), w')
    /\ sync_metadata (db w') = ∅.
Proof.
  pose (E := Lab.environment []).
  pose (a := start_sync_run (H:=E) (name Lab.people) (Lab.start Lab.fresh)).
  assert (a.1 = Ok 1%Z) as Ha by (vm_compute; reflexivity).
  destruct (empty_fetch (H:=Lab.runtime) (H0:=E) Lab.people (Lab.start Lab.fresh) 1%Z a.2
              (Lab.LabEnv 0 1 None) (Lab.LabEnv 0 1 None) "2024-01-01T00:00:01"
              (Lab.LabEnv 0 2 None) (pair_of_fst a _ Ha) eq_refl eq_refl eq_refl)
    as (w' & Hsync & _ & Hmeta & _).
  exists w'. split; [exact Hsync | exact Hmeta].
Defined.

Lemma counter_consistency_witness :
  let st := Stats 2 2 0 0 2 in
  (Lab.run Lab.four_people (Lab.start Lab.fresh)).1 = Ok st
  /\ processed st = (created st + updated st + skipped st)%Z.
Proof.
  cbv zeta.
  assert ((Lab.run Lab.four_people (Lab.start Lab.fresh)).1 = Ok (Stats 2 2 0 0 2)) as Hrun
    by (vm_compute; reflexivity).
  split; [exact Hrun|].
  exact (proj1 (counter_consistency (H:=Lab.runtime)
                  (H0:=Lab.environment Lab.four_people) Lab.people
                  (Lab.start Lab.fresh) (Stats 2 2 0 0 2)
                  (Lab.run Lab.four_people (Lab.start Lab.fresh)).2
                  (pair_of_fst _ _ Hrun))).
Defined.

End LabRuns.

(** * Further properties of the code *)

(** ** The state store *)

Module StoreFacts.
Import Py State StateManager StateQueries EngineFacts.

Section Store.
Context `{Environment Env}.
Implicit Types (w : world Env).

Lemma get_record_mapping_eq (name source_id : string) w :
  get_record_mapping name source_id w = (Ok (record_mappings (db w) !! (name, source_id)), w).
Proof. reflexivity. Qed.


(** X2.  The boundary that was written is the boundary that is read, and
    the boundaries of the other syncs read as before; a write that raised
    changed none.  A sync that never wrote one has none. *)
Theorem update_then_get_last_sync_time (name sync_time : string) w :
  let '(out, w') := update_last_sync_time name sync_time w in
  match out with
  | Ok _ => get_last_sync_time name w' = (Ok (Some sync_time), w')
  | Raise _ => sync_metadata (db w') = sync_metadata (db w)
  end
  /\ (forall other, other <> name ->
        (get_last_sync_time other w').1 = (get_last_sync_time other w).1)
  /\ (sync_metadata (db w) !! name = None -> get_last_sync_time name w = (Ok None, w)).
Proof.
  rewrite update_last_sync_time_eq.
  destruct (sqlite_write (env w)) as [[x|] e1].
  { split; [reflexivity|]. split; [reflexivity|].
    intros Hnone. unfold get_last_sync_time. run_monad. now rewrite Hnone. }
  destruct (utcnow e1) as [stamp e2]. split; [|split].
  - unfold get_last_sync_time. run_monad. simpl. now rewrite lookup_insert_eq.
  - intros other Hne. unfold get_last_sync_time. run_monad. simpl.
    now rewrite lookup_insert_ne by congruence.
  - intros Hnone. unfold get_last_sync_time. run_monad. now rewrite Hnone.
Qed.

(** *** The constraints of the schema *)

Lemma run_exists_spec (name stamp : string) (runs : list run) :
  run_exists name stamp runs = true
  <-> In (name, stamp) (map (fun r => (sync_name r, started_at r)) runs).
Proof.
  unfold run_exists. rewrite existsb_exists, in_map_iff. split.
  - intros (r & Hin & Heq). apply andb_true_iff in Heq. destruct Heq as [H1 H2].
    apply String.eqb_eq in H1, H2. exists r. now subst.
  - intros (r & Heq & Hin). injection Heq as <- <-. exists r.
    now rewrite !String.eqb_refl.
Qed.

Lemma completed_keeps (run_id : Z) (final stamp : string) (p c u s : Z)
    (message : option string) (runs : list run) :
  map id (completed run_id final stamp p c u s message runs) = map id runs
  /\ map (fun r => (sync_name r, started_at r))
       (completed run_id final stamp p c u s message runs)
     = map (fun r => (sync_name r, started_at r)) runs.
Proof.
  unfold completed. rewrite !map_map. split; apply map_ext; intros r;
    destruct (id r =? run_id)%Z; reflexivity.
Qed.

Lemma well_formed_completed (run_id : Z) (final stamp : string) (p c u s : Z)
    (message : option string) (runs : list run) (next : Z) mappings metadata mappings'
    metadata' :
  well_formed (Store runs next mappings metadata) ->
  well_formed (Store (completed run_id final stamp p c u s message runs) next
                 mappings' metadata').
Proof.
  unfold well_formed. simpl. intros (Hlt & Hid & Hkey).
  destruct (completed_keeps run_id final stamp p c u s message runs) as [E1 E2].
  rewrite E1, E2. split; [|auto].
  apply Forall_forall. intros r Hr. apply list_elem_of_In, (in_map id) in Hr.
  rewrite E1 in Hr. apply in_map_iff in Hr. destruct Hr as (r0 & <- & Hr0).
  rewrite Forall_forall in Hlt. apply Hlt. now apply list_elem_of_In.
Qed.

Lemma well_formed_ext (s s' : store) :
  sync_runs s' = sync_runs s -> next_id s' = next_id s ->
  well_formed s -> well_formed s'.
Proof. unfold well_formed. intros -> ->. auto. Qed.

Lemma start_sync_run_wf (name : string) w :
  well_formed (db w) -> well_formed (db (start_sync_run name w).2).
Proof.
  intros Hwf. rewrite start_sync_run_eq.
  destruct (sqlite_write (env w)) as [[x|] e1]; [assumption|].
  destruct (utcnow e1) as [stamp e2].
  destruct (run_exists name stamp (sync_runs (db w))) eqn:Hdup; [assumption|].
  assert (~ In (name, stamp) (map (fun r => (sync_name r, started_at r)) (sync_runs (db w))))
    as Hfresh.
  { intros Hin. apply run_exists_spec in Hin. congruence. }
  destruct Hwf as (Hlt & Hid & Hkey).
  assert (~ In (next_id (db w)) (map id (sync_runs (db w)))) as Hnew.
  { intros Hin. apply in_map_iff in Hin. destruct Hin as (r & Hr & Hin).
    rewrite Forall_forall in Hlt. apply list_elem_of_In, Hlt in Hin. lia. }
  unfold well_formed. simpl. rewrite !map_app. simpl. split; [|split].
  - apply Forall_app. split.
    + eapply Forall_impl; [exact Hlt|]. simpl. intros r Hr. lia.
    + apply Forall_singleton. simpl. lia.
  - apply NoDup_app. split; [assumption|]. split; [|apply NoDup_singleton].
    intros a Ha Hin. apply list_elem_of_In in Ha, Hin. destruct Hin as [<-|[]]. auto.
  - apply NoDup_app. split; [assumption|]. split; [|apply NoDup_singleton].
    intros a Ha Hin. apply list_elem_of_In in Ha, Hin. destruct Hin as [<-|[]]. auto.
Qed.

Lemma complete_sync_run_wf (run_id : Z) (final : string) (p c u s : Z)
    (message : option string) w :
  well_formed (db w) ->
  well_formed (db (complete_sync_run run_id final p c u s message w).2).
Proof.
  intros Hwf. rewrite complete_sync_run_eq.
  destruct (sqlite_write (env w)) as [[x|] e1]; [assumption|].
  destruct (utcnow e1) as [stamp e2]. simpl.
  destruct (db w) as [runs next mappings metadata].
  now apply well_formed_completed with (mappings := mappings) (metadata := metadata).
Qed.

Lemma update_last_sync_time_wf (name sync_time : string) w :
  well_formed (db w) -> well_formed (db (update_last_sync_time name sync_time w).2).
Proof.
  intros Hwf. rewrite update_last_sync_time_eq.
  destruct (sqlite_write (env w)) as [[x|] e1]; [assumption|].
  destruct (utcnow e1) as [stamp e2]. exact Hwf.
Qed.

Lemma save_record_mapping_wf (name source_id : string) (v : pyval) (hash : string) w :
  well_formed (db w) -> well_formed (db (save_record_mapping name source_id v hash w).2).
Proof.
  intros Hwf. rewrite save_record_mapping_eq.
  destruct (utcnow (env w)) as [stamp e1]. destruct (sqlite_write e1) as [[x|] e2];
    [assumption|].
  destruct (text_column v); exact Hwf.
Qed.

(** X3.  In a table that satisfies the constraints of the schema, a run
    that starts is given the next id, which no run of the table has, and is
    appended as running with counters at zero and no end; no run of the sync
    had its start time; the mappings and the boundaries are not touched.  A
    start that raised, the state file refusing the write or the sync having
    a run with that start time already, left the database as it was. *)
Theorem start_sync_run_fresh (name : string) w :
  well_formed (db w) ->
  let '(out, w') := start_sync_run name w in
  match out with
  | Ok run_id =>
      run_id = next_id (db w)
      /\ ~ In run_id (map id (sync_runs (db w)))
      /\ (exists stamp,
            sync_runs (db w')
            = sync_runs (db w) ++ [Run run_id name stamp None "running" 0 0 0 0 None]
            /\ ~ In (name, stamp)
                   (map (fun r => (sync_name r, started_at r)) (sync_runs (db w))))
      /\ record_mappings (db w') = record_mappings (db w)
      /\ sync_metadata (db w') = sync_metadata (db w)
  | Raise _ => db w' = db w
  end.
Proof.
  intros Hwf. rewrite start_sync_run_eq.
  destruct (sqlite_write (env w)) as [[x|] e1]; [reflexivity|].
  destruct (utcnow e1) as [stamp e2].
  destruct (run_exists name stamp (sync_runs (db w))) eqn:Hdup; [reflexivity|].
  assert (~ In (name, stamp) (map (fun r => (sync_name r, started_at r)) (sync_runs (db w))))
    as Hfresh.
  { intros Hin. apply run_exists_spec in Hin. congruence. }
  destruct Hwf as (Hlt & Hid & Hkey).
  assert (~ In (next_id (db w)) (map id (sync_runs (db w)))) as Hnew.
  { intros Hin. apply in_map_iff in Hin. destruct Hin as (r & Hr & Hin).
    rewrite Forall_forall in Hlt. apply list_elem_of_In, Hlt in Hin. lia. }
  simpl. split; [reflexivity|]. split; [assumption|]. split; [eauto|]. auto.
Qed.


(** *** Run history *)

Lemma newer_trans : Transitive newer.
Proof. intros a b c Hab Hbc. unfold newer in *. now transitivity (started_at b). Qed.

Lemma newer_total : Total newer.
Proof.
  intros a b. unfold newer.
  destruct (total String.le (started_at a) (started_at b)); auto.
Qed.

#[local] Existing Instance newer_trans.
#[local] Existing Instance newer_total.





(** *** The fingerprint *)






End Store.
End StoreFacts.

(** ** The engine, whatever happens *)

Module EngineMore.
Import Py Config State StateManager SyncEngine StateQueries DictFacts EngineFacts StoreFacts.

Section Engine.
Context `{Runtime} `{Environment Env}.
Implicit Types (w : world Env) (config : SyncConfig) (st : stats).

Lemma _sync_record_wf config (record : pydict) w :
  well_formed (db w) -> well_formed (db (_sync_record config record w).2).
Proof.
  destruct (_sync_record config record w) as [out w'] eqn:Hstep.
  destruct (_sync_record_frame _ _ _ _ _ Hstep) as (Hruns & Hnext & _).
  now apply well_formed_ext.
Qed.

Lemma replay_wf config (rows : list pydict) w :
  well_formed (db w) -> well_formed (db (replay config rows w).2).
Proof.
  destruct (replay_frame config rows w) as (Hruns & Hnext & _).
  now apply well_formed_ext.
Qed.

Lemma mark_failed_wf (run_id : Z) (e : exn) w :
  well_formed (db w) -> well_formed (db (mark_failed run_id e w).2).
Proof.
  intros Hwf. unfold mark_failed. run_monad.
  pose proof (complete_sync_run_wf run_id "failed" 0 0 0 0 (Some (exn_str e)) w Hwf) as Hc.
  destruct (complete_sync_run _ _ _ _ _ _ _ w) as [[[]|e'] w1]; exact Hc.
Qed.

Lemma finalize_wf config (run_id : Z) st w :
  well_formed (db w) -> well_formed (db (finalize config run_id st w).2).
Proof.
  intros Hwf. rewrite finalize_eq. destruct (utcnow (env w)) as [t e1].
  pose proof (update_last_sync_time_wf (name config) t (World e1 (db w) (trace w)) Hwf) as Hu.
  destruct (update_last_sync_time _ _ _) as [[[]|e] w1]; [|exact Hu].
  pose proof (complete_sync_run_wf run_id "success" (processed st) (created st)
                (updated st) (skipped st) None w1 Hu) as Hc.
  destruct (complete_sync_run _ _ _ _ _ _ _ w1) as [[[]|e] w2]; exact Hc.
Qed.

Lemma sync_wf config w :
  well_formed (db w) -> well_formed (db (sync config w).2).
Proof.
  intros Hwf. rewrite sync_eq.
  pose proof (start_sync_run_wf (name config) w Hwf) as H1.
  destruct (start_sync_run (name config) w) as [[run_id|e] w1]; [|exact H1].
  simpl in H1.
  destruct (mysql_query _ _ w1) as [[rows|e] w2] eqn:Hquery;
    destruct (mysql_query_frame _ _ _ _ _ Hquery) as (Hdb & _ & _);
    rewrite <- Hdb in H1.
  2:{ now apply mark_failed_wf. }
  destruct rows as [|record rest].
  - pose proof (complete_sync_run_wf run_id "success" 0 0 0 0 None w2 H1) as Hc.
    destruct (complete_sync_run _ _ _ _ _ _ _ w2) as [[[]|e] w3]; [exact Hc|].
    now apply mark_failed_wf.
  - pose proof (finalize_wf config run_id
                  (tally no_stats (replay config (record :: rest) w2).1) _
                  (replay_wf config (record :: rest) w2 H1)) as Hf.
    destruct (finalize _ _ _ _) as [[st|e] w4]; [exact Hf|].
    now apply mark_failed_wf.
Qed.

(** X4.  The constraints of the schema are kept by everything the engine
    does: ids below the next id, no id twice, no sync with two runs of one
    start time.  They hold after each write of the state manager, after
    each record and after a whole run, whether it returned or raised. *)
Theorem schema_is_kept config w :
  well_formed (db w) ->
  well_formed (db (sync config w).2)
  /\ (forall name, well_formed (db (start_sync_run name w).2))
  /\ (forall run_id final p c u s message,
        well_formed (db (complete_sync_run run_id final p c u s message w).2))
  /\ (forall name sync_time, well_formed (db (update_last_sync_time name sync_time w).2))
  /\ (forall name source_id record_id hash,
        well_formed (db (save_record_mapping name source_id record_id hash w).2))
  /\ (forall record, well_formed (db (_sync_record config record w).2)).
Proof.
  intros Hwf. split; [now apply sync_wf|].
  split; [intros; now apply start_sync_run_wf|].
  split; [intros; now apply complete_sync_run_wf|].
  split; [intros; now apply update_last_sync_time_wf|].
  split; [intros; now apply save_record_mapping_wf|].
  intros; now apply _sync_record_wf.
Qed.

(** *** The row of a run *)

Lemma mark_failed_eq (run_id : Z) (e : exn) w :
  mark_failed run_id e w
  = match complete_sync_run run_id "failed" 0 0 0 0 (Some (exn_str e)) w with
    | (Ok _, w1) => (Raise e, w1)
    | (Raise x, w1) => (Raise x, w1)
    end.
Proof.
  unfold mark_failed. run_monad.
  destruct (complete_sync_run _ _ _ _ _ _ _ w) as [[[]|x] w1]; reflexivity.
Qed.

Lemma completed_last (run_id : Z) (final stamp : string) (p c u s : Z)
    (message : option string) (runs : list run) (r : run) :
  Forall (fun r0 => (id r0 < run_id)%Z) runs -> id r = run_id ->
  completed run_id final stamp p c u s message (runs ++ [r])
  = runs ++ [Run run_id (sync_name r) (started_at r) (Some stamp) final p c u s message].
Proof.
  intros Hlt Hid. unfold completed. rewrite map_app. simpl.
  rewrite Hid, Z.eqb_refl. f_equal.
  rewrite <- (map_id runs) at 2. apply map_ext_in. intros r0 Hr0.
  rewrite Forall_forall in Hlt. apply list_elem_of_In, Hlt in Hr0.
  destruct (Z.eqb_spec (id r0) run_id); [lia | reflexivity].
Qed.

(** Completing the run whose row is the last of the table and still
    running. *)
Lemma complete_own_row (final : string) (p c u s : Z) (message : option string)
    (name : string) (before : store) w (r : run) :
  Forall (fun r0 => (id r0 < next_id before)%Z) (sync_runs before) ->
  adds_row name before (db w) r ->
  let '(out, w') := complete_sync_run (next_id before) final p c u s message w in
  match out with
  | Ok _ => exists r', adds_row name before (db w') r'
                       /\ closed_as r' final p c u s message
  | Raise _ => db w' = db w
  end.
Proof.
  intros Hlt (Hruns & Hid & Hname). rewrite complete_sync_run_eq.
  destruct (sqlite_write (env w)) as [[x|] e1]; [reflexivity|].
  destruct (utcnow e1) as [stamp e2]. simpl.
  rewrite Hruns, (completed_last _ _ _ _ _ _ _ _ _ _ Hlt Hid).
  eexists. split.
  - split; [reflexivity|]. simpl. auto.
  - unfold closed_as. simpl. repeat split; eauto.
Qed.

(** The handler of [sync], when the row of the run is still running. *)
Lemma mark_failed_own_row (e : exn) (name : string) (before : store) w (r : run) :
  Forall (fun r0 => (id r0 < next_id before)%Z) (sync_runs before) ->
  adds_row name before (db w) r -> still_running r ->
  exists e' r',
    (mark_failed (next_id before) e w).1 = Raise e'
    /\ adds_row name before (db (mark_failed (next_id before) e w).2) r'
    /\ (closed_as r' "failed" 0 0 0 0 (Some (exn_str e')) \/ still_running r').
Proof.
  intros Hlt Hrow Hrun. rewrite mark_failed_eq.
  pose proof (complete_own_row "failed" 0 0 0 0 (Some (exn_str e)) name before w r Hlt Hrow)
    as Hc.
  destruct (complete_sync_run _ _ _ _ _ _ _ w) as [[[]|x] w1]; simpl.
  - destruct Hc as (r' & Hrow' & Hclosed). exists e, r'. auto.
  - exists x, r. rewrite Hc. auto.
Qed.

Lemma adds_row_ext (name : string) (before s s' : store) (r : run) :
  sync_runs s' = sync_runs s -> adds_row name before s r -> adds_row name before s' r.
Proof. unfold adds_row. intros ->. auto. Qed.

Lemma update_last_sync_time_runs (name sync_time : string) w :
  sync_runs (db (update_last_sync_time name sync_time w).2) = sync_runs (db w).
Proof.
  rewrite update_last_sync_time_eq.
  destruct (sqlite_write (env w)) as [[x|] e1]; [reflexivity|].
  destruct (utcnow e1) as [stamp e2]. reflexivity.
Qed.

(** What a run leaves in [sync_runs], whatever its outcome. *)
Lemma sync_row config w :
  well_formed (db w) ->
  (is_ok (sync config w).1 = false /\ db (sync config w).2 = db w
   /\ trace (sync config w).2 = trace w)
  \/ exists r,
       adds_row (name config) (db w) (db (sync config w).2) r
       /\ match (sync config w).1 with
          | Ok st => closed_as r "success" (processed st) (created st) (updated st)
                       (skipped st) None
          | Raise e => closed_as r "failed" 0 0 0 0 (Some (exn_str e)) \/ still_running r
          end.
Proof.
  intros (Hlt & _ & _). rewrite sync_eq, start_sync_run_eq.
  destruct (sqlite_write (env w)) as [[x|] e1]; [left; auto|].
  destruct (utcnow e1) as [stamp e2].
  destruct (run_exists _ _ _); [left; auto|]. right.
  set (r0 := Run (next_id (db w)) (name config) stamp None "running" 0 0 0 0 None).
  set (w1 := World e2 _ _).
  assert (adds_row (name config) (db w) (db w1) r0) as Hrow by (split; auto).
  assert (still_running r0) as Hrun by (unfold still_running; simpl; auto 10).
  destruct (mysql_query _ _ w1) as [[rows|e] w2] eqn:Hquery;
    destruct (mysql_query_frame _ _ _ _ _ Hquery) as (Hdb & _ & _);
    rewrite <- Hdb in Hrow.
  2:{ destruct (mark_failed_own_row e _ _ _ _ Hlt Hrow Hrun) as (e' & r' & Hout & Hrow' & Hst).
      exists r'. rewrite Hout. auto. }
  destruct rows as [|record rest].
  - pose proof (complete_own_row "success" 0 0 0 0 None _ _ _ _ Hlt Hrow) as Hc.
    destruct (complete_sync_run _ _ _ _ _ _ _ w2) as [[[]|e] w3].
    + destruct Hc as (r' & Hrow' & Hclosed). exists r'. auto.
    + apply (f_equal sync_runs) in Hc.
      apply (adds_row_ext _ _ _ _ _ Hc) in Hrow.
      destruct (mark_failed_own_row e _ _ _ _ Hlt Hrow Hrun) as (e' & r' & Hout & Hrow' & Hst).
      exists r'. rewrite Hout. auto.
  - set (rows := record :: rest) in *.
    destruct (replay_frame config rows w2) as (Hruns & _ & _).
    apply (adds_row_ext _ _ _ _ _ Hruns) in Hrow.
    rewrite finalize_eq. destruct (utcnow (env (replay config rows w2).2)) as [t e3].
    set (w3 := World e3 _ _).
    pose proof (update_last_sync_time_runs (name config) t w3) as Hup.
    apply (adds_row_ext _ _ _ _ _ Hup) in Hrow.
    destruct (update_last_sync_time _ _ w3) as [[[]|e] w4]; simpl in Hrow.
    2:{ destruct (mark_failed_own_row e _ _ _ _ Hlt Hrow Hrun)
          as (e' & r' & Hout & Hrow' & Hst).
        exists r'. rewrite Hout. auto. }
    pose proof (complete_own_row "success" (processed (tally no_stats (replay config rows w2).1))
                  (created (tally no_stats (replay config rows w2).1))
                  (updated (tally no_stats (replay config rows w2).1))
                  (skipped (tally no_stats (replay config rows w2).1)) None _ _ _ _ Hlt Hrow)
      as Hc.
    destruct (complete_sync_run _ _ _ _ _ _ _ w4) as [[[]|e] w5].
    + destruct Hc as (r' & Hrow' & Hclosed). exists r'. auto.
    + apply (f_equal sync_runs) in Hc.
      apply (adds_row_ext _ _ _ _ _ Hc) in Hrow.
      destruct (mark_failed_own_row e _ _ _ _ Hlt Hrow Hrun) as (e' & r' & Hout & Hrow' & Hst).
      exists r'. rewrite Hout. auto.
Qed.

(** *** What a run may write *)

Lemma within_same (name : string) (s s' : store) :
  record_mappings s' = record_mappings s -> sync_metadata s' = sync_metadata s ->
  within name s s'.
Proof. unfold within. intros -> ->. eauto 10. Qed.

Lemma within_trans (name : string) (s1 s2 s3 : store) :
  within name s1 s2 -> within name s2 s3 -> within name s1 s3.
Proof.
  intros (A1 & A2 & A3) (B1 & B2 & B3). split; [|split].
  - intros other Hne. now rewrite B1, A1.
  - intros other sid Hne. now rewrite B2, A2.
  - intros sid m Hm. destruct (A3 _ _ Hm) as (m1 & Hm1 & Hid1 & Hc1).
    destruct (B3 _ _ Hm1) as (m2 & Hm2 & Hid2 & Hc2).
    exists m2. split; [assumption|]. split; congruence.
Qed.

Lemma within_boundary (name : string) (s s' : store) (row : metadata) :
  record_mappings s' = record_mappings s ->
  sync_metadata s' = <[name := row]> (sync_metadata s) ->
  within name s s'.
Proof.
  unfold within. intros -> ->. split; [|eauto 10].
  intros other Hne. now rewrite lookup_insert_ne.
Qed.

Lemma within_mapping (name source_id : string) (s s' : store) (row : mapping) :
  sync_metadata s' = sync_metadata s ->
  record_mappings s' = <[(name, source_id) := row]> (record_mappings s) ->
  (forall old, record_mappings s !! (name, source_id) = Some old ->
               smartsuite_record_id row = smartsuite_record_id old
               /\ created_at row = created_at old) ->
  within name s s'.
Proof.
  unfold within. intros -> -> Hold. split; [auto|]. split.
  - intros other sid Hne. rewrite lookup_insert_ne by congruence. reflexivity.
  - intros sid m Hm. destruct (String.eqb_spec sid source_id) as [->|Hne].
    + exists row. rewrite lookup_insert_eq. destruct (Hold _ Hm). auto.
    + exists m. rewrite lookup_insert_ne by congruence. auto.
Qed.

Lemma _sync_record_within config (record : pydict) w :
  within (name config) (db w) (db (_sync_record config record w).2).
Proof.
  rewrite _sync_record_eq.
  destruct (subscript record (primary_key config)) as [key|]; [|now apply within_same].
  destruct (map_record config record) as [mapped|]; [|now apply within_same].
  cbv zeta.
  destruct (record_mappings (db w) !! (name config, py_str key)) as [existing|] eqn:Hlook.
  - destruct (String.eqb (data_hash existing) (calculate_hash mapped));
      [now apply within_same|].
    rewrite smartsuite_update_eq.
    destruct (update_record _ _ _ _) as [[reply|e] e1]; [|now apply within_same].
    rewrite save_record_mapping_eq. simpl.
    destruct (utcnow e1) as [stamp e2].
    destruct (sqlite_write e2) as [[x|] e3]; [now apply within_same|].
    rewrite Hlook. simpl.
    eapply within_mapping; [reflexivity | reflexivity |].
    intros old Hold. rewrite Hlook in Hold. injection Hold as <-. auto.
  - rewrite smartsuite_create_eq.
    destruct (create_record _ _ _) as [[reply|e] e1]; [|now apply within_same].
    destruct (subscript reply "id") as [ident|]; [|now apply within_same].
    rewrite save_record_mapping_eq. simpl.
    destruct (utcnow e1) as [stamp e2].
    destruct (sqlite_write e2) as [[x|] e3]; [now apply within_same|].
    destruct (text_column ident) as [rid|]; [|now apply within_same].
    rewrite Hlook. simpl.
    eapply within_mapping; [reflexivity | reflexivity |].
    intros old Hold. rewrite Hlook in Hold. discriminate.
Qed.

Lemma replay_within config (rows : list pydict) w :
  within (name config) (db w) (db (replay config rows w).2).
Proof.
  revert w. induction rows as [|record rest IH]; intros w; [now apply within_same|].
  simpl. pose proof (_sync_record_within config record w) as Hone.
  destruct (_sync_record config record w) as [o w1]. specialize (IH w1).
  destruct (replay config rest w1) as [os w2]. simpl in *.
  exact (within_trans _ _ _ _ Hone IH).
Qed.

Lemma start_sync_run_within (name : string) w :
  within name (db w) (db (start_sync_run name w).2).
Proof.
  rewrite start_sync_run_eq.
  destruct (sqlite_write (env w)) as [[x|] e1]; [now apply within_same|].
  destruct (utcnow e1) as [stamp e2].
  destruct (run_exists _ _ _); now apply within_same.
Qed.

Lemma complete_sync_run_within (name : string) (run_id : Z) (final : string) (p c u s : Z)
    (message : option string) w :
  within name (db w) (db (complete_sync_run run_id final p c u s message w).2).
Proof.
  rewrite complete_sync_run_eq.
  destruct (sqlite_write (env w)) as [[x|] e1]; [now apply within_same|].
  destruct (utcnow e1) as [stamp e2]. now apply within_same.
Qed.

Lemma mark_failed_within (name : string) (run_id : Z) (e : exn) w :
  within name (db w) (db (mark_failed run_id e w).2).
Proof.
  rewrite mark_failed_eq.
  pose proof (complete_sync_run_within name run_id "failed" 0 0 0 0 (Some (exn_str e)) w)
    as Hc.
  destruct (complete_sync_run _ _ _ _ _ _ _ w) as [[[]|x] w1]; exact Hc.
Qed.

Lemma update_last_sync_time_within (name sync_time : string) w :
  within name (db w) (db (update_last_sync_time name sync_time w).2).
Proof.
  rewrite update_last_sync_time_eq.
  destruct (sqlite_write (env w)) as [[x|] e1]; [now apply within_same|].
  destruct (utcnow e1) as [stamp e2]. now eapply within_boundary.
Qed.

Lemma finalize_within config (run_id : Z) st w :
  within (name config) (db w) (db (finalize config run_id st w).2).
Proof.
  rewrite finalize_eq. destruct (utcnow (env w)) as [t e1].
  pose proof (update_last_sync_time_within (name config) t (World e1 (db w) (trace w)))
    as Hu.
  destruct (update_last_sync_time _ _ _) as [[[]|e] w1]; [|exact Hu].
  pose proof (complete_sync_run_within (name config) run_id "success" (processed st)
                (created st) (updated st) (skipped st) None w1) as Hc.
  destruct (complete_sync_run _ _ _ _ _ _ _ w1) as [[[]|e] w2];
    exact (within_trans _ _ _ _ Hu Hc).
Qed.

Lemma sync_within config w :
  within (name config) (db w) (db (sync config w).2).
Proof.
  rewrite sync_eq.
  pose proof (start_sync_run_within (name config) w) as H1.
  destruct (start_sync_run (name config) w) as [[run_id|e] w1]; [|exact H1].
  simpl in H1.
  destruct (mysql_query _ _ w1) as [[rows|e] w2] eqn:Hquery;
    destruct (mysql_query_frame _ _ _ _ _ Hquery) as (Hdb & _ & _);
    rewrite <- Hdb in H1.
  2:{ exact (within_trans _ _ _ _ H1 (mark_failed_within _ _ _ _)). }
  destruct rows as [|record rest].
  - pose proof (complete_sync_run_within (name config) run_id "success" 0 0 0 0 None w2)
      as Hc.
    destruct (complete_sync_run _ _ _ _ _ _ _ w2) as [[[]|e] w3].
    + exact (within_trans _ _ _ _ H1 Hc).
    + exact (within_trans _ _ _ _ H1 (within_trans _ _ _ _ Hc (mark_failed_within _ _ _ _))).
  - pose proof (replay_within config (record :: rest) w2) as Hr.
    pose proof (finalize_within config run_id
                  (tally no_stats (replay config (record :: rest) w2).1)
                  (replay config (record :: rest) w2).2) as Hf.
    pose proof (within_trans _ _ _ _ H1 (within_trans _ _ _ _ Hr Hf)) as Hall.
    destruct (finalize _ _ _ _) as [[st|e] w4]; [exact Hall|].
    exact (within_trans _ _ _ _ Hall (mark_failed_within _ _ _ _)).
Qed.

Lemma of_sync_app (name : string) (runs more : list run) :
  of_sync name (runs ++ more) = of_sync name runs ++ of_sync name more.
Proof. apply List.filter_app. Qed.

(** X7.  In a database that satisfies the constraints of the schema, a
    run adds one row to [sync_runs], its own, under the next id, and leaves
    the rows it found as they were; or its start raised, and nothing was
    written or read.  The row agrees with the outcome: a run that returned
    left it as success with the counters it returned (errors have no
    column); a run that raised left it as failed, with the text of the
    exception raised and all counters at zero whatever was processed, or
    still running with no end time when the handler could not write.  The
    row of a run that raised is never success. *)
Theorem sync_leaves_one_row config w :
  well_formed (db w) ->
  let '(out, w') := sync config w in
  ((exists e, out = Raise e) /\ db w' = db w /\ trace w' = trace w)
  \/ exists r,
       sync_runs (db w') = sync_runs (db w) ++ [r]
       /\ id r = next_id (db w) /\ sync_name r = name config
       /\ ~ In (id r) (map id (sync_runs (db w)))
       /\ match out with
          | Ok st =>
              status r = "success" /\ is_Some (completed_at r)
              /\ records_processed r = processed st /\ records_created r = created st
              /\ records_updated r = updated st /\ records_skipped r = skipped st
              /\ error_message r = None
          | Raise e =>
              (status r = "failed" /\ is_Some (completed_at r)
               /\ error_message r = Some (exn_str e)
               /\ records_processed r = 0%Z /\ records_created r = 0%Z
               /\ records_updated r = 0%Z /\ records_skipped r = 0%Z)
              \/ (status r = "running" /\ completed_at r = None)
          end.
Proof.
  intros Hwf. pose proof (sync_row config w Hwf) as Hrow.
  destruct (sync config w) as [out w']. simpl in Hrow.
  destruct Hrow as [(Hout & Hdb & Htrace) | (r & (Hruns & Hid & Hname) & Hstate)].
  - left. destruct out as [st|e]; [discriminate|]. eauto.
  - right. exists r. split; [assumption|]. split; [assumption|]. split; [assumption|].
    split.
    + destruct Hwf as (Hlt & _ & _). rewrite Hid. intros Hin.
      apply in_map_iff in Hin. destruct Hin as (r0 & Hr0 & Hin).
      rewrite Forall_forall in Hlt. apply list_elem_of_In, Hlt in Hin. lia.
    + destruct out as [st|e].
      * destruct Hstate as (? & ? & ? & ? & ? & ? & ?). auto 10.
      * destruct Hstate as [(? & ? & ? & ? & ? & ? & ?) | (? & ? & _)]; [left|right]; auto 10.
Qed.

(** X8.  A run of one sync leaves the other syncs alone, whatever its
    outcome: their boundaries, their mappings and, in a database that
    satisfies the constraints of the schema, their runs read after it as
    they did before. *)
Theorem sync_touches_only_its_own config (other : string) w :
  other <> name config ->
  let w' := (sync config w).2 in
  (get_last_sync_time other w').1 = (get_last_sync_time other w).1
  /\ (forall source_id,
        (get_record_mapping other source_id w').1 = (get_record_mapping other source_id w).1)
  /\ (well_formed (db w) ->
      forall limit, (get_sync_statistics other limit w').1
                    = (get_sync_statistics other limit w).1).
Proof.
  intros Hne. cbv zeta. destruct (sync_within config w) as (Hmeta & Hmap & _).
  split; [|split].
  - unfold get_last_sync_time. run_monad. simpl. now rewrite Hmeta.
  - intros sid. rewrite !get_record_mapping_eq. simpl. now rewrite Hmap.
  - intros Hwf limit. unfold get_sync_statistics. run_monad. simpl.
    destruct (sync_row config w Hwf) as [(_ & -> & _) | (r & (Hruns & _ & Hname) & _)];
      [reflexivity|].
    rewrite Hruns, of_sync_app. simpl.
    destruct (String.eqb_spec (sync_name r) other) as [Heq|_]; [congruence|].
    now rewrite app_nil_r.
Qed.

(** X9.  A run never drops a mapping and never points a source row at
    another remote record: a mapping that was stored before a run is stored
    after it, whatever the outcome of the run, under the same remote id and
    the same creation time. *)
Theorem sync_keeps_identity config w (owner source_id : string) (m : mapping) :
  record_mappings (db w) !! (owner, source_id) = Some m ->
  exists m',
    get_record_mapping owner source_id (sync config w).2
    = (Ok (Some m'), (sync config w).2)
    /\ smartsuite_record_id m' = smartsuite_record_id m
    /\ created_at m' = created_at m
    /\ (owner <> name config -> m' = m).
Proof.
  intros Hm. rewrite get_record_mapping_eq.
  destruct (sync_within config w) as (_ & Hother & Hown).
  destruct (String.eqb_spec owner (name config)) as [->|Hne].
  - destruct (Hown _ _ Hm) as (m' & Hm' & Hid & Hc).
    exists m'. rewrite Hm'. split; [reflexivity|]. split; [assumption|]. split; [assumption|].
    intros Hneq. contradiction.
  - exists m. rewrite (Hother _ source_id Hne), Hm. auto.
Qed.

(** *** Calls, upserts and counters *)

Lemma kinds_app (t1 t2 : list event) :
  creates (t1 ++ t2) = creates t1 + creates t2
  /\ updates (t1 ++ t2) = updates t1 + updates t2
  /\ upserts (t1 ++ t2) = upserts t1 + upserts t2
  /\ queries (t1 ++ t2) = queries t1 + queries t2.
Proof.
  unfold creates, updates, upserts, queries.
  rewrite !List.filter_app, !length_app. auto.
Qed.

Lemma outcomes_of_cons (action : string) (o : result string) (os : list (result string)) :
  outcomes_of action (o :: os) = Nat.b2n (came_to action o) + outcomes_of action os.
Proof. unfold outcomes_of. simpl. destruct (came_to action o); reflexivity. Qed.

Lemma failures_cons (o : result string) (os : list (result string)) :
  failures (o :: os) = (Z.of_nat (Nat.b2n (negb (is_ok o))) + failures os)%Z.
Proof. unfold failures. simpl. destruct (is_ok o); simpl; lia. Qed.

Lemma tally_classes (outcomes : list (result string)) st :
  created (tally st outcomes) = (created st + Z.of_nat (outcomes_of "created" outcomes))%Z
  /\ updated (tally st outcomes) = (updated st + Z.of_nat (outcomes_of "updated" outcomes))%Z
  /\ skipped (tally st outcomes) = (skipped st + Z.of_nat (outcomes_of "skipped" outcomes))%Z.
Proof.
  revert st. induction outcomes as [|[taken|e] os IH]; intros st.
  - unfold outcomes_of. simpl. lia.
  - rewrite !outcomes_of_cons. unfold tally in *. simpl fold_left.
    destruct (IH (count st taken)) as (Hc & Hu & Hs). rewrite Hc, Hu, Hs.
    unfold count, came_to.
    destruct (String.eqb_spec taken "created") as [->|?]; simpl; [lia|].
    destruct (String.eqb_spec taken "updated") as [->|?]; simpl; [lia|].
    destruct (String.eqb_spec taken "skipped") as [->|?]; simpl; lia.
  - rewrite !outcomes_of_cons. unfold tally in *. simpl fold_left.
    destruct (IH (count_error st)) as (Hc & Hu & Hs). rewrite Hc, Hu, Hs. simpl. lia.
Qed.

(** Counts the events of a trace that is given. *)
Ltac one_call :=
  split; [reflexivity|];
  unfold creates, updates, upserts, queries; simpl; repeat split; lia.

(** One record: what it adds to the trace and to the mappings. *)
Lemma _sync_record_account config (record : pydict) w :
  let '(out, w') := _sync_record config record w in
  exists added,
    trace w' = trace w ++ added
    /\ reconciled added = added
    /\ queries added = 0
    /\ upserts added = Nat.b2n (came_to "created" out) + Nat.b2n (came_to "updated" out)
    /\ Nat.b2n (came_to "created" out) <= creates added
    /\ Nat.b2n (came_to "updated" out) <= updates added
    /\ creates added + updates added
       <= Nat.b2n (came_to "created" out) + Nat.b2n (came_to "updated" out)
          + Nat.b2n (negb (is_ok out))
    /\ size (record_mappings (db w'))
       = size (record_mappings (db w)) + Nat.b2n (came_to "created" out).
Proof.
  rewrite _sync_record_eq.
  assert (forall (o : result string),
            came_to "created" o = false -> came_to "updated" o = false ->
            exists added : list event,
              trace w = trace w ++ added /\ reconciled added = added /\ queries added = 0
              /\ upserts added = Nat.b2n (came_to "created" o) + Nat.b2n (came_to "updated" o)
              /\ Nat.b2n (came_to "created" o) <= creates added
              /\ Nat.b2n (came_to "updated" o) <= updates added
              /\ creates added + updates added
                 <= Nat.b2n (came_to "created" o) + Nat.b2n (came_to "updated" o)
                    + Nat.b2n (negb (is_ok o))
              /\ size (record_mappings (db w))
                 = size (record_mappings (db w)) + Nat.b2n (came_to "created" o)) as Hquiet.
  { intros o -> ->. exists []. rewrite app_nil_r. simpl.
    split; [reflexivity|]. split; [reflexivity|]. split; [reflexivity|].
    split; [reflexivity|]. split; [lia|]. split; [lia|]. split; [|lia].
    unfold creates, updates. simpl. lia. }
  destruct (subscript record (primary_key config)) as [key|]; [|now apply Hquiet].
  destruct (map_record config record) as [mapped|]; [|now apply Hquiet].
  cbv zeta.
  destruct (record_mappings (db w) !! (name config, py_str key)) as [existing|] eqn:Hlook.
  - destruct (String.eqb (data_hash existing) (calculate_hash mapped));
      [now apply Hquiet|].
    rewrite smartsuite_update_eq.
    destruct (update_record _ _ _ _) as [[reply|e] e1].
    2:{ eexists [_]. one_call. }
    rewrite save_record_mapping_eq. simpl.
    destruct (utcnow e1) as [stamp e2].
    destruct (sqlite_write e2) as [[x|] e3].
    { eexists [_]. one_call. }
    rewrite Hlook. simpl. eexists [_; _]. rewrite <- app_assoc.
    simpl. rewrite map_size_insert_Some by (rewrite Hlook; eauto). one_call.
  - rewrite smartsuite_create_eq.
    destruct (create_record _ _ _) as [[reply|e] e1].
    2:{ eexists [_]. one_call. }
    destruct (subscript reply "id") as [ident|].
    2:{ eexists [_]. one_call. }
    rewrite save_record_mapping_eq. simpl.
    destruct (utcnow e1) as [stamp e2].
    destruct (sqlite_write e2) as [[x|] e3].
    { eexists [_]. one_call. }
    destruct (text_column ident) as [rid|].
    2:{ eexists [_]. one_call. }
    rewrite Hlook. simpl. eexists [_; _]. rewrite <- app_assoc.
    simpl. rewrite map_size_insert_None by exact Hlook. one_call.
Qed.

(** The batch: the same, summed. *)
Lemma replay_account config (rows : list pydict) w :
  let '(outcomes, w') := replay config rows w in
  exists added,
    trace w' = trace w ++ added
    /\ reconciled added = added
    /\ queries added = 0
    /\ upserts added = outcomes_of "created" outcomes + outcomes_of "updated" outcomes
    /\ outcomes_of "created" outcomes <= creates added
    /\ outcomes_of "updated" outcomes <= updates added
    /\ (Z.of_nat (creates added + updates added)
        <= Z.of_nat (outcomes_of "created" outcomes + outcomes_of "updated" outcomes)
           + failures outcomes)%Z
    /\ size (record_mappings (db w'))
       = size (record_mappings (db w)) + outcomes_of "created" outcomes.
Proof.
  revert w. induction rows as [|record rest IH]; intros w.
  - exists []. simpl. rewrite app_nil_r. split; [reflexivity|].
    unfold outcomes_of, failures, creates, updates, upserts, queries. simpl.
    repeat split; lia.
  - simpl. pose proof (_sync_record_account config record w) as Hone.
    destruct (_sync_record config record w) as [o w1]. specialize (IH w1).
    destruct (replay config rest w1) as [os w2].
    destruct Hone as (a1 & Ht1 & Hr1 & Hq1 & Hu1 & Hc1 & Hd1 & Hle1 & Hs1).
    destruct IH as (a2 & Ht2 & Hr2 & Hq2 & Hu2 & Hc2 & Hd2 & Hle2 & Hs2).
    exists (a1 ++ a2).
    destruct (kinds_app a1 a2) as (Kc & Ku & Ks & Kq).
    rewrite Kc, Ku, Ks, Kq, reconciled_app, Hr1, Hr2, !outcomes_of_cons, failures_cons.
    rewrite Ht2, Ht1, <- app_assoc, Hs2, Hs1.
    repeat split; lia.
Qed.

(** X10.  The counters a run returns against what it did.  The mappings
    grew by exactly [created]; each record counted as created or updated
    had its mapping written once, and nothing else was; each had its call,
    and the calls that were not counted are at most one for each record that
    raised; a record that was skipped had none; the source was read once. *)
Theorem sync_accounting config w st w' :
  sync config w = (Ok st, w') ->
  exists added,
    trace w' = trace w ++ added
    /\ Z.of_nat (size (record_mappings (db w')))
       = (Z.of_nat (size (record_mappings (db w))) + created st)%Z
    /\ Z.of_nat (upserts added) = (created st + updated st)%Z
    /\ (created st <= Z.of_nat (creates added))%Z
    /\ (updated st <= Z.of_nat (updates added))%Z
    /\ (Z.of_nat (creates added + updates added) <= created st + updated st + errors st)%Z
    /\ queries added = 1.
Proof.
  intros Hsync.
  destruct (sync_ok_inv _ _ _ _ Hsync)
    as (run_id & w1 & rows & w2 & Hstart & Hquery & Hst & Hend).
  destruct (start_sync_run_ok _ _ _ _ Hstart) as (Hm1 & _ & _ & Ht1).
  destruct (mysql_query_frame _ _ _ _ _ Hquery) as (Hdb2 & Ht2 & _).
  pose proof (replay_account config rows w2) as Hacc.
  destruct (tally_classes (replay config rows w2).1 no_stats) as (Tc & Tu & _).
  destruct (tally_fields (replay config rows w2).1 no_stats) as (_ & Te).
  rewrite <- Hst in Tc, Tu, Te. simpl in Tc, Tu, Te.
  destruct Hend as [[-> Hdone] | [Hrows Hfin]].
  - destruct (complete_sync_run_ok _ _ _ _ _ _ _ _ _ Hdone) as (Hm3 & _ & _ & Ht3).
    eexists. rewrite Ht3, Ht2, Ht1, <- !app_assoc. split; [reflexivity|].
    rewrite Hm3, Hdb2, Hm1. subst st.
    unfold creates, updates, upserts, queries. simpl. repeat split; lia.
  - destruct (finalize_ok _ _ _ _ _ _ Hfin) as (_ & Hm3 & _ & [t Ht3]).
    destruct (replay config rows w2) as [os wr]. simpl in *.
    destruct Hacc as (added & Hta & _ & Hq & Hu & Hc & Hd & Hle & Hs).
    eexists. rewrite Ht3, Hta, Ht2, Ht1, <- !app_assoc. split; [reflexivity|].
    rewrite Hm3, Hs, Hdb2, Hm1.
    repeat match goal with
           | |- context [creates (?a ++ ?b)] =>
               destruct (kinds_app a b) as (-> & _ & _ & _)
           | |- context [updates (?a ++ ?b)] =>
               destruct (kinds_app a b) as (_ & -> & _ & _)
           | |- context [upserts (?a ++ ?b)] =>
               destruct (kinds_app a b) as (_ & _ & -> & _)
           | |- context [queries (?a ++ ?b)] =>
               destruct (kinds_app a b) as (_ & _ & _ & ->)
           end.
    generalize dependent (creates added). generalize dependent (updates added).
    generalize dependent (upserts added). generalize dependent (queries added).
    intros nq -> nu -> nd Hd nc Hc Hle.
    unfold creates, updates, upserts, queries. simpl. repeat split; lia.
Qed.

(** *** When something raises *)

Lemma start_sync_run_inv (owner : string) w (run_id : Z) w1 :
  start_sync_run owner w = (Ok run_id, w1) ->
  run_id = next_id (db w)
  /\ exists stamp,
       db w1 = Store (sync_runs (db w) ++ [Run run_id owner stamp None "running" 0 0 0 0 None])
                 (run_id + 1) (record_mappings (db w)) (sync_metadata (db w))
       /\ trace w1 = trace w ++ [RunStarted owner run_id].
Proof.
  rewrite start_sync_run_eq. intros Heq. cases. simpl. eauto.
Qed.

(** X11.  When the source query raises, no record is touched: no call is
    issued to the remote table, no mapping is written and the boundary
    stays where it was.  The run is then marked failed with the text of the
    exception, which is raised again; but when that write is refused too,
    the exception that reaches the caller is the one of the state file, not
    the one of the source, and the row of the run stays running. *)
Theorem source_failure config w (run_id : Z) w1 (e : exn) e2 :
  well_formed (db w) ->
  start_sync_run (name config) w = (Ok run_id, w1) ->
  execute_query (query config) (last_sync_time <$> sync_metadata (db w) !! name config)
    (env w1) = (Raise e, e2) ->
  let '(out, w') := sync config w in
  record_mappings (db w') = record_mappings (db w)
  /\ sync_metadata (db w') = sync_metadata (db w)
  /\ (exists added, trace w' = trace w ++ added /\ reconciled added = [])
  /\ exists r,
       sync_runs (db w') = sync_runs (db w) ++ [r] /\ id r = run_id
       /\ match (sqlite_write e2).1 with
          | None => out = Raise e /\ status r = "failed"
                    /\ error_message r = Some (exn_str e) /\ is_Some (completed_at r)
          | Some x => out = Raise x /\ status r = "running"
                      /\ error_message r = None /\ completed_at r = None
          end.
Proof.
  intros (Hlt & _ & _) Hstart Hquery.
  destruct (start_sync_run_inv _ _ _ _ Hstart) as (Hid & stamp0 & Hdb1 & Ht1).
  rewrite sync_eq, Hstart, mysql_query_eq, Hdb1. simpl. rewrite Hquery.
  rewrite mark_failed_eq, complete_sync_run_eq. simpl.
  destruct (sqlite_write e2) as [[x|] e3]; simpl.
  - rewrite ?Hdb1, Ht1, <- app_assoc. simpl.
    split; [reflexivity|]. split; [reflexivity|]. split; [eauto|].
    eexists. split; [reflexivity|]. simpl. auto.
  - destruct (utcnow e3) as [stamp e4]. simpl. rewrite ?Hdb1, Ht1, <- !app_assoc. simpl.
    split; [reflexivity|]. split; [reflexivity|]. split; [eauto|].
    rewrite completed_last; [|now rewrite Hid | reflexivity]. simpl.
    eexists. split; [reflexivity|]. simpl. eauto 10.
Qed.

(** X12.  The remote table is written before the state file, and nothing
    undoes it.  When a record with no mapping is created remotely and the
    state file then refuses the write, the record raises, the create call
    has been issued and no mapping is stored; so in any later state in which
    the key still has no mapping, the same record issues a create call
    again. *)
Theorem create_without_mapping config (record : pydict) w (key : pyval) (mapped reply : pydict)
    e1 (ident : pyval) (stamp : string) e2 (x : exn) e3 :
  subscript record (primary_key config) = Ok key ->
  map_record config record = Ok mapped ->
  record_mappings (db w) !! (name config, py_str key) = None ->
  create_record (table_id config) mapped (env w) = (Ok reply, e1) ->
  subscript reply "id" = Ok ident ->
  utcnow e1 = (stamp, e2) ->
  sqlite_write e2 = (Some x, e3) ->
  _sync_record config record w
  = (Raise x, World e3 (db w) (trace w ++ [CreateCall (table_id config) mapped]))
  /\ forall w2,
       record_mappings (db w2) !! (name config, py_str key) = None ->
       exists rest,
         trace (_sync_record config record w2).2
         = trace w2 ++ CreateCall (table_id config) mapped :: rest.
Proof.
  intros Hkey Hmap Hnone Hcreate Hid Hnow Hwrite. split.
  - rewrite _sync_record_eq, Hkey, Hmap. cbv zeta. rewrite Hnone.
    rewrite smartsuite_create_eq, Hcreate, Hid, save_record_mapping_eq. simpl.
    rewrite Hnow, Hwrite. reflexivity.
  - intros w2 Hnone2. rewrite _sync_record_eq, Hkey, Hmap. cbv zeta. rewrite Hnone2.
    rewrite smartsuite_create_eq.
    destruct (create_record _ _ (env w2)) as [[reply2|e] e1']; [|simpl; eauto].
    destruct (subscript reply2 "id") as [ident2|]; [|simpl; eauto].
    rewrite save_record_mapping_eq. simpl.
    destruct (utcnow e1') as [stamp2 e2']. destruct (sqlite_write e2') as [[x2|] e3'];
      [simpl; eauto|].
    destruct (text_column ident2); simpl; [|eauto].
    rewrite <- app_assoc. simpl. eauto.
Qed.

(** X13.  A record that cannot be keyed or mapped touches nothing.  When
    the row lacks the primary key column the record raises [KeyError] on
    that column, whatever the rest of the row; when a mapped field does not
    convert it raises what the conversion raised.  In both cases no call is
    issued and nothing is written, and the loop counts one error and goes
    on with the next row in the same world. *)
Theorem unkeyed_or_unmapped_record config (record : pydict) (rest : list pydict) st w :
  (dict_get (primary_key config) record = None ->
   _sync_record config record w = (Raise (KeyError (primary_key config)), w))
  /\ (forall e, dict_get (primary_key config) record <> None ->
                map_record config record = Raise e ->
                _sync_record config record w = (Raise e, w))
  /\ (dict_get (primary_key config) record = None
      \/ is_ok (map_record config record) = false ->
      sync_loop config (record :: rest) st w = sync_loop config rest (count_error st) w).
Proof.
  split; [|split].
  - intros Hnone. rewrite _sync_record_eq. unfold subscript. now rewrite Hnone.
  - intros e Hsome Hmap. rewrite _sync_record_eq. unfold subscript.
    destruct (dict_get (primary_key config) record); [|contradiction].
    now rewrite Hmap.
  - intros Hbad. rewrite sync_loop_cons, _sync_record_eq. unfold subscript.
    destruct (dict_get (primary_key config) record) as [key|]; [|reflexivity].
    destruct Hbad as [Hbad|Hbad]; [discriminate|].
    destruct (map_record config record); [discriminate | reflexivity].
Qed.

(** *** The boundary *)

(** X27.  Errors do not hold the boundary back.  A run that returns after
    fetching at least one row has moved the boundary of its sync to the time
    it read from the clock after the last record, whether the records were
    reconciled or raised, all of them included; the rows that raised are
    not recorded anywhere in the state. *)
Theorem boundary_moves_despite_errors config w st w' :
  sync config w = (Ok st, w') ->
  (0 < processed st + errors st)%Z ->
  exists run_id w1 rows w2,
    start_sync_run (name config) w = (Ok run_id, w1)
    /\ mysql_query (query config)
         (last_sync_time <$> sync_metadata (db w1) !! name config) w1 = (Ok rows, w2)
    /\ errors st = failures (replay config rows w2).1
    /\ get_last_sync_time (name config) w'
       = (Ok (Some (utcnow (env (replay config rows w2).2)).1), w')
    /\ (forall key m,
          record_mappings (db w') !! key = Some m ->
          record_mappings (db (replay config rows w2).2) !! key = Some m).
Proof.
  intros Hsync Hsome.
  destruct (sync_ok_inv _ _ _ _ Hsync)
    as (run_id & w1 & rows & w2 & Hstart & Hquery & Hst & Hend).
  exists run_id, w1, rows, w2. split; [exact Hstart|]. split; [exact Hquery|].
  destruct (tally_fields (replay config rows w2).1 no_stats) as (Tp & Te).
  rewrite <- Hst in Tp, Te. simpl in Tp, Te. split; [exact Te|].
  destruct Hend as [[-> _] | [Hrows Hfin]].
  { exfalso. subst st. simpl in Hsome. lia. }
  rewrite finalize_eq in Hfin.
  destruct (utcnow (env (replay config rows w2).2)) as [t e1]. simpl.
  rewrite update_last_sync_time_eq in Hfin. simpl in Hfin.
  destruct (sqlite_write e1) as [[x|] e2]; [discriminate|].
  destruct (utcnow e2) as [stamp e3].
  rewrite complete_sync_run_eq in Hfin. simpl in Hfin.
  destruct (sqlite_write e3) as [[x|] e4]; [discriminate|].
  destruct (utcnow e4) as [stamp2 e5]. injection Hfin as <-.
  split.
  - unfold get_last_sync_time. run_monad. simpl. now rewrite lookup_insert_eq.
  - intros key m Hm. exact Hm.
Qed.

(** X28.  A run can fail after it has moved the boundary.  When the
    boundary is written and the write that closes the run is refused, the
    run raises; the boundary stays moved and the mappings stay written, so
    the next run starts from the new boundary, while the row of the run
    says failed, or running, and counts nothing. *)
Theorem failure_after_boundary config w (run_id : Z) w1 (rows : list pydict) w2
    (t : string) e1 e2 (stamp : string) e3 (x : exn) e4 :
  well_formed (db w) ->
  start_sync_run (name config) w = (Ok run_id, w1) ->
  mysql_query (query config)
    (last_sync_time <$> sync_metadata (db w1) !! name config) w1 = (Ok rows, w2) ->
  rows <> [] ->
  utcnow (env (replay config rows w2).2) = (t, e1) ->
  sqlite_write e1 = (None, e2) ->
  utcnow e2 = (stamp, e3) ->
  sqlite_write e3 = (Some x, e4) ->
  let '(out, w') := sync config w in
  (exists e, out = Raise e)
  /\ get_last_sync_time (name config) w' = (Ok (Some t), w')
  /\ record_mappings (db w') = record_mappings (db (replay config rows w2).2)
  /\ exists r,
       sync_runs (db w') = sync_runs (db w) ++ [r] /\ id r = run_id
       /\ (status r = "failed" \/ status r = "running")
       /\ records_processed r = 0%Z /\ records_created r = 0%Z
       /\ records_updated r = 0%Z /\ records_skipped r = 0%Z.
Proof.
  intros (Hlt & _ & _) Hstart Hquery Hrows Hnow Hwrite Hnow2 Hwrite2.
  destruct (start_sync_run_inv _ _ _ _ Hstart) as (Hid & stamp0 & Hdb1 & Ht1).
  destruct (mysql_query_frame _ _ _ _ _ Hquery) as (Hdb2 & _ & _).
  destruct (replay_frame config rows w2) as (Hruns & Hnext & Hmeta).
  rewrite sync_eq, Hstart, Hquery.
  destruct rows as [|record rest]; [contradiction|]. cbv beta iota.
  remember (record :: rest) as rows eqn:Hcons. clear Hcons Hrows.
  rewrite finalize_eq, Hnow, update_last_sync_time_eq. simpl.
  rewrite Hwrite, Hnow2, complete_sync_run_eq. simpl. rewrite Hwrite2.
  rewrite mark_failed_eq, complete_sync_run_eq. simpl.
  rewrite Hruns, Hdb2, Hdb1. simpl.
  destruct (sqlite_write e4) as [[x2|] e5]; simpl.
  - split; [eauto|]. split.
    { unfold get_last_sync_time. run_monad. simpl. now rewrite lookup_insert_eq. }
    split; [reflexivity|]. eexists. split; [reflexivity|]. simpl. auto 10.
  - destruct (utcnow e5) as [stamp2 e6]. simpl. split; [eauto|]. split.
    { unfold get_last_sync_time. run_monad. simpl. now rewrite lookup_insert_eq. }
    split; [reflexivity|].
    rewrite completed_last; [|now rewrite Hid | reflexivity].
    eexists. split; [reflexivity|]. simpl. auto 10.
Qed.

End Engine.
End EngineMore.

(** ** Running the configured syncs *)

Module MainFacts.
Import Py Config State StateManager SyncEngine StateQueries Main EngineFacts StoreFacts
  EngineMore.

Section Runs.
Context `{Runtime} `{Environment Env}.
Implicit Types (w : world Env) (config : SyncConfig).

Lemma run_syncs_run_each (sync_name : option string) (syncs : list SyncConfig)
    (flag : bool) w :
  run_syncs sync_name syncs flag w
  = (flag && forallb is_ok (run_each (List.filter (selected sync_name) syncs) w).1,
     (run_each (List.filter (selected sync_name) syncs) w).2).
Proof.
  revert flag w. induction syncs as [|config rest IH]; intros flag w; simpl.
  - now rewrite andb_true_r.
  - destruct (selected sync_name config); [|apply IH]. simpl.
    destruct (sync config w) as [[st|e] w1]; rewrite IH;
      destruct (run_each _ w1) as [outs w2]; simpl; [reflexivity|].
    now rewrite andb_false_r.
Qed.

Lemma run_each_length (syncs : list SyncConfig) w :
  length (run_each syncs w).1 = length syncs.
Proof.
  revert w. induction syncs as [|config rest IH]; intros w; [reflexivity|].
  simpl. destruct (sync config w) as [out w1]. specialize (IH w1).
  destruct (run_each rest w1). simpl in *. now rewrite IH.
Qed.

(** X14.  The exit code of [run_once].  With no enabled sync it is 1 and
    nothing is run.  Otherwise every enabled sync the option selects is run,
    in the order of the file, each from the world the one before left,
    whether that one returned or raised; the code is 0 when all of them
    returned and 1 when one raised. *)
Theorem run_once_exit_code (all_syncs : list SyncConfig) (sync_name : option string) w :
  let chosen := List.filter (selected sync_name) (get_enabled_syncs all_syncs) in
  let outcomes := (run_each chosen w).1 in
  (get_enabled_syncs all_syncs = [] -> run_once all_syncs sync_name w = (1%Z, w))
  /\ (get_enabled_syncs all_syncs <> [] ->
      run_once all_syncs sync_name w
      = ((if forallb is_ok outcomes then 0 else 1)%Z, (run_each chosen w).2))
  /\ length outcomes = length chosen
  /\ (forall config rest, chosen = config :: rest ->
        run_each chosen w
        = ((sync config w).1 :: (run_each rest (sync config w).2).1,
           (run_each rest (sync config w).2).2)).
Proof.
  cbv zeta. unfold run_once. split; [|split; [|split]].
  - intros ->. reflexivity.
  - intros Hsome. destruct (get_enabled_syncs all_syncs) as [|config rest] eqn:Hen;
      [contradiction|].
    rewrite run_syncs_run_each. reflexivity.
  - apply run_each_length.
  - intros config rest ->. simpl. destruct (sync config w) as [out w1]. simpl.
    destruct (run_each rest w1). reflexivity.
Qed.

Lemma run_each_nil_filter (sync_name : option string) (syncs : list SyncConfig) :
  Forall (fun config => selected sync_name config = false) syncs ->
  List.filter (selected sync_name) syncs = [].
Proof.
  induction 1 as [|config rest Hone _ IH]; [reflexivity|]. simpl. now rewrite Hone.
Qed.

(** X15.  A name that no enabled sync carries is not reported.  When the
    option names a sync and no enabled sync has that name, be it misspelt
    or disabled, [run_once] runs nothing, leaves the world as it was, and
    still exits with 0 as long as some sync is enabled. *)
Theorem run_once_unknown_name (all_syncs : list SyncConfig) (wanted : string) w :
  wanted <> "" ->
  Forall (fun config => enabled config = true -> name config <> wanted) all_syncs ->
  run_once all_syncs (Some wanted) w
  = ((if forallb (fun config => negb (enabled config)) all_syncs then 1 else 0)%Z, w).
Proof.
  intros Hwanted Hnone. unfold run_once.
  assert (List.filter (selected (Some wanted)) (get_enabled_syncs all_syncs) = []) as Hsel.
  { apply run_each_nil_filter. apply Forall_forall. intros config Hin.
    apply list_elem_of_In in Hin. unfold get_enabled_syncs in Hin.
    apply filter_In in Hin. destruct Hin as [Hin Hen].
    rewrite Forall_forall in Hnone. apply list_elem_of_In in Hin.
    specialize (Hnone _ Hin Hen). simpl.
    destruct (String.eqb_spec wanted "") as [?|_]; [contradiction|].
    now apply String.eqb_neq. }
  assert (forallb (fun config => negb (enabled config)) all_syncs
          = match get_enabled_syncs all_syncs with [] => true | _ => false end) as Hall.
  { unfold get_enabled_syncs. clear. induction all_syncs as [|config rest IH]; [reflexivity|].
    simpl. destruct (enabled config); simpl; [reflexivity | exact IH]. }
  rewrite Hall. destruct (get_enabled_syncs all_syncs) as [|config rest] eqn:Hen;
    [reflexivity|].
  rewrite run_syncs_run_each, Hsel. reflexivity.
Qed.

Lemma run_each_within (owner : string) (syncs : list SyncConfig) w :
  Forall (fun config => name config = owner) syncs ->
  within owner (db w) (db (run_each syncs w).2).
Proof.
  intros Hall. revert w. induction Hall as [|config rest Hone _ IH]; intros w.
  - now apply within_same.
  - simpl. pose proof (sync_within config w) as Hw. rewrite Hone in Hw.
    destruct (sync config w) as [out w1]. specialize (IH w1).
    destruct (run_each rest w1) as [outs w2]. simpl in *.
    exact (within_trans _ _ _ _ Hw IH).
Qed.

(** X16.  [run_once] with the name of a sync writes the state of that
    sync only: the boundary and the mappings of every other sync read after
    it as they did before, and the mappings of the named sync are still
    there, under the remote ids and creation times they had. *)
Theorem run_once_named_footprint (all_syncs : list SyncConfig) (wanted other : string) w :
  wanted <> "" -> other <> wanted ->
  let w' := (run_once all_syncs (Some wanted) w).2 in
  (get_last_sync_time other w').1 = (get_last_sync_time other w).1
  /\ (forall source_id,
        (get_record_mapping other source_id w').1 = (get_record_mapping other source_id w).1)
  /\ (forall source_id m,
        record_mappings (db w) !! (wanted, source_id) = Some m ->
        exists m',
          record_mappings (db w') !! (wanted, source_id) = Some m'
          /\ smartsuite_record_id m' = smartsuite_record_id m
          /\ created_at m' = created_at m).
Proof.
  intros Hwanted Hne. cbv zeta.
  assert (within wanted (db w) (db (run_once all_syncs (Some wanted) w).2)) as Hw.
  { unfold run_once. destruct (get_enabled_syncs all_syncs) as [|config rest];
      [now apply within_same|].
    rewrite run_syncs_run_each.
    remember (List.filter (selected (Some wanted)) (config :: rest)) as chosen eqn:Hchosen.
    simpl. apply run_each_within. subst chosen.
    apply Forall_forall. intros c Hc. apply list_elem_of_In, filter_In in Hc.
    destruct Hc as [_ Hsel]. simpl in Hsel.
    destruct (String.eqb_spec wanted "") as [?|_]; [contradiction|].
    now apply String.eqb_eq. }
  destruct Hw as (Hmeta & Hmap & Hown). split; [|split].
  - unfold get_last_sync_time. run_monad. simpl. now rewrite Hmeta.
  - intros sid. rewrite !get_record_mapping_eq. simpl. now rewrite Hmap.
  - exact Hown.
Qed.

End Runs.
End MainFacts.

(** ** The converters *)

Module ConverterMore.
Import Py Converter Config Shapes DictFacts ConverterFacts ConfigFacts.

Section Shapes.
Context `{Runtime}.









End Shapes.
End ConverterMore.

(** ** Mapping a row *)

Module MappingFacts.
Import Py Converter Config State StateManager SyncEngine Shapes DictFacts ConfigFacts
  EngineFacts.

Section Mapping.
Context `{Runtime} `{Environment Env}.
Implicit Types (w : world Env) (self config : SyncConfig).

Lemma map_fields_mapped_only self (items : list (string * string))
    (r1 r2 mapped : pydict) :
  (forall src, In src (map fst items) -> dict_get src r1 = dict_get src r2) ->
  map_fields self items r1 mapped = map_fields self items r2 mapped.
Proof.
  revert mapped. induction items as [|[s d] items IH]; intros mapped Hext; [reflexivity|].
  simpl. rewrite <- (Hext s) by now left.
  assert (forall src, In src (map fst items) -> dict_get src r1 = dict_get src r2) as Hrest
    by (intros src Hin; apply Hext; now right).
  destruct (dict_get s r1) as [v|]; [|now apply IH].
  destruct (transform_value self s v); simpl; [now apply IH | reflexivity].
Qed.

(** X19.  What the payload holds under a destination field.  It is the
    conversion of the last entry of the field mappings that writes the field
    from a column the row has: when two columns are mapped to one field the
    later entry wins, and a column the row lacks writes nothing.  A field
    that no such entry writes is absent from the payload. *)
Theorem map_record_last_wins self (source_record payload : pydict) (dst : string) :
  map_record self source_record = Ok payload ->
  match last_source (field_mappings self) source_record dst with
  | Some (src, value) =>
      exists r, transform_value self src value = Ok r /\ dict_get dst payload = Some r
  | None => dict_get dst payload = None
  end.
Proof.
  intros Hmap. exact (map_fields_last self _ _ _ _ dst Hmap).
Qed.

(** X20.  Only the mapped columns and the key count.  Two rows that agree
    on the columns the field mappings read have the same payload and the
    same fingerprint; so when one of them is stored and the other has its
    key, the other is skipped and nothing is called or written, whatever
    else it holds. *)
Theorem unmapped_columns_do_not_matter config (r1 r2 : pydict) w :
  (forall src, In src (map fst (field_mappings config)) ->
               dict_get src r1 = dict_get src r2) ->
  map_record config r1 = map_record config r2
  /\ fingerprint config r1 = fingerprint config r2
  /\ (dict_get (primary_key config) r1 = dict_get (primary_key config) r2 ->
      stored config w r1 ->
      _sync_record config r2 w = (Ok "skipped", w)).
Proof.
  intros Hext.
  assert (map_record config r1 = map_record config r2) as Hmap
    by now apply map_fields_mapped_only.
  assert (fingerprint config r1 = fingerprint config r2) as Hprint
    by (unfold fingerprint; now rewrite Hmap).
  split; [assumption|]. split; [assumption|].
  intros Hkey (k & h & m & Hk & Hh & Hlook & Hm).
  apply _sync_record_stored. exists k, h, m.
  unfold source_key, subscript in *. rewrite <- Hkey, <- Hprint. auto.
Qed.

End Mapping.
End MappingFacts.

(** ** The query sent to MySQL *)

Module MySQLFacts.
Import Py Config MySQL.

Lemma append_cons (x : ascii) (a b : string) : String x a +:+ b = String x (a +:+ b).
Proof. reflexivity. Qed.

Lemma append_nil (b : string) : "" +:+ b = b.
Proof. reflexivity. Qed.

Lemma append_assoc (a b c : string) : (a +:+ b) +:+ c = a +:+ (b +:+ c).
Proof.
  induction a as [|x a IH]; [reflexivity|]. rewrite !append_cons. now rewrite IH.
Qed.

Lemma scan_cons (inside : bool) (c : ascii) (rest : string) :
  scan inside (String c rest)
  = if inside && is_word c then String c (scan true rest)
    else closing inside
         +:+ (if Ascii.eqb c ":" && starts_word rest
              then "%(" +:+ scan true rest
              else String c (scan false rest)).
Proof. reflexivity. Qed.

Lemma scan_name (name post : string) :
  all_word name = true -> starts_word post = false ->
  scan true (name +:+ post) = name +:+ ")s" +:+ scan false post.
Proof.
  intros Hname Hpost. induction name as [|c name IH].
  - rewrite !append_nil. destruct post as [|c rest]; [reflexivity|].
    simpl in Hpost. rewrite !scan_cons, Hpost. reflexivity.
  - simpl in Hname. apply andb_true_iff in Hname. destruct Hname as [Hc Hname].
    rewrite !append_cons, scan_cons, Hc, (IH Hname). reflexivity.
Qed.

Lemma starts_word_app (p q : string) :
  starts_word q = false -> starts_word (p +:+ q) = starts_word p.
Proof. intros Hq. destruct p; [exact Hq | reflexivity]. Qed.

Lemma scan_parameter (inside : bool) (pre name post : string) :
  all_word name = true -> name <> "" -> starts_word post = false ->
  scan inside (pre +:+ ":" +:+ name +:+ post)
  = scan inside pre +:+ "%(" +:+ name +:+ ")s" +:+ scan false post.
Proof.
  intros Hname Hsome Hpost. revert inside. induction pre as [|c pre IH]; intros inside.
  - rewrite append_nil, append_cons, append_nil, scan_cons, andb_false_r.
    assert (starts_word (name +:+ post) = true) as ->.
    { destruct name as [|c name]; [contradiction|]. simpl in Hname.
      apply andb_true_iff in Hname. destruct Hname as [Hc _]. exact Hc. }
    rewrite (scan_name _ _ Hname Hpost). destruct inside; reflexivity.
  - rewrite append_cons, !scan_cons.
    rewrite (starts_word_app pre (":" +:+ name +:+ post)) by reflexivity.
    rewrite !IH.
    destruct (inside && is_word c); [reflexivity|].
    rewrite append_assoc.
    destruct (Ascii.eqb c ":" && starts_word pre); reflexivity.
Qed.

Lemma no_parameter_id (s : string) : no_parameter s = true -> scan false s = s.
Proof.
  induction s as [|c s IH]; [reflexivity|]. simpl no_parameter. intros Hclean.
  apply andb_true_iff in Hclean. destruct Hclean as [Hc Hs].
  apply negb_true_iff in Hc. rewrite scan_cons, Hc, (IH Hs). reflexivity.
Qed.

Lemma no_colon_no_parameter (s : string) :
  contains_char ":" s = false -> no_parameter s = true.
Proof.
  induction s as [|c s IH]; [reflexivity|].
  change (contains_char ":" (String c s))
    with (Ascii.eqb ":" c || contains_char ":" s).
  change (no_parameter (String c s))
    with (negb (Ascii.eqb c ":" && starts_word s) && no_parameter s).
  intros Hnone. apply orb_false_iff in Hnone. destruct Hnone as [Hc Hrest].
  rewrite Ascii.eqb_sym in Hc. rewrite Hc. now apply IH.
Qed.

Lemma starts_word_scan (s : string) :
  starts_word s = false -> starts_word (scan false s) = false.
Proof.
  destruct s as [|c s]; [reflexivity|]. rewrite scan_cons. simpl. intros Hc.
  destruct (Ascii.eqb c ":" && starts_word s); [reflexivity | exact Hc].
Qed.

Lemma is_word_colon (c : ascii) : is_word c = true -> Ascii.eqb c ":" = false.
Proof.
  intros Hw. destruct (Ascii.eqb_spec c ":") as [->|]; [discriminate | reflexivity].
Qed.

Lemma scan_no_parameter (inside : bool) (s : string) :
  no_parameter (scan inside s) = true.
Proof.
  revert inside. induction s as [|c s IH]; intros inside.
  - destruct inside; reflexivity.
  - rewrite scan_cons. destruct (inside && is_word c) eqn:Hin.
    + apply andb_true_iff in Hin. destruct Hin as [_ Hw].
      simpl. rewrite (is_word_colon _ Hw), IH. reflexivity.
    + assert (no_parameter (if Ascii.eqb c ":" && starts_word s
                            then "%(" +:+ scan true s
                            else String c (scan false s)) = true) as Hrest.
      { destruct (Ascii.eqb c ":" && starts_word s) eqn:Hopen.
        - rewrite !append_cons, append_nil. simpl. apply IH.
        - simpl. rewrite IH, andb_true_r. apply negb_true_iff.
          apply andb_false_iff in Hopen. destruct Hopen as [Hc|Hs]; [now rewrite Hc|].
          rewrite (starts_word_scan _ Hs). apply andb_false_r. }
      destruct inside; [|exact Hrest].
      unfold closing. rewrite !append_cons, append_nil. simpl. exact Hrest.
Qed.

(** X21.  Every parameter of the query is rewritten, wherever it stands.
    On ASCII text, a colon followed by a name of word characters, the name
    ending where the text ends or a character that is not a word character
    follows, becomes [%(name)s], and what stands before and after is
    rewritten as it is alone; so a colon and digits inside a quoted literal,
    as in a time of day, are rewritten like a parameter.  A text without a
    colon is left as it is. *)
Theorem format_query_rewrites_every_parameter (pre name post : string) :
  ascii_text (pre +:+ ":" +:+ name +:+ post) = true ->
  all_word name = true -> name <> "" -> starts_word post = false ->
  _format_query (pre +:+ ":" +:+ name +:+ post)
  = _format_query pre +:+ "%(" +:+ name +:+ ")s" +:+ _format_query post
  /\ (contains_char ":" pre = false -> _format_query pre = pre).
Proof.
  intros _ Hname Hsome Hpost. split.
  - now apply scan_parameter.
  - intros Hnone. now apply no_parameter_id, no_colon_no_parameter.
Qed.

(** X22.  What [_format_query] returns holds no parameter any more: on
    ASCII text, no colon of the result is followed by a word character, and
    formatting the result again changes nothing. *)
Theorem format_query_idempotent (query : string) :
  ascii_text query = true ->
  no_parameter (_format_query query) = true
  /\ _format_query (_format_query query) = _format_query query.
Proof.
  intros _. split; [apply scan_no_parameter|].
  apply no_parameter_id, scan_no_parameter.
Qed.

End MySQLFacts.

(** ** Loading the configuration *)

Module LoaderFacts.
Import Py Loader.

Lemma load_each_Forall2 (items : list pyval) (syncs : list entry) :
  load_each items = Loaded syncs
  <-> Forall2 (fun item sync => __init__ item = Loaded sync) items syncs.
Proof.
  revert syncs. induction items as [|item rest IH]; intros syncs; simpl.
  - split.
    + intros Heq. injection Heq as <-. constructor.
    + intros Hall. apply Forall2_nil_inv_l in Hall. now subst.
  - split.
    + intros Heq. destruct (__init__ item) as [sync|] eqn:Hone; [|discriminate].
      simpl in Heq.
      destruct (load_each rest) as [loaded|] eqn:Hrest; [|discriminate].
      injection Heq as <-. constructor; [exact Hone|]. now apply IH.
    + intros Hall. apply Forall2_cons_inv_l in Hall.
      destruct Hall as (sync & loaded & Hone & Hrest & ->).
      rewrite Hone. simpl. apply IH in Hrest. now rewrite Hrest.
Qed.

Lemma load_each_first_failure (good : list pyval) (bad : pyval) (rest : list pyval)
    (e : load_error) :
  Forall (fun item => exists sync, __init__ item = Loaded sync) good ->
  __init__ bad = Failed e ->
  load_each (good ++ bad :: rest) = Failed e.
Proof.
  intros Hgood Hbad. induction Hgood as [|item good [sync Hone] _ IH]; simpl.
  - now rewrite Hbad.
  - now rewrite Hone, IH.
Qed.

(** X23.  Loading is all or nothing.  For a document whose [syncs] is a
    list, [load] returns one configuration for each entry, in order, when
    the constructor accepts them all; when it rejects one, [load] raises
    what the constructor raised on the first such entry, and so do
    [get_enabled_syncs] and [validate_config]: an entry that cannot be
    built stops every sync from being loaded, whether or not it is enabled.
    A document without [syncs] loads as no sync at all. *)
Theorem load_all_or_nothing (d : pydict) (items : list pyval) :
  dict_get "syncs" d = Some (VList items) ->
  (forall syncs,
     load (VDict d) = Loaded syncs
     <-> Forall2 (fun item sync => __init__ item = Loaded sync) items syncs)
  /\ (forall good bad rest e,
        items = good ++ bad :: rest ->
        Forall (fun item => exists sync, __init__ item = Loaded sync) good ->
        __init__ bad = Failed e ->
        load (VDict d) = Failed e
        /\ get_enabled_syncs (VDict d) = Failed e
        /\ validate_config (VDict d) = Failed e)
  /\ (forall d', dict_get "syncs" d' = None -> load (VDict d') = Loaded []).
Proof.
  intros Hsyncs.
  assert (load (VDict d) = load_each items) as Hload.
  { unfold load, get, get_or. simpl. now rewrite Hsyncs. }
  split; [|split].
  - intros syncs. rewrite Hload. apply load_each_Forall2.
  - intros good bad rest e -> Hgood Hbad.
    unfold get_enabled_syncs, validate_config.
    rewrite Hload, (load_each_first_failure _ _ _ _ Hgood Hbad). auto.
  - intros d' Hnone. unfold load, get, get_or. simpl. now rewrite Hnone.
Qed.

(** X24.  What the constructor of [SyncConfig] requires and what it fills
    in.  It accepts an entry exactly when the entry is a dict with [name],
    a dict [source] with [query] and [primary_key], and a dict
    [destination] with [table_id], [field_mappings] and
    [external_id_field]; it checks neither the types nor the truth of the
    values.  An entry it accepts is enabled unless it says otherwise, has
    the empty description, no [updated_at_field] and empty [field_types]
    and [transformations] where it gives none.  An entry it rejects raises
    [KeyError] on a required key or [TypeError]. *)
Theorem constructor_requires (config_dict : pyval) :
  match __init__ config_dict with
  | Loaded sync =>
      has_required_keys config_dict = true
      /\ exists d source destination,
           config_dict = VDict d
           /\ dict_get "source" d = Some (VDict source)
           /\ dict_get "destination" d = Some (VDict destination)
           /\ dict_get "name" d = Some (raw_name sync)
           /\ dict_get "query" source = Some (raw_query sync)
           /\ dict_get "primary_key" source = Some (raw_primary_key sync)
           /\ dict_get "table_id" destination = Some (raw_table_id sync)
           /\ dict_get "field_mappings" destination = Some (raw_field_mappings sync)
           /\ dict_get "external_id_field" destination = Some (raw_external_id_field sync)
           /\ raw_enabled sync = get_or "enabled" (VBool true) d
           /\ raw_description sync = get_or "description" (VStr "") d
           /\ raw_updated_at_field sync = get_or "updated_at_field" VNone source
           /\ raw_field_types sync = get_or "field_types" (VDict []) destination
           /\ raw_transformations sync = get_or "transformations" (VDict []) destination
  | Failed e =>
      has_required_keys config_dict = false
      /\ (e = Raised TypeError
          \/ exists key, e = Raised (KeyError key)
                         /\ In key ["name"; "source"; "query"; "primary_key"; "destination";
                                    "table_id"; "field_mappings"; "external_id_field"])
  end.
Proof.
  unfold __init__, has_required_keys, dict_mem.
  destruct config_dict as [| | | | | | | | | |d]; simpl; auto.
  destruct (dict_get "name" d) as [name|] eqn:Hname; simpl; [|eauto 12].
  destruct (dict_get "source" d) as [source|] eqn:Hsource; simpl; [|eauto 12].
  destruct source as [| | | | | | | | | |src]; simpl; auto.
  destruct (dict_get "query" src) as [query|] eqn:Hquery; simpl; [|eauto 12].
  destruct (dict_get "primary_key" src) as [pk|] eqn:Hpk; simpl; [|eauto 12].
  destruct (dict_get "destination" d) as [destination|] eqn:Hdst; simpl; [|eauto 12].
  destruct destination as [| | | | | | | | | |dst]; simpl; auto.
  destruct (dict_get "table_id" dst) as [table|] eqn:Htable; simpl; [|eauto 14].
  destruct (dict_get "field_mappings" dst) as [fm|] eqn:Hfm; simpl; [|eauto 14].
  destruct (dict_get "external_id_field" dst) as [ext|] eqn:Hext; simpl; [|eauto 16].
  split; [reflexivity|]. exists d, src, dst. repeat split; auto.
Qed.

Lemma assert_all_Loaded (checks : list (pyval * string)) :
  assert_all checks = Loaded tt <-> Forall (fun check => truthy (fst check) = true) checks.
Proof.
  induction checks as [|[value message] rest IH].
  - split; [constructor | reflexivity].
  - change (assert_all ((value, message) :: rest))
      with (if truthy value then assert_all rest
            else Failed (AssertionError message)).
    destruct (truthy value) eqn:Ht.
    + split.
      * intros Hrest. constructor; [exact Ht | now apply IH].
      * intros Hall%Forall_cons_1. now apply IH.
    + split; [discriminate|]. intros Hall%Forall_cons_1. simpl in Hall.
      destruct Hall. congruence.
Qed.

Lemma validate_each_Loaded (syncs : list entry) :
  validate_each syncs = Loaded tt
  <-> Forall (fun sync => Forall (fun check => truthy (fst check) = true)
                            (assertions sync)) syncs.
Proof.
  induction syncs as [|sync rest IH].
  - split; [constructor | reflexivity].
  - change (validate_each (sync :: rest))
      with (and_then (assert_all (assertions sync)) (fun _ => validate_each rest)).
    destruct (assert_all (assertions sync)) as [[]|e] eqn:Hone; unfold and_then.
    + apply assert_all_Loaded in Hone. split.
      * intros Hrest. constructor; [exact Hone | now apply IH].
      * intros Hall%Forall_cons_1. now apply IH.
    + split; [discriminate|]. intros Hall%Forall_cons_1. destruct Hall as [Hall _].
      apply assert_all_Loaded in Hall. congruence.
Qed.

Lemma assert_all_Failed (checks : list (pyval * string)) (e : load_error) :
  assert_all checks = Failed e ->
  exists message value,
    e = AssertionError message /\ In (value, message) checks /\ truthy value = false.
Proof.
  induction checks as [|[value message] rest IH]; [discriminate|].
  change (assert_all ((value, message) :: rest))
    with (if truthy value then assert_all rest else Failed (AssertionError message)).
  destruct (truthy value) eqn:Ht.
  - intros Hrest. destruct (IH Hrest) as (m & v & ? & ? & ?).
    exists m, v. split; [assumption|]. split; [now right | assumption].
  - intros Heq. injection Heq as <-. exists message, value.
    split; [reflexivity|]. split; [now left | assumption].
Qed.

Lemma validate_each_Failed (syncs : list entry) (e : load_error) :
  validate_each syncs = Failed e ->
  exists sync message value,
    In sync syncs /\ e = AssertionError message
    /\ In (value, message) (assertions sync) /\ truthy value = false.
Proof.
  induction syncs as [|sync rest IH]; [discriminate|].
  change (validate_each (sync :: rest))
    with (and_then (assert_all (assertions sync)) (fun _ => validate_each rest)).
  destruct (assert_all (assertions sync)) as [[]|e0] eqn:Hone; unfold and_then.
  - intros Hrest. destruct (IH Hrest) as (s & m & v & ? & ? & ? & ?).
    exists s, m, v. split; [now right|]. auto.
  - intros Heq. injection Heq as <-.
    destruct (assert_all_Failed _ _ Hone) as (m & v & ? & ? & ?).
    exists sync, m, v. split; [now left|]. auto.
Qed.

(** X25.  What validation checks.  [validate_config] returns, and then
    returns True, exactly when the document loads and, in every sync it
    lists, enabled or not, the name, the query, the primary key, the table
    id, the field mappings and the external id field are all true in Python:
    none is null, empty, zero or False.  Otherwise it raises what loading
    raised, or [AssertionError] with the message of an assertion of a listed
    sync whose value is false in Python. *)
Theorem validate_config_checks (config_data : pyval) :
  (forall answer,
     validate_config config_data = Loaded answer
     <-> answer = true
         /\ exists syncs,
              load config_data = Loaded syncs
              /\ Forall (fun sync =>
                           truthy (raw_name sync) = true
                           /\ truthy (raw_query sync) = true
                           /\ truthy (raw_primary_key sync) = true
                           /\ truthy (raw_table_id sync) = true
                           /\ truthy (raw_field_mappings sync) = true
                           /\ truthy (raw_external_id_field sync) = true) syncs)
  /\ (forall e,
        validate_config config_data = Failed e ->
        load config_data = Failed e
        \/ exists syncs sync message,
             load config_data = Loaded syncs /\ In sync syncs
             /\ e = AssertionError message
             /\ exists value, In (value, message) (assertions sync)
                              /\ truthy value = false).
Proof.
  unfold validate_config. split.
  - intros answer. destruct (load config_data) as [syncs|e]; simpl.
    2:{ split; [discriminate|]. intros (_ & syncs & Habs & _). discriminate. }
    destruct (validate_each syncs) as [[]|e] eqn:Hval; simpl.
    + apply validate_each_Loaded in Hval. split.
      * intros Heq. injection Heq as <-. split; [reflexivity|]. exists syncs.
        split; [reflexivity|]. eapply Forall_impl; [exact Hval|]. simpl.
        intros sync Hsync. unfold assertions in Hsync.
        repeat (apply Forall_cons_1 in Hsync; destruct Hsync as [? Hsync]). auto 10.
      * intros (-> & _). reflexivity.
    + split; [discriminate|]. intros (_ & loaded & Heq & Hall). injection Heq as <-.
      assert (validate_each syncs = Loaded tt) as Hok; [|congruence].
      apply validate_each_Loaded. eapply Forall_impl; [exact Hall|]. simpl.
      intros sync (? & ? & ? & ? & ? & ?). unfold assertions.
      repeat constructor; assumption.
  - intros e. destruct (load config_data) as [syncs|e0]; simpl.
    2:{ intros Heq. injection Heq as <-. now left. }
    destruct (validate_each syncs) as [[]|e1] eqn:Hval; simpl; [discriminate|].
    intros Heq. injection Heq as <-. right.
    destruct (validate_each_Failed _ _ Hval)
      as (sync & message & value & Hin & He & Hcheck & Hfalse).
    exists syncs, sync, message. split; [reflexivity|]. split; [exact Hin|].
    split; [exact He|]. exists value. split; assumption.
Qed.

End LoaderFacts.

(** ** The further properties on concrete runs *)

Module MoreRuns.
Import Py Config State StateManager SyncEngine StateQueries Main Shapes MySQL Loader.
Import EngineFacts StoreFacts EngineMore MainFacts MappingFacts MySQLFacts LoaderFacts LabRuns.

#[local] Existing Instance Lab.runtime.

Lemma empty_store_wf : well_formed empty_store.
Proof. split; [constructor|]. split; constructor. Qed.

(** What the state file keeps of an identifier, on the edges of the 64-bit
    range and on the values that cannot be bound or stored. *)
Example text_column_binding :
  map (text_column (H:=Lab.environment []))
    [VStr "rec1"; VInt 7; VInt (-7); VInt (2 ^ 63 - 1); VInt (2 ^ 63);
     VInt (- 2 ^ 63); VInt (- 2 ^ 63 - 1); VBool true; VNone; VList []]
  = [Ok "rec1"; Ok "7"; Ok "-7"; Ok "9223372036854775807"; Raise OverflowError;
     Ok "-9223372036854775808"; Raise OverflowError; Ok "1"; Raise IntegrityError;
     Raise (External "Error binding parameter")].
Proof. vm_compute. reflexivity. Qed.

Section AfterTwoPeople.
#[local] Existing Instance Scenes.two.

(** X3 on the database a first run left: the second run of the sync is
    given the id 2. *)
Lemma start_sync_run_fresh_witness :
  let w1 := (sync Lab.people (Lab.start Lab.fresh)).2 in
  let '(out, w') := start_sync_run "people" w1 in
  match out with
  | Ok run_id =>
      run_id = next_id (db w1)
      /\ ~ In run_id (map id (sync_runs (db w1)))
      /\ (exists stamp,
            sync_runs (db w')
            = sync_runs (db w1) ++ [Run run_id "people" stamp None "running" 0 0 0 0 None]
            /\ ~ In ("people", stamp)
                   (map (fun r => (sync_name r, started_at r)) (sync_runs (db w1))))
      /\ record_mappings (db w') = record_mappings (db w1)
      /\ sync_metadata (db w') = sync_metadata (db w1)
  | Raise _ => db w' = db w1
  end.
Proof.
  intros w1.
  pose proof (start_sync_run_fresh "people" w1
                (sync_wf Lab.people (Lab.start Lab.fresh) empty_store_wf)) as T.
  exact T.
Defined.

(** X4 on the empty database. *)
Lemma schema_is_kept_witness :
  well_formed (db (Lab.start Lab.fresh))
  /\ well_formed (db (sync Lab.people (Lab.start Lab.fresh)).2).
Proof.
  exact (conj empty_store_wf
           (proj1 (schema_is_kept Lab.people (Lab.start Lab.fresh) empty_store_wf))).
Defined.

(** X8: a run of the sync people leaves the boundary of a sync orders as
    it was. *)
Lemma sync_touches_only_its_own_witness :
  (get_last_sync_time "orders" (sync Lab.people (Lab.start Lab.fresh)).2).1
  = (get_last_sync_time "orders" (Lab.start Lab.fresh)).1.
Proof.
  exact (proj1 (sync_touches_only_its_own Lab.people "orders" (Lab.start Lab.fresh)
                  ltac:(discriminate))).
Defined.

End AfterTwoPeople.

Section FourPeople.
#[local] Existing Instance Scenes.four.

(** X7 on the batch of four rows of which two raise: the run returns, and
    its row is the only one. *)
Lemma sync_leaves_one_row_witness :
  let w := Lab.start Lab.fresh in
  let '(out, w') := sync Lab.people w in
  ((exists e, out = Raise e) /\ db w' = db w /\ trace w' = trace w)
  \/ exists r,
       sync_runs (db w') = sync_runs (db w) ++ [r]
       /\ id r = next_id (db w) /\ sync_name r = name Lab.people
       /\ ~ In (id r) (map id (sync_runs (db w)))
       /\ match out with
          | Ok st =>
              status r = "success" /\ is_Some (completed_at r)
              /\ records_processed r = processed st /\ records_created r = created st
              /\ records_updated r = updated st /\ records_skipped r = skipped st
              /\ error_message r = None
          | Raise e =>
              (status r = "failed" /\ is_Some (completed_at r)
               /\ error_message r = Some (exn_str e)
               /\ records_processed r = 0%Z /\ records_created r = 0%Z
               /\ records_updated r = 0%Z /\ records_skipped r = 0%Z)
              \/ (status r = "running" /\ completed_at r = None)
          end.
Proof.
  intros w.
  pose proof (sync_leaves_one_row Lab.people w empty_store_wf) as T.
  exact T.
Defined.

(** X10 on the same batch: two mappings more, two create calls counted and
    one that was not. *)
Lemma sync_accounting_witness :
  let out := sync Lab.people (Lab.start Lab.fresh) in
  let st := Stats 2 2 0 0 2 in
  exists added,
    trace out.2 = trace (Lab.start Lab.fresh) ++ added
    /\ Z.of_nat (size (record_mappings (db out.2)))
       = (Z.of_nat (size (record_mappings (db (Lab.start Lab.fresh)))) + created st)%Z
    /\ Z.of_nat (upserts added) = (created st + updated st)%Z
    /\ (created st <= Z.of_nat (creates added))%Z
    /\ (updated st <= Z.of_nat (updates added))%Z
    /\ (Z.of_nat (creates added + updates added) <= created st + updated st + errors st)%Z
    /\ queries added = 1.
Proof.
  intros out st.
  assert (out.1 = Ok st) as Hrun by (vm_compute; reflexivity).
  pose proof (sync_accounting Lab.people (Lab.start Lab.fresh) st out.2
                (pair_of_fst out _ Hrun)) as T.
  exact T.
Defined.

(** X27 on the same batch: the boundary is set although two rows raised. *)
Lemma boundary_moves_despite_errors_witness :
  let out := sync Lab.people (Lab.start Lab.fresh) in
  let st := Stats 2 2 0 0 2 in
  exists run_id w1 rows w2,
    start_sync_run (name Lab.people) (Lab.start Lab.fresh) = (Ok run_id, w1)
    /\ mysql_query (query Lab.people)
         (last_sync_time <$> sync_metadata (db w1) !! name Lab.people) w1 = (Ok rows, w2)
    /\ errors st = failures (replay Lab.people rows w2).1
    /\ get_last_sync_time (name Lab.people) out.2
       = (Ok (Some (utcnow (env (replay Lab.people rows w2).2)).1), out.2)
    /\ (forall key m,
          record_mappings (db out.2) !! key = Some m ->
          record_mappings (db (replay Lab.people rows w2).2) !! key = Some m).
Proof.
  intros out st.
  assert (out.1 = Ok st) as Hrun by (vm_compute; reflexivity).
  pose proof (boundary_moves_despite_errors Lab.people (Lab.start Lab.fresh) st out.2
                (pair_of_fst out _ Hrun) eq_refl) as T.
  exact T.
Defined.

End FourPeople.

Section AnnOlder.
#[local] Existing Instance Scenes.ann_older.

(** X9: the row of Ann, created as rec0 by a first run, is updated by a
    second and keeps its remote id and its creation time. *)
Lemma sync_keeps_identity_witness :
  let w1 := (sync (H0:=Scenes.two) Lab.people (Lab.start Lab.fresh)).2 in
  let m := Mapping "rec0"
             "4a4840ea7482506180e1b0d69435491b0aed495f0a3f7e8dd7f58097b5a3e315"
             "2024-01-01T00:00:01" "2024-01-01T00:00:01" in
  exists m',
    get_record_mapping "people" "1" (sync Lab.people w1).2
    = (Ok (Some m'), (sync Lab.people w1).2)
    /\ smartsuite_record_id m' = smartsuite_record_id m
    /\ created_at m' = created_at m
    /\ ("people" <> name Lab.people -> m' = m).
Proof.
  intros w1 m.
  assert (record_mappings (db w1) !! ("people", "1") = Some m) as Hm
    by (vm_compute; reflexivity).
  pose proof (sync_keeps_identity Lab.people w1 "people" "1" m Hm) as T.
  exact T.
Defined.

(** X20: a column that is not mapped changes; the row is skipped. *)
Lemma unmapped_columns_do_not_matter_witness :
  let r1 := Lab.person 1 "Ann" (VInt 30) in
  let r2 := Lab.person 1 "Ann" (VInt 30) ++ [("updated_at", VStr "2024-02-02 10:00:00")] in
  map_record Lab.people r1 = map_record Lab.people r2.
Proof.
  intros r1 r2.
  assert (forall src, In src (map fst (field_mappings Lab.people)) ->
                      dict_get src r1 = dict_get src r2) as Hsame.
  { intros src Hin. simpl in Hin.
    destruct Hin as [<-|[<-|[<-|[]]]]; reflexivity. }
  pose proof (unmapped_columns_do_not_matter Lab.people r1 r2 (Lab.start Lab.fresh) Hsame)
    as T.
  exact (proj1 T).
Defined.

End AnnOlder.

Section Nobody.
#[local] Existing Instance Scenes.nobody.

(** X12: the remote record is created, the state file is locked. *)
Lemma create_without_mapping_witness :
  let w := World (Lab.LabEnv 0 0 (Some 0%nat)) empty_store [] in
  let mapped := [("ext_id", VStr "1"); ("title", VStr "Ann"); ("s_age", VStr "30.0")] in
  _sync_record Lab.people (Lab.person 1 "Ann" (VInt 30)) w
  = (Raise (External "database is locked"),
     World (Lab.LabEnv 1 1 (Some 0%nat)) (db w) (trace w ++ [CreateCall "tbl1" mapped])).
Proof.
  intros w mapped.
  assert (map_record Lab.people (Lab.person 1 "Ann" (VInt 30)) = Ok mapped) as Hmap
    by (vm_compute; reflexivity).
  pose proof (create_without_mapping Lab.people (Lab.person 1 "Ann" (VInt 30)) w (VInt 1)
                mapped [("id", VStr "rec0")] (Lab.LabEnv 1 0 (Some 0%nat)) (VStr "rec0")
                "2024-01-01T00:00:00" (Lab.LabEnv 1 1 (Some 0%nat))
                (External "database is locked") (Lab.LabEnv 1 1 (Some 0%nat))
                eq_refl Hmap eq_refl eq_refl eq_refl eq_refl eq_refl) as T.
  exact (proj1 T).
Defined.

(** X15 and X16: a misspelt name runs nothing and exits with 0; a run
    under the name people leaves the boundary of orders alone. *)
Lemma run_once_unknown_name_witness :
  run_once [Lab.people] (Some "poeple") (Lab.start Lab.fresh)
  = ((if forallb (fun config => negb (enabled config)) [Lab.people] then 1 else 0)%Z,
     Lab.start Lab.fresh).
Proof.
  assert ("poeple" <> "") as Hname by discriminate.
  assert (Forall (fun config => enabled config = true -> name config <> "poeple")
            [Lab.people]) as Hnone.
  { constructor; [|constructor]. intros _. discriminate. }
  pose proof (run_once_unknown_name [Lab.people] "poeple" (Lab.start Lab.fresh)
                Hname Hnone) as T.
  exact T.
Defined.

Lemma run_once_named_footprint_witness :
  (get_last_sync_time "orders"
     (run_once [Lab.people] (Some "people") (Lab.start Lab.fresh)).2).1
  = (get_last_sync_time "orders" (Lab.start Lab.fresh)).1.
Proof.
  assert ("people" <> "") as Hname by discriminate.
  assert ("orders" <> "people") as Hother by discriminate.
  pose proof (run_once_named_footprint [Lab.people] "people" "orders" (Lab.start Lab.fresh)
                Hname Hother) as T.
  exact (proj1 T).
Defined.

(** X19: two columns mapped to one field; the later entry wins. *)
Lemma map_record_last_wins_witness :
  let row := [("id", VInt 1); ("home", VStr "555-0100"); ("mobile", VStr "555-0199")] in
  let payload := [("ext_id", VStr "1"); ("phone", VStr "555-0199")] in
  match last_source (field_mappings Scenes.contacts) row "phone" with
  | Some (src, value) =>
      exists r, transform_value Scenes.contacts src value = Ok r
                /\ dict_get "phone" payload = Some r
  | None => dict_get "phone" payload = None
  end.
Proof.
  intros row payload.
  assert (map_record Scenes.contacts row = Ok payload) as Hmap by (vm_compute; reflexivity).
  pose proof (map_record_last_wins Scenes.contacts row payload "phone" Hmap) as T.
  exact T.
Defined.

End Nobody.

Section SourceDown.
#[local] Existing Instance Scenes.source_down.

(** X11: the source is down. *)
Lemma source_failure_witness :
  let w := Faults.start Faults.fresh in
  let a := start_sync_run (name Lab.people) w in
  let failure := External "2003 Can't connect to MySQL server" in
  let '(out, w') := sync Lab.people w in
  record_mappings (db w') = record_mappings (db w)
  /\ sync_metadata (db w') = sync_metadata (db w)
  /\ (exists added, trace w' = trace w ++ added /\ reconciled added = [])
  /\ exists r,
       sync_runs (db w') = sync_runs (db w) ++ [r] /\ id r = 1%Z
       /\ match (sqlite_write (env a.2)).1 with
          | None => out = Raise failure /\ status r = "failed"
                    /\ error_message r = Some (exn_str failure) /\ is_Some (completed_at r)
          | Some x => out = Raise x /\ status r = "running"
                      /\ error_message r = None /\ completed_at r = None
          end.
Proof.
  intros w a failure.
  assert (a.1 = Ok 1%Z) as Ha by (vm_compute; reflexivity).
  pose proof (source_failure Lab.people w 1%Z a.2 failure (env a.2) empty_store_wf
                (pair_of_fst a _ Ha) eq_refl) as T.
  exact T.
Defined.

End SourceDown.

Section FifthWriteRefused.
#[local] Existing Instance Scenes.fifth_write_refused.

(** X28: two rows are created, the boundary is written, the write that
    closes the run is refused. *)
Lemma failure_after_boundary_witness :
  let w := Faults.start Faults.fresh in
  let a := start_sync_run (name Lab.people) w in
  let b := mysql_query (query Lab.people)
             (last_sync_time <$> sync_metadata (db a.2) !! name Lab.people) a.2 in
  let r := replay Lab.people Lab.two_people b.2 in
  let '(out, w') := sync Lab.people w in
  (exists e, out = Raise e)
  /\ get_last_sync_time (name Lab.people) w' = (Ok (Some "2024-01-01T00:00:03"), w')
  /\ record_mappings (db w') = record_mappings (db r.2)
  /\ exists row,
       sync_runs (db w') = sync_runs (db w) ++ [row] /\ id row = 1%Z
       /\ (status row = "failed" \/ status row = "running")
       /\ records_processed row = 0%Z /\ records_created row = 0%Z
       /\ records_updated row = 0%Z /\ records_skipped row = 0%Z.
Proof.
  intros w a b r.
  pose (c := utcnow (env r.2)). pose (d := sqlite_write c.2).
  pose (f := utcnow d.2). pose (g := sqlite_write f.2).
  assert (a.1 = Ok 1%Z) as Ha by (vm_compute; reflexivity).
  assert (b.1 = Ok Lab.two_people) as Hb by (vm_compute; reflexivity).
  assert (c.1 = "2024-01-01T00:00:03") as Hc by (vm_compute; reflexivity).
  assert (d.1 = None) as Hd by (vm_compute; reflexivity).
  assert (f.1 = "2024-01-01T00:00:04") as Hf by (vm_compute; reflexivity).
  assert (g.1 = Some (External "database is locked")) as Hg by (vm_compute; reflexivity).
  pose proof (failure_after_boundary Lab.people w 1%Z a.2 Lab.two_people b.2
                "2024-01-01T00:00:03" c.2 d.2 "2024-01-01T00:00:04" f.2
                (External "database is locked") g.2 empty_store_wf
                (pair_of_fst a _ Ha) (pair_of_fst b _ Hb) ltac:(discriminate)
                (pair_of_fst c _ Hc) (pair_of_fst d _ Hd) (pair_of_fst f _ Hf)
                (pair_of_fst g _ Hg)) as T.
  exact T.
Defined.

End FifthWriteRefused.



(** X21 and X22: a time of day inside a quoted literal is rewritten like
    the parameter after it. *)
Lemma format_query_rewrites_every_parameter_witness :
  _format_query "WHERE at > '12:30' AND seen > :last_sync_time"
  = "WHERE at > '12%(30)s' AND seen > %(last_sync_time)s".
Proof.
  pose proof (format_query_rewrites_every_parameter "WHERE at > '12" "30"
                "' AND seen > :last_sync_time" eq_refl eq_refl ltac:(discriminate) eq_refl)
    as T.
  exact (proj1 T).
Defined.

Lemma format_query_idempotent_witness :
  _format_query (_format_query "WHERE seen > :last_sync_time")
  = _format_query "WHERE seen > :last_sync_time".
Proof.
  pose proof (format_query_idempotent "WHERE seen > :last_sync_time" eq_refl) as T.
  exact (proj2 T).
Defined.

(** X23: the second entry lacks [source]; nothing is loaded, although the
    entry is disabled. *)
Lemma load_all_or_nothing_witness :
  get_enabled_syncs
    (VDict [("syncs", VList [Scenes.complete_entry; Scenes.entry_without_source])])
  = Failed (Raised (KeyError "source")).
Proof.
  pose proof (load_all_or_nothing
                [("syncs", VList [Scenes.complete_entry; Scenes.entry_without_source])]
                [Scenes.complete_entry; Scenes.entry_without_source] eq_refl) as T.
  assert (Forall (fun item => exists sync, __init__ item = Loaded sync)
            [Scenes.complete_entry]) as Hgood.
  { constructor; [|constructor]. eexists. reflexivity. }
  exact (proj1 (proj2 (proj1 (proj2 T) [Scenes.complete_entry] Scenes.entry_without_source
                         [] (Raised (KeyError "source")) eq_refl Hgood eq_refl))).
Defined.

End MoreRuns.
